(** * EC2 cost-optimisation report: the rightsizing recommendation core

    A shallow embedding of [main.py] (the part headed "EC2 COST OPTIMIZATION"):
    [get_instance_metrics], [get_all_instances], [get_instance_type_info],
    [get_recommendations] and [analyze_instances] up to the export of the
    report, together with the Python built-ins they rely on.

    - Python [float] is IEEE-754 binary64.  It is modelled by [spec_float]
      with the operations of [SpecFloat] at precision 53 and [emax = 1024]:
      every sum, difference, quotient and product below is rounded to nearest,
      ties to even, exactly as the interpreter does it.
    - Python [str] is modelled by [string], holding the UTF-8 encoding of
      the text; the separator ['.'] and the comparisons of the program act
      alike on both.
    - [print] appends a line to an explicit standard output, exceptions are
      an explicit outcome; both are threaded by the small monad [M].
    - The three AWS clients ([cloudwatch], [ec2], [pricing]) are module-level
      globals in the source; here they are the variables of the section
      [Tool], each one a function giving the answer of the service.

    The file has three parts: the program and the notions used to speak
    about it; facts about strings, floats and effects; and the properties of
    the recommendation engine, of the sampler and of the report assembler. *)

From Stdlib Require Import ZArith List String Ascii Bool Lia.
From Stdlib Require Import Floats.SpecFloat.
From Stdlib Require Import Numbers.DecimalString.
From Stdlib Require Import QArith.
Import ListNotations.

Local Open Scope string_scope.
Local Open Scope Z_scope.

(** ** Python floats *)

Module Float.

Definition prec : Z := 53.
Definition emax : Z := 1024.

Definition float := spec_float.

(** The four operations.  Python raises [ZeroDivisionError] on a zero
    divisor instead of returning the IEEE result; the program divides only
    by a truthy (nonzero) price and by the length of a non-empty list, so
    that case of [div] is never reached. *)
Definition add : float -> float -> float := SFadd prec emax.
Definition sub : float -> float -> float := SFsub prec emax.
Definition mul : float -> float -> float := SFmul prec emax.
Definition div : float -> float -> float := SFdiv prec emax.

(** [x < y], [x > y] and [x <= y]; all three are [False] as soon as one
    side is a NaN. *)
Definition ltb : float -> float -> bool := SFltb.
Definition gtb (x y : float) : bool := SFltb y x.
Definition leb : float -> float -> bool := SFleb.

(** [float(n)] for a Python [int]: the nearest float, ties to even.  Mixed
    arithmetic and comparisons ([max_util < 40], [sum / len], [... * 100])
    convert the [int] operand this way; the constants used by the program
    (0, 10, 40, 100) are represented exactly. *)
Definition of_int (n : Z) : float := binary_normalize prec emax n 0 false.

(** [bool(x)]: a float is falsy exactly when it is a zero (of either
    sign); NaN and the infinities are truthy. *)
Definition truthy (x : float) : bool :=
  match x with
  | S754_zero _ => false
  | _ => true
  end.

Definition is_nan (x : float) : bool :=
  match x with
  | S754_nan => true
  | _ => false
  end.

Definition is_finite (x : float) : bool :=
  match x with
  | S754_zero _ | S754_finite _ _ _ => true
  | _ => false
  end.

(** The integer nearest to [m * 2^e * 10^d], ties to even: the decimal
    digits that a correctly rounded conversion keeps at [d] places. *)
Definition scaled_round (m : positive) (e : Z) (d : nat) : Z :=
  let num := Zpos m * 10 ^ Z.of_nat d in
  if 0 <=? e then num * 2 ^ e
  else
    let den := 2 ^ (- e) in
    let q := num / den in
    let r := num mod den in
    match (2 * r ?= den) with
    | Lt => q
    | Eq => if Z.even q then q else q + 1
    | Gt => q + 1
    end.

Definition digits_of (n : Z) : string :=
  NilZero.string_of_uint (N.to_uint (Z.to_N n)).

Fixpoint zeros (k : nat) : string :=
  match k with
  | O => ""
  | S k' => String "0" (zeros k')
  end.

(** [n] read as a number with [d] decimal places: integer part, a point,
    and exactly [d] digits ([d = 0] prints no point). *)
Definition fixed_digits (n : Z) (d : nat) : string :=
  let p := 10 ^ Z.of_nat d in
  match d with
  | O => digits_of n
  | _ =>
      let frac := NilEmpty.string_of_uint (N.to_uint (Z.to_N (n mod p))) in
      digits_of (n / p) ++ "." ++ zeros (d - String.length frac) ++ frac
  end.

Definition sign_str (s : bool) : string := if s then "-" else "".

(** [format(x, '.<d>f')], the conversion behind [f"{x:.1f}"] and
    [f"{x:.2f}"]. *)
Definition format_f (d : nat) (x : float) : string :=
  match x with
  | S754_nan => "nan"
  | S754_infinity s => sign_str s ++ "inf"
  | S754_zero s => sign_str s ++ fixed_digits 0 d
  | S754_finite s m e => sign_str s ++ fixed_digits (scaled_round m e d) d
  end.

(** [round(x, d)] for [d >= 0]: the float nearest to the decimal that
    [format_f d x] prints; NaN and the infinities round to themselves. *)
Definition round (x : float) (d : nat) : float :=
  match x with
  | S754_finite s m e =>
      match scaled_round m e d with
      | Zpos n => div (S754_finite s n 0) (S754_finite false (Z.to_pos (10 ^ Z.of_nat d)) 0)
      | _ => S754_zero s
      end
  | _ => x
  end.

End Float.

(** ** Python strings, dicts and sequences *)

Module Py.

Definition nl : string := String "010" "".

(** [s.split(sep)] for a one-character separator.  The result of
    [str.split] with a separator is never empty, so it is given as its
    first piece and the list of the pieces after it: [s.split(sep)[0]] is
    the first component and cannot raise. *)
Fixpoint split (sep : ascii) (s : string) : string * list string :=
  match s with
  | EmptyString => (EmptyString, [])
  | String c s' =>
      let (piece, pieces) := split sep s' in
      if Ascii.eqb c sep then (EmptyString, piece :: pieces)
      else (String c piece, pieces)
  end.

(** [sep.join(xs)] *)
Definition join (sep : string) (xs : list string) : string :=
  String.concat sep xs.

(** [s * n] *)
Fixpoint repeat_str (s : string) (n : nat) : string :=
  match n with
  | O => ""
  | S n' => s ++ repeat_str s n'
  end.

(** [str(n)] for a length *)
Definition str_of_nat (n : nat) : string :=
  NilZero.string_of_uint (Nat.to_uint n).

(** A [dict] from strings to strings, in insertion order; assigning to a
    key that is present replaces its value in place. *)
Definition dict := list (string * string).

Fixpoint dict_set (k v : string) (d : dict) : dict :=
  match d with
  | [] => [(k, v)]
  | (k', v') :: d' =>
      if String.eqb k' k then (k, v) :: d' else (k', v') :: dict_set k v d'
  end.

(** [d.get(k, default)] *)
Fixpoint dict_get (k : string) (default : string) (d : dict) : string :=
  match d with
  | [] => default
  | (k', v') :: d' => if String.eqb k' k then v' else dict_get k default d'
  end.

(** [sum(xs)]: the accumulator starts at the integer 0 and the items are
    added from left to right, each addition rounded.  (This is the built-in
    of CPython up to 3.11; later versions also carry a correction term for
    the rounding errors, which leaves the sums evaluated below unchanged.) *)
Definition sum (xs : list Float.float) : Float.float :=
  fold_left Float.add xs (Float.of_int 0).

(** [max(xs)] of a non-empty sequence [x :: xs]: the first item is kept
    until a later item compares greater ([item > current]). *)
Definition max (x : Float.float) (xs : list Float.float) : Float.float :=
  fold_left (fun current item => if Float.gtb item current then item else current) xs x.

(** [len(xs)] as the float it becomes in [sum(...) / len(...)] *)
Definition len {A} (xs : list A) : Float.float :=
  Float.of_int (Z.of_nat (List.length xs)).

End Py.

(** ** Effects: standard output and exceptions *)

Inductive exn : Type :=
| Exception (msg : string).

(** [str(e)], as interpolated by [f"...{e}"] *)
Definition str_exn (e : exn) : string :=
  match e with Exception msg => msg end.

(** What [print] has written so far, one entry per call, oldest first. *)
Definition stdout := list string.

Inductive outcome (A : Type) : Type :=
| Ok (a : A)
| Raise (e : exn).
Arguments Ok {A} a.
Arguments Raise {A} e.

Definition M (A : Type) : Type := stdout -> outcome A * stdout.

Definition ret {A} (a : A) : M A := fun out => (Ok a, out).

Definition bind {A B} (m : M A) (f : A -> M B) : M B :=
  fun out =>
    match m out with
    | (Ok a, out') => f a out'
    | (Raise e, out') => (Raise e, out')
    end.

Definition print (line : string) : M unit := fun out => (Ok tt, (out ++ [line])%list).

Definition raise {A} (e : exn) : M A := fun out => (Raise e, out).

(** [try: body  except Exception as e: handler] *)
Definition try_except {A} (body : M A) (handler : exn -> M A) : M A :=
  fun out =>
    match body out with
    | (Ok a, out') => (Ok a, out')
    | (Raise e, out') => handler e out'
    end.

Declare Scope monad_scope.
Delimit Scope monad_scope with monad.
Notation "x <- m ;; k" := (bind m (fun x => k))
  (at level 61, m at next level, right associativity) : monad_scope.
Notation "m ;;; k" := (bind m (fun _ => k))
  (at level 61, right associativity) : monad_scope.

(** [for x in xs: acc = body(x, acc)]; a [continue] is a body that returns
    the accumulator as it is. *)
Fixpoint for_each {A S} (xs : list A) (body : A -> S -> M S) (acc : S) : M S :=
  match xs with
  | [] => ret acc
  | x :: xs' => bind (body x acc) (for_each xs' body)
  end.

(** The value returned and the lines printed by a run. *)
Definition returned {A} (r : outcome A * stdout) : outcome A := fst r.
Definition printed {A} (r : outcome A * stdout) : stdout := snd r.

(** ** Data *)

(** One item of ['Datapoints'] in the answer of
    [cloudwatch.get_metric_statistics]; the program reads these two keys. *)
Record datapoint : Type := {
  Average : Float.float;
  Maximum : Float.float
}.

(** The answer of [get_metric_statistics]; the key ['Datapoints'] may be
    absent, [response.get('Datapoints', [])] then gives the empty list. *)
Record metric_response : Type := {
  Datapoints : option (list datapoint)
}.

(** What the try block of [get_instance_type_info] meets for one instance
    type: the call or the decoding of the first price item raises; the
    ['PriceList'] is empty; the price item has no (or an empty) ['USD']
    entry; or ['USD'] holds the text of a number, given here as the float
    that [float(usd_price)] returns. *)
Inductive catalog_answer : Type :=
| CatalogRaises (e : exn)
| CatalogEmpty
| CatalogNoUSD
| CatalogUSD (price : Float.float).

(** An instance as [ec2.describe_instances] lists it. *)
Record ec2_instance : Type := {
  ec2_InstanceId : string;
  ec2_InstanceType : string;
  ec2_LaunchTime : Z;
  ec2_Tags : option (list (string * string))   (* (Key, Value), if 'Tags' is present *)
}.

(** The dictionaries built by [get_all_instances]. *)
Record instance : Type := {
  InstanceId : string;
  InstanceType : string;
  LaunchTime : Z;
  Tags : Py.dict
}.

(** The dictionaries appended to [results] by [analyze_instances]. *)
Record report_row : Type := {
  row_InstanceId : string;
  row_Name : string;
  row_InstanceType : string;
  row_AvgCPU : Float.float;
  row_MaxCPU : Float.float;
  row_Recommendations : string
}.

(** ** The program *)

(** The f-strings and literals appended to [recommendations]. *)
Definition underutilized_msg (max_util : Float.float) : string :=
  "Underutilized (Max CPU: " ++ Float.format_f 1 max_util ++ "%)".

Definition suggest_msg (new_type : string) (savings savings_percent : Float.float) : string :=
  "⬇️ Suggest: " ++ new_type ++ " → Save $" ++ Float.format_f 2 savings
    ++ "/hr (" ++ Float.format_f 1 savings_percent ++ "%)".

Definition stopping_msg : string := "Consider stopping: appears unused".

Definition no_recommendations_msg : string := "✅ No recommendations".

(** [[f"{family}.large", f"{family}.medium", f"{family}.small"]] *)
Definition potential_types (family : string) : list string :=
  [family ++ ".large"; family ++ ".medium"; family ++ ".small"].

(** ["\n".join(recommendations) if recommendations else "✅ No recommendations"] *)
Definition render_recommendations (recommendations : list string) : string :=
  match recommendations with
  | [] => no_recommendations_msg
  | _ => Py.join Py.nl recommendations
  end.

(** The dictionary appended to [results] (lines 143-150). *)
Definition report_row_of (inst : instance) (avg_util max_util : Float.float)
  (recommendations : list string) : report_row :=
  {| row_InstanceId := InstanceId inst;
     row_Name := Py.dict_get "Name" "" (Tags inst);
     row_InstanceType := InstanceType inst;
     row_AvgCPU := Float.round avg_util 1;
     row_MaxCPU := Float.round max_util 1;
     row_Recommendations := render_recommendations recommendations |}.

Section Tool.

Local Open Scope monad_scope.

(** The service behind [cloudwatch.get_metric_statistics] for the CPU
    metric of one instance over the last [days] days: it raises or
    answers. *)
Variable cloudwatch : string -> Z -> exn + metric_response.

(** The service behind [ec2.describe_instances] for running instances:
    it raises or answers with the reservations, each a list of
    instances. *)
Variable ec2 : exn + list (list ec2_instance).

(** The service behind [pricing.get_products] for one instance type. *)
Variable pricing : string -> catalog_answer.

Definition get_metric_statistics (instance_id : string) (days : Z) : M metric_response :=
  match cloudwatch instance_id days with
  | inl e => raise e
  | inr response => ret response
  end.

(** The sampler.  [None] stands for the pair [(None, None)]. *)
Definition get_instance_metrics (instance_id : string) (days : Z)
  : M (option (Float.float * Float.float)) :=
  response <- get_metric_statistics instance_id days ;;
  let datapoints := match Datapoints response with Some dps => dps | None => [] end in
  match datapoints with
  | [] => ret None
  | dp :: dps =>
      let avg_util := Float.div (Py.sum (map Average datapoints)) (Py.len datapoints) in
      let max_util := Py.max (Maximum dp) (map Maximum dps) in
      ret (Some (avg_util, max_util))
  end.

Definition get_all_instances : M (list instance) :=
  match ec2 with
  | inl e => raise e
  | inr reservations =>
      ret (flat_map
             (map (fun i =>
                     {| InstanceId := ec2_InstanceId i;
                        InstanceType := ec2_InstanceType i;
                        LaunchTime := ec2_LaunchTime i;
                        Tags := fold_left (fun d tag => Py.dict_set (fst tag) (snd tag) d)
                                  (match ec2_Tags i with Some tags => tags | None => [] end)
                                  [] |}))
             reservations)
  end.

(** The pricing lookup: any exception inside the [try] is printed and
    turned into [None]. *)
Definition get_instance_type_info (instance_type : string) : M (option Float.float) :=
  try_except
    (match pricing instance_type with
     | CatalogRaises e => raise e
     | CatalogEmpty => ret None
     | CatalogNoUSD => ret None
     | CatalogUSD price => ret (Some price)
     end)
    (fun e =>
       print ("Error getting pricing for " ++ instance_type ++ ": " ++ str_exn e) ;;;
       ret None).

(** The body of the loop over [potential_types] (lines 95-104);
    [recommendations] is the list being built. *)
Definition consider_candidate (current_type : string) (current_price : option Float.float)
  (new_type : string) (recommendations : list string) : M (list string) :=
  if String.eqb new_type current_type then ret recommendations   (* continue *)
  else
    new_price <- get_instance_type_info new_type ;;
    (* [if new_price and current_price and new_price < current_price]:
       [None] and a zero price are falsy, and the comparison is evaluated
       only when both prices are truthy *)
    match new_price, current_price with
    | Some new_price, Some current_price =>
        if Float.truthy new_price && Float.truthy current_price
           && Float.ltb new_price current_price
        then
          let savings := Float.sub current_price new_price in
          let savings_percent :=
            Float.mul (Float.div savings current_price) (Float.of_int 100) in
          ret (recommendations ++ [suggest_msg new_type savings savings_percent])%list
        else ret recommendations
    | _, _ => ret recommendations
    end.

(** The recommendation engine. *)
Definition get_recommendations (inst : instance) (avg_util max_util : Float.float)
  : M (list string) :=
  let recommendations : list string := [] in
  let current_type := InstanceType inst in
  recommendations <-
    (if Float.ltb max_util (Float.of_int 40) then
       let recommendations := (recommendations ++ [underutilized_msg max_util])%list in
       current_price <- get_instance_type_info current_type ;;
       let family := fst (Py.split "." current_type) in
       for_each (potential_types family) (consider_candidate current_type current_price)
         recommendations
     else ret recommendations) ;;
  if Float.ltb max_util (Float.of_int 10) then
    ret (recommendations ++ [stopping_msg])%list
  else ret recommendations.

(** One turn of the loop of [analyze_instances] (lines 134-152); [results]
    is the list being built. *)
Definition analyze_instance (inst : instance) (results : list report_row)
  : M (list report_row) :=
  let instance_id := InstanceId inst in
  print (" Analyzing " ++ instance_id ++ "...") ;;;
  try_except
    (metrics <- get_instance_metrics instance_id 14 ;;
     match metrics with
     | None => print " No metrics found." ;;; ret results
     | Some (avg_util, max_util) =>
         recommendations <- get_recommendations inst avg_util max_util ;;
         ret (results ++ [report_row_of inst avg_util max_util recommendations])%list
     end)
    (fun e => print (" Error with " ++ instance_id ++ ": " ++ str_exn e) ;;; ret results).

(** The report assembler, up to the point where the report is exported:
    [None] when there is nothing to export, otherwise the rows that the
    source writes to the CSV file and returns under ['items'].  Writing
    the file, the upload and the summary that follow (lines 157-170) only
    consume these rows. *)
Definition analyze_instances : M (option (list report_row)) :=
  print (Py.nl ++ " AWS EC2 Instance Cost Optimization Tool") ;;;
  print (Py.repeat_str "=" 60) ;;;
  instances <- get_all_instances ;;
  print ("Found " ++ Py.str_of_nat (List.length instances) ++ " running EC2 instance(s)" ++ Py.nl) ;;;
  results <- for_each instances analyze_instance [] ;;
  match results with
  | [] => print (Py.nl ++ " No data to export..............") ;;; ret None
  | _ => ret (Some results)
  end.

End Tool.

(** ** Notions used to state the properties *)

(** What the pricing lookup resolves for a type: a price, or [None] when
    the price is unknown.  It is the value that [get_instance_type_info]
    returns, see [get_instance_type_info_run]. *)
Definition resolved_price (pricing : string -> catalog_answer) (instance_type : string)
  : option Float.float :=
  match pricing instance_type with
  | CatalogUSD price => Some price
  | _ => None
  end.

(** The data points of an answer. *)
Definition datapoints_of (response : metric_response) : list datapoint :=
  match Datapoints response with
  | Some dps => dps
  | None => []
  end.

(** The family of a type: what precedes its first ['.']. *)
Definition family_of (instance_type : string) : string :=
  fst (Py.split "." instance_type).

Fixpoint contains (c : ascii) (s : string) : bool :=
  match s with
  | EmptyString => false
  | String c' s' => Ascii.eqb c' c || contains c s'
  end.

(** The candidates that are looked up: the potential types of the family,
    in their order, without the current type. *)
Definition candidates (current_type : string) : list string :=
  filter (fun new_type => negb (String.eqb new_type current_type))
    (potential_types (family_of current_type)).

Definition savings_of (current_price new_price : Float.float) : Float.float :=
  Float.sub current_price new_price.

Definition savings_percent_of (current_price new_price : Float.float) : Float.float :=
  Float.mul (Float.div (savings_of current_price new_price) current_price) (Float.of_int 100).

(** The entries that one candidate contributes, given the two resolved
    prices: one suggestion, or nothing. *)
Definition suggestion (new_type : string) (current_price new_price : option Float.float)
  : list string :=
  match new_price, current_price with
  | Some pn, Some pc =>
      if Float.truthy pn && Float.truthy pc && Float.ltb pn pc
      then [suggest_msg new_type (savings_of pc pn) (savings_percent_of pc pn)]
      else []
  | _, _ => []
  end.

Definition idle_part (max_util : Float.float) : list string :=
  if Float.ltb max_util (Float.of_int 10) then [stopping_msg] else [].

(** The list that the engine returns, written as one expression. *)
Definition recommendations_of (pricing : string -> catalog_answer)
  (current_type : string) (max_util : Float.float) : list string :=
  ((if Float.ltb max_util (Float.of_int 40) then
      underutilized_msg max_util
        :: flat_map (fun new_type =>
                       suggestion new_type (resolved_price pricing current_type)
                         (resolved_price pricing new_type))
             (candidates current_type)
    else [])
   ++ idle_part max_util)%list.

(** What the sampler returns for an instance of the inventory. *)
Definition sampled (cloudwatch : string -> Z -> exn + metric_response) (inst : instance)
  : outcome (option (Float.float * Float.float)) :=
  returned (get_instance_metrics cloudwatch (InstanceId inst) 14 []).

(** The rows that one instance adds to the report: its row when the sampler
    returned a summary, nothing when it returned "no data" or raised. *)
Definition rows_for (cloudwatch : string -> Z -> exn + metric_response)
  (pricing : string -> catalog_answer) (inst : instance) : list report_row :=
  match sampled cloudwatch inst with
  | Ok (Some (avg_util, max_util)) =>
      [report_row_of inst avg_util max_util
         (recommendations_of pricing (InstanceType inst) max_util)]
  | _ => []
  end.

Definition has_summary (cloudwatch : string -> Z -> exn + metric_response) (inst : instance)
  : bool :=
  match sampled cloudwatch inst with
  | Ok (Some _) => true
  | _ => false
  end.

(** The line printed when the loop reaches an instance. *)
Definition analyzing_line (inst : instance) : string :=
  " Analyzing " ++ InstanceId inst ++ "...".

(** The line printed when an instance is left out of the report. *)
Definition skip_notice (cloudwatch : string -> Z -> exn + metric_response) (inst : instance)
  : list string :=
  match sampled cloudwatch inst with
  | Raise e => [" Error with " ++ InstanceId inst ++ ": " ++ str_exn e]
  | Ok None => [" No metrics found."]
  | Ok (Some _) => []
  end.

(** The order of the floats, read off their representation: a rank for the
    class and sign, then the exponent, then the mantissa (both negated for
    negative numbers).  [SFcompare] is the lexicographic comparison of
    these keys, see [ltb_key] below. *)
Definition key (x : Float.float) : Z * Z * Z :=
  match x with
  | S754_infinity true => (-2, 0, 0)
  | S754_finite true m e => (-1, - e, - Zpos m)
  | S754_zero _ => (0, 0, 0)
  | S754_finite false m e => (1, e, Zpos m)
  | S754_infinity false => (2, 0, 0)
  | S754_nan => (3, 0, 0)
  end.

Definition key_lt (a b : Z * Z * Z) : Prop :=
  let '(c1, e1, m1) := a in
  let '(c2, e2, m2) := b in
  c1 < c2 \/ (c1 = c2 /\ (e1 < e2 \/ (e1 = e2 /\ m1 < m2))).

(** A float is a binary64 value when its mantissa and exponent are in
    range and canonical; every float that Python holds is one. *)
Definition valid (x : Float.float) : bool := valid_binary Float.prec Float.emax x.

(** The exact value of a finite binary64 float, counted in units of
    [2^-1074], the smallest positive one (so an integer); 0 for the
    others. *)
Definition scaled (x : Float.float) : Z :=
  match x with
  | S754_finite s m e => cond_Zopp s (Zpos m * 2 ^ (e + 1074))
  | _ => 0
  end.

(** A finite binary64 value: what a CPU percentage or a price is. *)
Definition is_number (x : Float.float) : bool := valid x && Float.is_finite x.

(** The exact value as a rational, and the exact (unrounded) mean. *)
Definition exact_value (x : Float.float) : Q :=
  (inject_Z (scaled x) / inject_Z (2 ^ 1074))%Q.

Definition exact_mean (xs : list Float.float) : Q :=
  (fold_right Qplus 0 (map exact_value xs) / inject_Z (Z.of_nat (List.length xs)))%Q.

(** [text] shows a number with exactly [d] digits after the point. *)
Definition has_decimals (d : nat) (text : string) : Prop :=
  exists whole frac, text = whole ++ "." ++ frac /\ String.length frac = d.

(** The decimal text of every [r < 100] has at most two characters. *)
Definition short_decimals : bool :=
  forallb (fun r => Nat.leb (String.length
                               (NilEmpty.string_of_uint (N.to_uint (Z.to_N (Z.of_nat r)))))
                      (if Nat.ltb r 10 then 1 else 2))
    (seq 0 100).

(** The arithmetic mean, in float arithmetic: the items are added from left
    to right and the sum is divided by their number. *)
Definition arithmetic_mean (xs : list Float.float) : Float.float :=
  Float.div (fold_left Float.add xs (Float.of_int 0))
    (Float.of_int (Z.of_nat (List.length xs))).

(** [m] is a maximum of [xs]: one of the items, and no item is greater. *)
Definition is_maximum (m : Float.float) (xs : list Float.float) : Prop :=
  In m xs /\ forall x, In x xs -> Float.gtb x m = false.

(** ** Scenarios

    Concrete services and instances, used to run the program. *)

Module Scenario.

(** [float("<n>e-3")]: the price [n / 1000] dollars, correctly rounded. *)
Definition usd_milli (n : Z) : Float.float :=
  Float.div (Float.of_int n) (Float.of_int 1000).

Definition on_type (t : string) (a : catalog_answer)
  (rest : string -> catalog_answer) : string -> catalog_answer :=
  fun t' => if String.eqb t' t then a else rest t'.

Definition no_catalog : string -> catalog_answer := fun _ => CatalogEmpty.

(** The m5 family at $0.096, $0.048 and $0.024 per hour. *)
Definition m5_pricing : string -> catalog_answer :=
  on_type "m5.large" (CatalogUSD (usd_milli 96))
    (on_type "m5.medium" (CatalogUSD (usd_milli 48))
       (on_type "m5.small" (CatalogUSD (usd_milli 24)) no_catalog)).

Definition running (instance_id instance_type : string) : instance :=
  {| InstanceId := instance_id; InstanceType := instance_type;
     LaunchTime := 0; Tags := [("Name", instance_id)] |}.

Definition m5_large : instance := running "i-0a" "m5.large".

(** The m5 family again, with the medium size listed at $0.00. *)
Definition free_medium_pricing : string -> catalog_answer :=
  on_type "m5.large" (CatalogUSD (usd_milli 96))
    (on_type "m5.medium" (CatalogUSD (usd_milli 0)) no_catalog).

(** A type without ['.'], and a catalog that prices it and the name
    [m5large.medium] derived from it. *)
Definition undelimited : instance := running "i-0d" "m5large".

Definition undelimited_pricing : string -> catalog_answer :=
  on_type "m5large" (CatalogUSD (usd_milli 96))
    (on_type "m5large.medium" (CatalogUSD (usd_milli 48)) no_catalog).

(** Three running instances: the telemetry query raises for the first,
    answers without data points for the second, and answers with two daily
    data points for the third. *)
Definition three_instances : exn + list (list ec2_instance) :=
  inr [[ {| ec2_InstanceId := "i-0a"; ec2_InstanceType := "m5.large";
            ec2_LaunchTime := 0; ec2_Tags := None |};
         {| ec2_InstanceId := "i-0b"; ec2_InstanceType := "m5.large";
            ec2_LaunchTime := 0; ec2_Tags := Some [] |} ];
       [ {| ec2_InstanceId := "i-0c"; ec2_InstanceType := "m5.large";
            ec2_LaunchTime := 0; ec2_Tags := Some [("Name", "web")] |} ]].

Definition three_telemetry : string -> Z -> exn + metric_response :=
  fun instance_id _ =>
    if String.eqb instance_id "i-0a" then inl (Exception "Throttling")
    else if String.eqb instance_id "i-0b" then inr {| Datapoints := Some [] |}
    else inr {| Datapoints :=
                  Some [ {| Average := Float.of_int 20; Maximum := Float.of_int 35 |};
                         {| Average := Float.of_int 10; Maximum := Float.of_int 30 |} ] |}.

(** A busy instance: one daily data point, average 50 and maximum 60. *)
Definition busy_telemetry : string -> Z -> exn + metric_response :=
  fun _ _ =>
    inr {| Datapoints :=
             Some [ {| Average := Float.of_int 50; Maximum := Float.of_int 60 |} ] |}.

(** Three days at a steady 0.1 percent: every daily average and every
    daily maximum is the float [0.1]. *)
Definition tenth : Float.float := Float.div (Float.of_int 1) (Float.of_int 10).

Definition steady_days : list datapoint :=
  [ {| Average := tenth; Maximum := tenth |};
    {| Average := tenth; Maximum := tenth |};
    {| Average := tenth; Maximum := tenth |} ].

Definition steady_telemetry : string -> Z -> exn + metric_response :=
  fun _ _ => inr {| Datapoints := Some steady_days |}.

End Scenario.

(** ** The inventory *)

(** The [Value] of the last tag with key [k], if any: what a later
    assignment leaves in a dictionary. *)
Fixpoint last_value (k : string) (tags : list (string * string)) : option string :=
  match tags with
  | [] => None
  | (k', v) :: rest =>
      match last_value k rest with
      | Some v' => Some v'
      | None => if String.eqb k' k then Some v else None
      end
  end.

(** The tags that [ec2.describe_instances] lists for an instance, none when
    the key ['Tags'] is absent. *)
Definition listed_tags (e : ec2_instance) : list (string * string) :=
  match ec2_Tags e with
  | Some tags => tags
  | None => []
  end.

(** The instances of all reservations, in the order of the answer. *)
Definition listed (reservations : list (list ec2_instance)) : list ec2_instance :=
  List.concat reservations.

(** The ['Name'] that the report shows for a listed instance. *)
Definition listed_name (e : ec2_instance) : string :=
  match last_value "Name" (listed_tags e) with
  | Some v => v
  | None => ""
  end.

(** The telemetry query for an instance identifier answers with at least
    one data point. *)
Definition has_datapoints (cloudwatch : string -> Z -> exn + metric_response)
  (instance_id : string) : bool :=
  match cloudwatch instance_id 14 with
  | inr response =>
      match datapoints_of response with
      | [] => false
      | _ => true
      end
  | inl _ => false
  end.

(** The line that a failed pricing lookup prints, if the lookup of this
    type fails. *)
Definition pricing_error_line (pricing : string -> catalog_answer) (instance_type : string)
  : list string :=
  match pricing instance_type with
  | CatalogRaises e => ["Error getting pricing for " ++ instance_type ++ ": " ++ str_exn e]
  | _ => []
  end.

(** The first two lines of a run, and the notice of an empty report. *)
Definition banner : list string :=
  [Py.nl ++ " AWS EC2 Instance Cost Optimization Tool"; Py.repeat_str "=" 60].

Definition no_data_notice : string := Py.nl ++ " No data to export..............".

(** ** Decoded JSON

    The Python value that [json.loads] or [response.json()] returns: [None],
    a [bool], an [int], a [float], a [str], a [list], or a [dict] with its
    items in order (its keys are strings and occur once). *)

#[local] Unset Elimination Schemes.
Inductive json : Type :=
| JNull
| JBool (b : bool)
| JInt (n : Z)
| JFloat (x : Float.float)
| JStr (s : string)
| JList (items : list json)
| JObj (members : list (string * json)).
#[local] Set Elimination Schemes.

Module Json.

(** [bool(x)] *)
Definition truthy (x : json) : bool :=
  match x with
  | JNull => false
  | JBool b => b
  | JInt n => negb (n =? 0)
  | JFloat x => Float.truthy x
  | JStr s => negb (String.eqb s "")
  | JList items => match items with [] => false | _ => true end
  | JObj members => match members with [] => false | _ => true end
  end.

(** The value stored under [k] in the items of a [dict]. *)
Fixpoint find (k : string) (members : list (string * json)) : option json :=
  match members with
  | [] => None
  | (k', v) :: rest => if String.eqb k' k then Some v else find k rest
  end.

Section Errors.

(** The exceptions that Python raises for the failing operations: [x[k]]
    ([KeyError] on a [dict] without the key, [TypeError] on the other
    values) and [x.attr] for a missing method ([AttributeError]). *)
Variable subscript_error : json -> string -> exn.
Variable attribute_error : json -> string -> exn.

(** [x[k]] for a string [k] *)
Definition getitem (x : json) (k : string) : exn + json :=
  match x with
  | JObj members =>
      match find k members with
      | Some v => inr v
      | None => inl (subscript_error x k)
      end
  | _ => inl (subscript_error x k)
  end.

(** [list(x.keys())] *)
Definition keys (x : json) : exn + list string :=
  match x with
  | JObj members => inr (map fst members)
  | _ => inl (attribute_error x "keys")
  end.

(** [x.get(k, None)] *)
Definition get (x : json) (k : string) : exn + json :=
  match x with
  | JObj members =>
      match find k members with
      | Some v => inr v
      | None => inr JNull
      end
  | _ => inl (attribute_error x "get")
  end.

End Errors.

(** [xs[0]] for a list: its first item, or [IndexError]. *)
Definition first {A} (xs : list A) : exn + A :=
  match xs with
  | x :: _ => inr x
  | [] => inl (Exception "list index out of range")
  end.

End Json.

(** Fallible steps in sequence: the first exception ends the sequence. *)
Definition and_then {A B} (a : exn + A) (f : A -> exn + B) : exn + B :=
  match a with
  | inl e => inl e
  | inr x => f x
  end.

Notation "x <-- a ;; k" := (and_then a (fun x => k))
  (at level 61, a at next level, right associativity).

(** A fallible step as a computation: it raises or returns. *)
Definition call {A} (a : exn + A) : M A :=
  match a with
  | inl e => raise e
  | inr x => ret x
  end.

(** ** The pricing lookup, decoded *)

Module Pricing.

Section Lookup.

Local Open Scope monad_scope.

Variable subscript_error : json -> string -> exn.
Variable attribute_error : json -> string -> exn.

(** [json.loads] on an item of ['PriceList']: it raises or returns. *)
Variable json_loads : string -> exn + json.

(** [float(x)] on a decoded value: it raises or returns. *)
Variable py_float : json -> exn + Float.float.

(** The service behind [pricing.get_products] with the filters of the
    source for one instance type: it raises, or answers with the items of
    ['PriceList']. *)
Variable get_products : string -> exn + list string.

(** Lines 77-82: from the decoded price item to the price. *)
Definition price_of_item (price_item : json) : exn + option Float.float :=
  on_terms <-- Json.getitem subscript_error price_item "terms" ;;
  terms <-- Json.getitem subscript_error on_terms "OnDemand" ;;
  term_keys <-- Json.keys attribute_error terms ;;
  term_key <-- Json.first term_keys ;;
  term <-- Json.getitem subscript_error terms term_key ;;
  price_dimensions <-- Json.getitem subscript_error term "priceDimensions" ;;
  dimension_keys <-- Json.keys attribute_error price_dimensions ;;
  dimension_key <-- Json.first dimension_keys ;;
  dimension <-- Json.getitem subscript_error price_dimensions dimension_key ;;
  price_per_unit <-- Json.getitem subscript_error dimension "pricePerUnit" ;;
  usd_price <-- Json.get attribute_error price_per_unit "USD" ;;
  if Json.truthy usd_price then
    price <-- py_float usd_price ;; inr (Some price)
  else inr None.

(** Lines 62-82: the body of the [try]. *)
Definition lookup (instance_type : string) : exn + option Float.float :=
  price_list <-- get_products instance_type ;;
  match price_list with
  | [] => inr None                       (* if not response['PriceList'] *)
  | item :: _ =>
      price_item <-- json_loads item ;;
      price_of_item price_item
  end.

Definition get_instance_type_info (instance_type : string) : M (option Float.float) :=
  try_except
    (call (lookup instance_type))
    (fun e =>
       print ("Error getting pricing for " ++ instance_type ++ ": " ++ str_exn e) ;;;
       ret None).


End Lookup.

(** A price item of the usual shape: the first on-demand term, its first
    price dimension and the price per unit of that dimension, with any
    further terms, dimensions and other members around them. *)
Definition price_item_of (term_key dimension_key : string)
  (price_per_unit : list (string * json))
  (other_dimension_members other_dimensions other_term_members other_terms : list (string * json))
  : json :=
  JObj [("terms",
         JObj [("OnDemand",
                JObj ((term_key,
                       JObj (("priceDimensions",
                              JObj ((dimension_key,
                                     JObj (("pricePerUnit", JObj price_per_unit)
                                             :: other_dimension_members))
                                      :: other_dimensions))
                               :: other_term_members))
                        :: other_terms))])].

End Pricing.

(** ** Python text methods

    On the UTF-8 encoding of the text.  A character starts at every byte
    that is not a continuation byte; the ASCII characters are single bytes
    and occur nowhere else. *)

Module Text.

(** The replacement scans from the left; [skip] counts the bytes of an
    occurrence just replaced that are still to be passed over. *)
Fixpoint replace_from (old new : string) (skip : nat) (s : string) : string :=
  match s with
  | EmptyString => EmptyString
  | String c s' =>
      match skip with
      | S k => replace_from old new k s'
      | O =>
          if String.prefix old s
          then new ++ replace_from old new (String.length old - 1) s'
          else String c (replace_from old new 0 s')
      end
  end.

(** [s.replace(old, new)] for a non-empty [old]: every occurrence, from the
    left, without overlap. *)
Definition replace (old new s : string) : string := replace_from old new 0 s.

Definition lower_char (c : ascii) : ascii :=
  let n := nat_of_ascii c in
  if Nat.leb 65 n && Nat.leb n 90 then ascii_of_nat (n + 32) else c.

(** [s.lower()] as far as the program looks at it.  The program only asks
    whether the result ends with ['.pptx'] or ['.pdf']; no character
    outside ASCII has one of these letters in its lower case, so lowering
    the ASCII letters decides the same. *)
Fixpoint lower (s : string) : string :=
  match s with
  | EmptyString => EmptyString
  | String c s' => String (lower_char c) (lower s')
  end.

(** [s.endswith(suffix)] *)
Fixpoint endswith (s suffix : string) : bool :=
  String.eqb s suffix
  || match s with
     | EmptyString => false
     | String _ s' => endswith s' suffix
     end.

(** [sub in s] for two texts *)
Fixpoint occurs (sub s : string) : bool :=
  String.prefix sub s
  || match s with
     | EmptyString => false
     | String _ s' => occurs sub s'
     end.

Definition is_continuation (c : ascii) : bool :=
  let n := nat_of_ascii c in
  Nat.leb 128 n && Nat.ltb n 192.

(** [s[:n]]: the first [n] characters. *)
Fixpoint take_chars (n : nat) (s : string) : string :=
  match s with
  | EmptyString => EmptyString
  | String c s' =>
      if is_continuation c then String c (take_chars n s')
      else
        match n with
        | O => EmptyString
        | S n' => String c (take_chars n' s')
        end
  end.

(** [len(s)]: the number of characters. *)
Fixpoint chars (s : string) : nat :=
  match s with
  | EmptyString => O
  | String c s' => if is_continuation c then chars s' else S (chars s')
  end.

End Text.

(** ** Computations over another state *)

Definition ST (S A : Type) : Type := S -> outcome A * S.

Module State.

Definition ret {S A} (a : A) : ST S A := fun w => (Ok a, w).

Definition bind {S A B} (m : ST S A) (f : A -> ST S B) : ST S B :=
  fun w =>
    match m w with
    | (Ok a, w') => f a w'
    | (Raise e, w') => (Raise e, w')
    end.

Definition raise {S A} (e : exn) : ST S A := fun w => (Raise e, w).

Definition call {S A} (a : exn + A) : ST S A :=
  match a with
  | inl e => raise e
  | inr x => ret x
  end.

(** An effect on the state that cannot fail. *)
Definition update {S} (f : S -> S) : ST S unit := fun w => (Ok tt, f w).

End State.

Declare Scope state_scope.
Delimit Scope state_scope with state.
Notation "x <- m ;; k" := (State.bind m (fun x => k))
  (at level 61, m at next level, right associativity) : state_scope.
Notation "m ;;; k" := (State.bind m (fun _ => k))
  (at level 61, right associativity) : state_scope.

(** ** The S3 trigger ([lambda_function.py]) *)

Module Lambda.

(** A shape of a slide: its text, when it has a [text] attribute. *)
Definition shape : Type := option string.

(** The dictionary that the handler returns. *)
Record response : Type := {
  statusCode : Z;
  body : string
}.

(** A call of [s3.put_object] that succeeded: bucket, key, body. *)
Definition put : Type := json * string * string.

Section Handler.

Local Open Scope state_scope.

Variable subscript_error : json -> string -> exn.
Variable index_error : json -> exn.
Variable attribute_error : json -> string -> exn.

(** [str(x)] on a decoded value *)
Variable py_str : json -> string.

(** [os.getenv('TOGETHER_API_KEY')] *)
Variable TOGETHER_API_KEY : option string.

(** [requests.post] to the completions endpoint with the given
    authorization header and message content, followed by
    [response.json()]: it raises or returns the decoded answer. *)
Variable post : string -> string -> exn + json.

(** [s3.download_file(bucket, key, '/tmp/input_file')]: it raises, or
    leaves the content of the object in the file. *)
Variable download_file : json -> json -> exn + string.

(** [Presentation(file)] from the content of the file: it raises or gives
    the slides, each with its shapes. *)
Variable Presentation : string -> exn + list (list shape).

(** [pdfplumber.open(file)] from the content of the file: it raises or
    gives, for each page, what [extract_text()] returns. *)
Variable pdf_pages : string -> exn + list (option string).

(** [s3.put_object(Bucket, Key, Body)]: it raises or succeeds. *)
Variable put_object : json -> string -> string -> option exn.

(** [x[0]] *)
Definition getitem0 (x : json) : exn + json :=
  match x with
  | JList (v :: _) => inr v
  | JStr s => if String.eqb s "" then inl (index_error x) else inr (JStr (Text.take_chars 1 s))
  | _ => inl (index_error x)
  end.

(** Lines 5-13.  The texts of the shapes that have a non-empty text, slide
    after slide, one per line. *)
Definition extract_pptx_text (file : string) : exn + string :=
  slides <-- Presentation file ;;
  inr (Py.join Py.nl
         (flat_map (fun slide =>
                      flat_map (fun sh : shape =>
                                  match sh with
                                  | Some text => if String.eqb text "" then [] else [text]
                                  | None => []
                                  end) slide)
            slides)).

(** Lines 15-18.  [page.extract_text() or ''] of every page, joined by a
    space. *)
Definition extract_pdf_text (file : string) : exn + string :=
  pages <-- pdf_pages file ;;
  inr (Py.join " "
         (map (fun page => match page with Some text => text | None => "" end) pages)).

(** Lines 20-38.  The request is outside the [try]; whatever fails in the
    navigation of the answer is caught and replaced by [str(output)]. *)
Definition summarize_with_together (text : string) : exn + json :=
  let authorization :=
    "Bearer " ++ match TOGETHER_API_KEY with Some k => k | None => "None" end in
  output <-- post authorization
               ("Summarize these notes:" ++ Py.nl ++ Py.nl ++ Text.take_chars 3000 text) ;;
  inr match (choices <-- Json.getitem subscript_error output "choices" ;;
             choice <-- getitem0 choices ;;
             message <-- Json.getitem subscript_error choice "message" ;;
             Json.getitem subscript_error message "content") with
      | inr content => content
      | inl _ => JStr (py_str output)
      end.

(** [event['Records'][0]['s3'][part][name]] *)
Definition event_field (event : json) (part name : string) : exn + json :=
  records <-- Json.getitem subscript_error event "Records" ;;
  record <-- getitem0 records ;;
  s3 <-- Json.getitem subscript_error record "s3" ;;
  item <-- Json.getitem subscript_error s3 part ;;
  Json.getitem subscript_error item name.

(** A method of [str] asked of a decoded value: [AttributeError] when the
    value is not a text. *)
Definition as_str (x : json) (method : string) : exn + string :=
  match x with
  | JStr s => inr s
  | _ => inl (attribute_error x method)
  end.

(** Lines 40-58.  The state is the list of the objects put so far.  The
    two branches that go on give the text and the name of the summary; the
    third returns at once. *)
Definition lambda_handler (event : json) : ST (list put) response :=
  bucket <- State.call (event_field event "bucket" "name") ;;
  key <- State.call (event_field event "object" "key") ;;
  file <- State.call (download_file bucket key) ;;
  key_text <- State.call (as_str key "lower") ;;
  branch <-
    (if Text.endswith (Text.lower key_text) ".pptx" then
       text <- State.call (extract_pptx_text file) ;;
       State.ret (Some (text, Text.replace ".pptx" "_summary.txt" key_text))
     else if Text.endswith (Text.lower key_text) ".pdf" then
       text <- State.call (extract_pdf_text file) ;;
       State.ret (Some (text, Text.replace ".pdf" "_summary.txt" key_text))
     else State.ret None) ;;
  match branch with
  | None => State.ret {| statusCode := 400; body := "Unsupported file type" |}
  | Some (text, summary_filename) =>
      summary <- State.call (summarize_with_together text) ;;
      encoded <- State.call (as_str summary "encode") ;;
      match put_object bucket summary_filename encoded with
      | Some e => State.raise e
      | None =>
          State.update (fun puts => puts ++ [(bucket, summary_filename, encoded)])%list ;;;
          State.ret {| statusCode := 200; body := "Summary saved as " ++ summary_filename |}
      end
  end.

End Handler.

End Lambda.

(** ** The world of the command-line tool *)

(** What the summaries of documents read and change: the lines printed,
    the text files on disk, the objects uploaded, the items logged, and
    the number of times the clock has been read. *)
Record world : Type := {
  console : stdout;
  files : list (string * string);
  objects : list (string * string * string);
  items : list (string * list (string * json));
  clock : nat
}.

Module World.

Definition print (line : string) : ST world unit :=
  State.update (fun w =>
    {| console := (console w ++ [line])%list; files := files w;
       objects := objects w; items := items w; clock := clock w |}).

(** The text of the file at a path, when there is one. *)
Fixpoint content (path : string) (fs : list (string * string)) : option string :=
  match fs with
  | [] => None
  | (p, text) :: fs' => if String.eqb p path then Some text else content path fs'
  end.

(** The files after [path] has been given the text [text]. *)
Fixpoint store (path text : string) (fs : list (string * string))
  : list (string * string) :=
  match fs with
  | [] => [(path, text)]
  | (p, t) :: fs' =>
      if String.eqb p path then (path, text) :: fs' else (p, t) :: store path text fs'
  end.

Definition set_file (path text : string) : ST world unit :=
  State.update (fun w =>
    {| console := console w; files := store path text (files w);
       objects := objects w; items := items w; clock := clock w |}).

Definition add_object (bucket name text : string) : ST world unit :=
  State.update (fun w =>
    {| console := console w; files := files w;
       objects := (objects w ++ [(bucket, name, text)])%list;
       items := items w; clock := clock w |}).

Definition add_item (table : string) (record : list (string * json)) : ST world unit :=
  State.update (fun w =>
    {| console := console w; files := files w; objects := objects w;
       items := (items w ++ [(table, record)])%list; clock := clock w |}).

(** [try: body  except C as e: handler] for a class [C] of exceptions *)
Definition try_except_of {A} (C : exn -> bool) (body : ST world A)
    (handler : exn -> ST world A) : ST world A :=
  fun w =>
    match body w with
    | (Ok a, w') => (Ok a, w')
    | (Raise e, w') => if C e then handler e w' else (Raise e, w')
    end.

End World.

(** ** More of [str] and [os.path] *)

Module Path.

(** [os.path.basename(p)] of [posixpath]: what follows the last slash. *)
Fixpoint basename (p : string) : string :=
  match p with
  | EmptyString => EmptyString
  | String c p' =>
      if contains "/" p' then basename p'
      else if Ascii.eqb c "/" then p' else p
  end.

End Path.

Module Blank.

Definition between (lo hi : nat) (c : ascii) : bool :=
  Nat.leb lo (nat_of_ascii c) && Nat.leb (nat_of_ascii c) hi.

(** The number of bytes of the white-space character at the head of a
    text, [0] when the text does not start with one.  The characters are
    those of [str.isspace]: U+0009-000D, U+001C-0020, U+0085, U+00A0,
    U+1680, U+2000-200A, U+2028, U+2029, U+202F, U+205F and U+3000. *)
Definition space_len (s : string) : nat :=
  match s with
  | EmptyString => 0
  | String c s1 =>
      if between 9 13 c || between 28 32 c then 1
      else
        match s1 with
        | EmptyString => 0
        | String d s2 =>
            if Ascii.eqb c "194" then
              if Ascii.eqb d "133" || Ascii.eqb d "160" then 2 else 0
            else
              match s2 with
              | EmptyString => 0
              | String e _ =>
                  if Ascii.eqb c "225" then
                    if Ascii.eqb d "154" && Ascii.eqb e "128" then 3 else 0
                  else if Ascii.eqb c "226" then
                    if Ascii.eqb d "128"
                       && (between 128 138 e || between 168 169 e || Ascii.eqb e "175")
                    then 3
                    else if Ascii.eqb d "129" && Ascii.eqb e "159" then 3 else 0
                  else if Ascii.eqb c "227" then
                    if Ascii.eqb d "128" && Ascii.eqb e "128" then 3 else 0
                  else 0
              end
        end
  end.

Fixpoint lstrip_from (skip : nat) (s : string) : string :=
  match s with
  | EmptyString => EmptyString
  | String c s' =>
      match skip with
      | S k => lstrip_from k s'
      | O =>
          match space_len s with
          | O => s
          | S k => lstrip_from k s'
          end
      end
  end.

(** [s.lstrip()] *)
Definition lstrip (s : string) : string := lstrip_from 0 s.

(** A text of white space only *)
Definition blank (s : string) : bool := String.eqb (lstrip s) "".

(** [s.rstrip()]: no white-space character starts with a byte that
    continues another character, so a blank rest starts at a character. *)
Fixpoint rstrip (s : string) : string :=
  match s with
  | EmptyString => EmptyString
  | String c s' => if blank s then EmptyString else String c (rstrip s')
  end.

(** [s.strip()] *)
Definition strip (s : string) : string := rstrip (lstrip s).

End Blank.

(** ** Summaries of local documents ([main.py]) *)

(** [k in x] for a text [k]: a key of a [dict], an item of a list, a part
    of a text; the other values are not iterable ([TypeError]). *)
Definition json_in (not_iterable : json -> exn) (k : string) (x : json) : exn + bool :=
  match x with
  | JObj members => inr (match Json.find k members with Some _ => true | None => false end)
  | JList items =>
      inr (existsb (fun item => match item with JStr s => String.eqb s k | _ => false end)
             items)
  | JStr s => inr (Text.occurs k s)
  | _ => inl (not_iterable x)
  end.

(** [x[:n]] *)
Definition json_slice (not_sliceable : json -> exn) (n : nat) (x : json) : exn + json :=
  match x with
  | JStr s => inr (JStr (Text.take_chars n s))
  | JList items => inr (JList (firstn n items))
  | _ => inl (not_sliceable x)
  end.

Section Documents.

Local Open Scope state_scope.

(** The configuration read from the environment (lines 12-15); [dynamodb]
    (line 23) is the resource when [DYNAMO_TABLE] is not empty and [None]
    when it is. *)
Variable S3_BUCKET : string.
Variable DYNAMO_TABLE : string.
Variable TOGETHER_API_KEY : string.

(** Whether [pptx] could be imported (lines 215-219). *)
Variable HAS_PPTX : bool.

(** [isinstance(e, botocore.exceptions.ClientError)] *)
Variable ClientError : exn -> bool.

(** The exception of [open(path, "r")] for a path without a file, and what
    [open(path, "w")] raises, if it does. *)
Variable missing_file : string -> exn.
Variable open_for_writing : string -> option exn.

(** [f.write(x)] for an [x] that is no text ([TypeError]). *)
Variable write_error : json -> exn.

(** [s3.upload_file] for the text of the file, the bucket and the name of
    the object: it raises or succeeds. *)
Variable upload_file : string -> string -> string -> option exn.

(** [table.put_item(Item=record)] *)
Variable put_item : string -> list (string * json) -> option exn.

(** [datetime.now().isoformat()] at the n-th reading of the clock. *)
Variable isoformat : nat -> string.

(** [requests.post] followed by [response.json()], as for the trigger. *)
Variable post : string -> string -> exn + json.

Variable subscript_error : json -> string -> exn.
Variable index_error : json -> exn.
Variable attribute_error : json -> string -> exn.
Variable not_iterable : json -> exn.
Variable not_sliceable : json -> exn.
Variable py_str : json -> string.

(** [Presentation(path)] and [pdfplumber.open(path)] from the text of the
    file, if there is one: they raise, or give the slides with their
    shapes and the text extracted from each page. *)
Variable Presentation : option string -> exn + list (list Lambda.shape).
Variable pdf_pages : option string -> exn + list (option string).

(** [analyze_instances()] as the entry point calls it, its result dropped,
    and the line that [input] reads ([EOFError] when there is none). *)
Variable analyze : ST world unit.
Variable typed : exn + string.

(** [s3.upload_file(file_name, bucket, object_name)] *)
Definition s3_upload_file (file_name bucket object_name : string) : ST world unit :=
  fun w =>
    match World.content file_name (files w) with
    | None => (Raise (missing_file file_name), w)
    | Some text =>
        match upload_file text bucket object_name with
        | Some e => (Raise e, w)
        | None => World.add_object bucket object_name text w
        end
    end.

(** Lines 109-118. *)
Definition upload_to_s3 (file_name bucket_name : string) (object_name : option string)
  : ST world bool :=
  let object_name :=
    match object_name with
    | None => Path.basename file_name
    | Some name => name
    end in
  World.try_except_of ClientError
    (s3_upload_file file_name bucket_name object_name ;;;
     World.print ("✅ Uploaded to s3://" ++ bucket_name ++ "/" ++ object_name) ;;;
     State.ret true)
    (fun e =>
       World.print ("❌ Failed to upload to S3: " ++ str_exn e) ;;;
       State.ret false).

(** Lines 120-126. *)
Definition write_to_dynamodb (table_name : string) (record : list (string * json))
  : ST world unit :=
  if String.eqb DYNAMO_TABLE "" then World.print "⚠️ DynamoDB not configured."
  else
    match put_item table_name record with
    | Some e => State.raise e
    | None =>
        World.add_item table_name record ;;;
        World.print ("✅ Record logged to DynamoDB table: " ++ table_name)
    end.

(** Lines 173-190.  The value returned is the empty text, the content of
    the answer (of whatever type) or [str(output)]. *)
Definition summarize_with_together (text : string) : ST world json :=
  if String.eqb TOGETHER_API_KEY "" then
    World.print "No Together API key set; skipping summarization." ;;;
    State.ret (JStr "")
  else
    output <- State.call
                (post ("Bearer " ++ TOGETHER_API_KEY)
                   ("Summarize this document:" ++ Py.nl ++ Text.take_chars 3000 text)) ;;
    present <- State.call (json_in not_iterable "choices" output) ;;
    if (present : bool) then
      State.call (choices <-- Json.getitem subscript_error output "choices" ;;
                  choice <-- Lambda.getitem0 index_error choices ;;
                  message <-- Json.getitem subscript_error choice "message" ;;
                  Json.getitem subscript_error message "content")
    else State.ret (JStr (py_str output)).

(** [with open(path, "r", encoding="utf-8") as file: file.read()] *)
Definition read_text (path : string) : ST world string :=
  fun w =>
    match World.content path (files w) with
    | Some text => (Ok text, w)
    | None => (Raise (missing_file path), w)
    end.

(** [with open(path, "w", encoding="utf-8") as f: f.write(x)]: opening
    empties the file, also when the writing then fails. *)
Definition write_text (path : string) (x : json) : ST world unit :=
  match open_for_writing path with
  | Some e => State.raise e
  | None =>
      World.set_file path "" ;;;
      match x with
      | JStr s => World.set_file path s
      | _ => State.raise (write_error x)
      end
  end.

(** [datetime.now().isoformat()] *)
Definition now : ST world string :=
  fun w =>
    (Ok (isoformat (clock w)),
     {| console := console w; files := files w; objects := objects w;
        items := items w; clock := S (clock w) |}).

(** Lines 192-212.  Once [summary.strip()] has been evaluated the summary
    is a text, [text] below. *)
Definition ai_summary_to_file (file_path : string) : ST world unit :=
  content <- read_text file_path ;;
  summary <- summarize_with_together content ;;
  text <- State.call (Lambda.as_str attribute_error summary "strip") ;;
  if negb (String.eqb (Blank.strip text) "") then
    let summary_path :=
      Text.replace ".pptx" "_summary.txt"
        (Text.replace ".pdf" "_summary.txt"
           (Text.replace ".csv" "_summary.txt" file_path)) in
    write_text summary_path summary ;;;
    World.print (Py.nl ++ "====== AI SUMMARY OF FILE ======") ;;;
    World.print text ;;;
    World.print (Py.nl ++ "Summary also saved at: " ++ summary_path ++ Py.nl) ;;;
    upload_to_s3 summary_path S3_BUCKET None ;;;
    if negb (String.eqb DYNAMO_TABLE "") then
      created_at <- now ;;
      write_to_dynamodb DYNAMO_TABLE
        [("filename", JStr (Path.basename summary_path));
         ("created_at", JStr created_at);
         ("summary_preview", JStr (Text.take_chars 200 text))]
    else State.ret tt
  else World.print (Py.nl ++ "[!] Summary not generated.").

(** Lines 221-230. *)
Definition extract_text_from_pptx (filepath : string) : ST world string :=
  if negb HAS_PPTX then State.raise (Exception "python-pptx not installed.")
  else
    fun w =>
      State.call
        (slides <-- Presentation (World.content filepath (files w)) ;;
         inr (Py.join Py.nl
                (flat_map (fun slide =>
                             flat_map (fun sh : Lambda.shape =>
                                         match sh with
                                         | Some text =>
                                             if String.eqb text "" then [] else [text]
                                         | None => []
                                         end) slide)
                   slides))) w.

(** [if not output_txt: output_txt = default] *)
Definition output_or (output_txt : option string) (default : string) : string :=
  match output_txt with
  | Some path => if String.eqb path "" then default else path
  | None => default
  end.

(** Lines 232-250. *)
Definition pptx_summarize_handler (file_path : string) (output_txt : option string)
  : ST world unit :=
  if negb HAS_PPTX then World.print "python-pptx not available."
  else
    ppt_text <- extract_text_from_pptx file_path ;;
    summary <- summarize_with_together ppt_text ;;
    let output_txt := output_or output_txt (Text.replace ".pptx" "_summary.txt" file_path) in
    write_text output_txt summary ;;;
    World.print ("PPTX summary written to: " ++ output_txt) ;;;
    upload_to_s3 output_txt S3_BUCKET None ;;;
    if negb (String.eqb DYNAMO_TABLE "") then
      created_at <- now ;;
      preview <- State.call (json_slice not_sliceable 200 summary) ;;
      write_to_dynamodb DYNAMO_TABLE
        [("filename", JStr (Path.basename file_path));
         ("summary_s3_key", JStr (Path.basename output_txt));
         ("created_at", JStr created_at);
         ("summary_preview", preview)]
    else State.ret tt.

(** Lines 252-269. *)
Definition pdf_summarize_handler (file_path : string) (output_txt : option string)
  : ST world unit :=
  text <- (fun w =>
             State.call
               (pages <-- pdf_pages (World.content file_path (files w)) ;;
                inr (Py.join Py.nl
                       (map (fun page => match page with Some text => text | None => "" end)
                          pages))) w) ;;
  summary <- summarize_with_together text ;;
  let output_txt := output_or output_txt (Text.replace ".pdf" "_summary.txt" file_path) in
  write_text output_txt summary ;;;
  World.print ("PDF summary written to: " ++ output_txt) ;;;
  upload_to_s3 output_txt S3_BUCKET None ;;;
  if negb (String.eqb DYNAMO_TABLE "") then
    created_at <- now ;;
    preview <- State.call (json_slice not_sliceable 200 summary) ;;
    write_to_dynamodb DYNAMO_TABLE
      [("filename", JStr (Path.basename file_path));
       ("summary_s3_key", JStr (Path.basename output_txt));
       ("created_at", JStr created_at);
       ("summary_preview", preview)]
  else State.ret tt.

(** [input(prompt)]: the prompt goes to standard output, the line typed
    comes back. *)
Definition input (prompt : string) : ST world string :=
  World.print prompt ;;; State.call typed.

(** Lines 272-282. *)
Definition main : ST world unit :=
  analyze ;;;
  line <- input (Py.nl ++ "Enter full path to a PPTX or PDF to summarize (or press Enter to skip): ") ;;
  let doc_path := Blank.strip line in
  if negb (String.eqb doc_path "") then
    if Text.endswith (Text.lower doc_path) ".pptx" then pptx_summarize_handler doc_path None
    else if Text.endswith (Text.lower doc_path) ".pdf" then pdf_summarize_handler doc_path None
    else World.print "File type not supported for summarization."
  else State.ret tt.

End Documents.

(** The world after some more lines have been printed. *)
Definition with_lines (lines : list string) (w : world) : world :=
  {| console := (console w ++ lines)%list; files := files w;
     objects := objects w; items := items w; clock := clock w |}.

(** The lines that an upload prints. *)
Definition uploaded_line (bucket object_name : string) : string :=
  "✅ Uploaded to s3://" ++ bucket ++ "/" ++ object_name.

Definition upload_failed_line (e : exn) : string :=
  "❌ Failed to upload to S3: " ++ str_exn e.

(** A computation that leaves a part of the world as it finds it, however
    it ends. *)
Definition keeps {X A} (part : world -> X) (m : ST world A) : Prop :=
  forall w, part (snd (m w)) = part w.

(** The lines printed when no summary is made. *)
Definition no_key_line : string := "No Together API key set; skipping summarization.".
Definition not_generated_line : string := Py.nl ++ "[!] Summary not generated.".

(** The question that the entry point asks. *)
Definition path_prompt : string :=
  Py.nl ++ "Enter full path to a PPTX or PDF to summarize (or press Enter to skip): ".

(** The name under which the handler stores the summary of an object,
    [None] for a key that is neither a presentation nor a PDF. *)
Definition summary_name (key_text : string) : option string :=
  if Text.endswith (Text.lower key_text) ".pptx"
  then Some (Text.replace ".pptx" "_summary.txt" key_text)
  else if Text.endswith (Text.lower key_text) ".pdf"
  then Some (Text.replace ".pdf" "_summary.txt" key_text)
  else None.

(** The text that the handler extracts from the downloaded file of a key
    that it supports. *)
Definition source_text (Presentation : string -> exn + list (list Lambda.shape))
    (pdf_pages : string -> exn + list (option string))
    (key_text file : string) : exn + string :=
  if Text.endswith (Text.lower key_text) ".pptx"
  then Lambda.extract_pptx_text Presentation file
  else Lambda.extract_pdf_text pdf_pages file.

(** An invocation for one object, with every service answering. *)
Module LambdaScenario.

Definition index_error : json -> exn :=
  fun _ => Exception "list index out of range".

Definition attribute_error : json -> string -> exn :=
  fun _ attr => Exception ("object has no attribute '" ++ attr ++ "'").

Definition subscript_error : json -> string -> exn :=
  fun _ k => Exception ("'" ++ k ++ "'").

(** The notification that S3 sends for one object. *)
Definition s3_event (bucket key : string) : json :=
  JObj [("Records",
         JList [JObj [("s3", JObj [("bucket", JObj [("name", JStr bucket)]);
                                   ("object", JObj [("key", JStr key)])])]])].

Definition completion : json :=
  JObj [("choices", JList [JObj [("message", JObj [("content", JStr "Three slides.")])]])].

Definition refusal : json :=
  JObj [("error", JObj [("message", JStr "Invalid API key")])].

(** [str] of the refusal; the other values do not occur. *)
Definition py_str (x : json) : string :=
  match x with
  | JObj [("error", JObj [("message", JStr m)])] => "{'error': {'message': '" ++ m ++ "'}}"
  | _ => ""
  end.

Definition post (reply : json) : string -> string -> exn + json :=
  fun _ _ => inr reply.

Definition download_file : json -> json -> exn + string :=
  fun _ _ => inr "content".

Definition Presentation : string -> exn + list (list Lambda.shape) :=
  fun _ => inr [[Some "Title"; None; Some ""]; [Some "Body"]].

Definition pdf_pages : string -> exn + list (option string) :=
  fun _ => inr [Some "Page one"; None].

Definition put_object : json -> string -> string -> option exn :=
  fun _ _ _ => None.

Definition handler (reply : json) : json -> ST (list Lambda.put) Lambda.response :=
  Lambda.lambda_handler subscript_error index_error attribute_error py_str
    (Some "key") (post reply) download_file Presentation pdf_pages put_object.

End LambdaScenario.

(** A session at the command line: every service answers, a presentation
    and a report are on disk. *)
Module DocumentsScenario.

Definition ClientError (e : exn) : bool :=
  String.prefix "An error occurred" (str_exn e).

Definition missing_file (path : string) : exn :=
  Exception ("[Errno 2] No such file or directory: '" ++ path ++ "'").

Definition open_for_writing : string -> option exn := fun _ => None.

Definition write_error : json -> exn :=
  fun _ => Exception "write() argument must be str".

Definition upload_file : string -> string -> string -> option exn := fun _ _ _ => None.

Definition put_item : string -> list (string * json) -> option exn := fun _ _ => None.

Definition isoformat (n : nat) : string := "2025-01-01T09:00:0" ++ Py.str_of_nat n.

Definition not_iterable : json -> exn :=
  fun _ => Exception "argument is not iterable".

Definition not_sliceable : json -> exn :=
  fun _ => Exception "object is not subscriptable".

Definition Presentation (file : option string) : exn + list (list Lambda.shape) :=
  match file with
  | Some _ => inr [[Some "Title"; None; Some ""]; [Some "Body"]]
  | None => inl (Exception "Package not found")
  end.

Definition pdf_pages (file : option string) : exn + list (option string) :=
  match file with
  | Some _ => inr [Some "Page one"; None]
  | None => inl (Exception "No such file")
  end.

Definition analyze : ST world unit := State.ret tt.

(** An answer whose message has no text. *)
Definition null_answer : json :=
  JObj [("choices", JList [JObj [("message", JObj [("content", JNull)])]])].

Definition disk : world :=
  {| console := [];
     files := [("talks/Deck.PPTX", "slides"); ("talks/intro.pptx", "slides");
               ("out/report.csv", "rows")];
     objects := []; items := []; clock := 0 |}.

(** The tool with the given key, answer of the service and line typed. *)
Definition tool (key : string) (reply : json) (line : string) : ST world unit :=
  main "smart-notes-uploads" "" key true ClientError missing_file open_for_writing
    write_error upload_file put_item isoformat (LambdaScenario.post reply)
    LambdaScenario.subscript_error LambdaScenario.index_error not_iterable not_sliceable
    LambdaScenario.py_str Presentation pdf_pages analyze (inr line).

Definition summarize (key : string) (reply : json) : string -> ST world json :=
  summarize_with_together key (LambdaScenario.post reply) LambdaScenario.subscript_error
    LambdaScenario.index_error not_iterable LambdaScenario.py_str.

Definition report_summary (key : string) (reply : json) : string -> ST world unit :=
  ai_summary_to_file "smart-notes-uploads" "" key ClientError missing_file
    open_for_writing write_error upload_file put_item isoformat
    (LambdaScenario.post reply) LambdaScenario.subscript_error
    LambdaScenario.index_error LambdaScenario.attribute_error not_iterable
    LambdaScenario.py_str.

Definition pptx (key : string) (reply : json)
  : string -> option string -> ST world unit :=
  pptx_summarize_handler "smart-notes-uploads" "" key true ClientError missing_file
    open_for_writing write_error upload_file put_item isoformat
    (LambdaScenario.post reply) LambdaScenario.subscript_error
    LambdaScenario.index_error not_iterable not_sliceable LambdaScenario.py_str
    Presentation.

End DocumentsScenario.

(** A catalog whose only entry is the m5.large item below: text in
    ['PriceList'], its decoding, and the number that [float] reads. *)
Module PricingScenario.

Definition subscript_error : json -> string -> exn :=
  fun _ k => Exception ("'" ++ k ++ "'").

Definition attribute_error : json -> string -> exn :=
  fun _ attr => Exception ("object has no attribute '" ++ attr ++ "'").

Definition m5_item : json :=
  Pricing.price_item_of "JRTCKXETXF.JRTCKXETXF" "JRTCKXETXF.JRTCKXETXF.6YS6EN2CT7"
    [("USD", JStr "0.0960000000")]
    [("unit", JStr "Hrs")] [] [("sku", JStr "JRTCKXETXF")] [].

Definition json_loads : string -> exn + json :=
  fun text => if String.eqb text "m5.large item" then inr m5_item
              else inl (Exception "Expecting value: line 1 column 1 (char 0)").

Definition py_float : json -> exn + Float.float :=
  fun x =>
    match x with
    | JStr "0.0960000000" => inr (Scenario.usd_milli 96)
    | _ => inl (Exception "could not convert string to float")
    end.

Definition get_products : string -> exn + list string :=
  fun t => if String.eqb t "m5.large" then inr ["m5.large item"; "another item"]
           else inr [].

End PricingScenario.

(** ** Facts about strings *)

Lemma append_assoc (a b c : string) : (a ++ b) ++ c = a ++ (b ++ c).
Proof. induction a as [| x a IH]; cbn; [reflexivity | now rewrite IH]. Qed.

Lemma append_cancel_l (a b c : string) : a ++ b = a ++ c -> b = c.
Proof.
  induction a as [| x a IH]; cbn; intros H; [exact H |].
  injection H as H. now apply IH.
Qed.

Lemma contains_append c (a b : string) :
  contains c (a ++ b) = contains c a || contains c b.
Proof.
  induction a as [| x a IH]; cbn; [reflexivity |].
  now rewrite IH, orb_assoc.
Qed.

(** The first piece of [split] has no separator and is a prefix of the
    string, followed by nothing or by a separator. *)
Lemma split_first_piece sep s :
  contains sep (fst (Py.split sep s)) = false
  /\ (s = fst (Py.split sep s)
      \/ exists rest, s = fst (Py.split sep s) ++ String sep rest).
Proof.
  induction s as [| c s [IHc IHs]]; cbn.
  - split; [reflexivity | now left].
  - destruct (Py.split sep s) as [piece pieces] eqn:E; cbn in *.
    destruct (Ascii.eqb_spec c sep) as [-> | Hne]; cbn.
    + split; [reflexivity |]. right. now exists s.
    + split.
      * rewrite IHc. now destruct (Ascii.eqb_spec c sep).
      * destruct IHs as [-> | [rest ->]]; [now left | right].
        now exists rest.
Qed.

(** Conversely, a prefix without separator that is followed by a separator
    is the first piece. *)
Lemma split_prefix sep prefix rest :
  contains sep prefix = false ->
  fst (Py.split sep (prefix ++ String sep rest)) = prefix.
Proof.
  induction prefix as [| c p IH]; cbn.
  - intros _. destruct (Py.split sep rest). now rewrite Ascii.eqb_refl.
  - intros H. apply orb_false_iff in H as [Hc Hp].
    specialize (IH Hp).
    destruct (Py.split sep (p ++ String sep rest)) as [piece pieces]; cbn in *.
    rewrite Hc. cbn. now rewrite IH.
Qed.

Lemma split_no_separator sep s :
  contains sep s = false -> fst (Py.split sep s) = s.
Proof.
  induction s as [| c s IH]; cbn; [reflexivity |].
  intros H. apply orb_false_iff in H as [Hc Hs].
  specialize (IH Hs). destruct (Py.split sep s) as [piece pieces]; cbn in *.
  rewrite Hc. cbn. now rewrite IH.
Qed.

(** The three kinds of entries are told apart by their first character. *)
Lemma underutilized_not_stopping m : underutilized_msg m <> stopping_msg.
Proof. unfold underutilized_msg, stopping_msg; cbn [append]. discriminate. Qed.

Lemma suggest_not_stopping c s p : suggest_msg c s p <> stopping_msg.
Proof. unfold suggest_msg, stopping_msg; cbn [append]. discriminate. Qed.

Lemma suggest_not_underutilized c s p m : suggest_msg c s p <> underutilized_msg m.
Proof. unfold suggest_msg, underutilized_msg; cbn [append]. discriminate. Qed.

(** Two suggestions that name different potential types of one family are
    different strings. *)
Lemma suggest_msg_same_type family c1 c2 s1 p1 s2 p2 :
  In c1 (potential_types family) -> In c2 (potential_types family) ->
  suggest_msg c1 s1 p1 = suggest_msg c2 s2 p2 -> c1 = c2.
Proof.
  unfold suggest_msg, potential_types. intros H1 H2 H.
  apply (append_cancel_l "⬇️ Suggest: ") in H.
  cbn [In] in H1, H2.
  destruct H1 as [<- | [<- | [<- | []]]], H2 as [<- | [<- | [<- | []]]];
    try reflexivity;
    rewrite !append_assoc in H; apply append_cancel_l in H;
    cbn [append] in H; discriminate H.
Qed.

Lemma suggestion_entry x c pc pn :
  In x (suggestion c pc pn) ->
  exists pc' pn',
    pc = Some pc' /\ pn = Some pn'
    /\ Float.truthy pn' = true /\ Float.truthy pc' = true /\ Float.ltb pn' pc' = true
    /\ x = suggest_msg c (savings_of pc' pn') (savings_percent_of pc' pn').
Proof.
  unfold suggestion. destruct pn as [pn' |], pc as [pc' |]; cbn; try easy.
  destruct (Float.truthy pn' && Float.truthy pc' && Float.ltb pn' pc') eqn:E; cbn; [| easy].
  intros [<- | []]. apply andb_true_iff in E as [E E3]. apply andb_true_iff in E as [E1 E2].
  exists pc', pn'. auto 8.
Qed.

Lemma stopping_not_in_suggestions (f : string -> option Float.float) pc cs :
  ~ In stopping_msg (flat_map (fun c => suggestion c pc (f c)) cs).
Proof.
  intros H. apply in_flat_map in H as [c [_ H]].
  apply suggestion_entry in H as (? & ? & _ & _ & _ & _ & _ & H).
  symmetry in H. now apply suggest_not_stopping in H.
Qed.

Lemma underutilized_not_in_suggestions (f : string -> option Float.float) pc cs m :
  ~ In (underutilized_msg m) (flat_map (fun c => suggestion c pc (f c)) cs).
Proof.
  intros H. apply in_flat_map in H as [c [_ H]].
  apply suggestion_entry in H as (? & ? & _ & _ & _ & _ & _ & H).
  symmetry in H. now apply suggest_not_underutilized in H.
Qed.

(** ** The order of the floats *)

Lemma compare_cont_eq m1 m2 : Pos.compare_cont Eq m1 m2 = (Zpos m1 ?= Zpos m2).
Proof. reflexivity. Qed.

Ltac compare_cases :=
  repeat match goal with
    | |- context [Z.compare ?a ?b] => destruct (Z.compare_spec a b)
    end.

Lemma ltb_key x y :
  Float.ltb x y = true
  <-> Float.is_nan x = false /\ Float.is_nan y = false /\ key_lt (key x) (key y).
Proof.
  unfold Float.ltb, SFltb, SFcompare, key_lt, key.
  destruct x as [[] | [] | | [] mx ex], y as [[] | [] | | [] my ey]; cbn [Float.is_nan];
    rewrite ?compare_cont_eq; compare_cases; cbn [CompOpp];
    split; intros Hyp; try discriminate Hyp; try (repeat split; lia);
    try (destruct Hyp as (Hx & Hy & Hk); try discriminate Hx; try discriminate Hy; lia).
Qed.

Lemma leb_key x y :
  Float.leb x y = true
  <-> Float.is_nan x = false /\ Float.is_nan y = false /\ ~ key_lt (key y) (key x).
Proof.
  unfold Float.leb, SFleb, SFcompare, key_lt, key.
  destruct x as [[] | [] | | [] mx ex], y as [[] | [] | | [] my ey]; cbn [Float.is_nan];
    rewrite ?compare_cont_eq; compare_cases; cbn [CompOpp];
    split; intros Hyp; try discriminate Hyp; try (repeat split; lia);
    try (destruct Hyp as (Hx & Hy & Hk); try discriminate Hx; try discriminate Hy; lia).
Qed.

Lemma key_lt_trans a b c : key_lt a b -> key_lt b c -> key_lt a c.
Proof.
  destruct a as [[c1 e1] m1], b as [[c2 e2] m2], c as [[c3 e3] m3].
  unfold key_lt. lia.
Qed.

Lemma key_lt_irrefl a : ~ key_lt a a.
Proof. destruct a as [[c1 e1] m1]. unfold key_lt. lia. Qed.

Lemma ltb_trans x y z :
  Float.ltb x y = true -> Float.ltb y z = true -> Float.ltb x z = true.
Proof.
  rewrite !ltb_key. intros (Hx & _ & Hxy) (_ & Hz & Hyz).
  eauto using key_lt_trans.
Qed.

Lemma ltb_irrefl x : Float.ltb x x = false.
Proof.
  destruct (Float.ltb x x) eqn:E; [| reflexivity].
  apply ltb_key in E as (_ & _ & E). now apply key_lt_irrefl in E.
Qed.

Lemma leb_trans x y z :
  Float.leb x y = true -> Float.leb y z = true -> Float.leb x z = true.
Proof.
  rewrite !leb_key. intros (Hx & _ & Hxy) (_ & Hz & Hyz).
  repeat split; try assumption.
  destruct (key x) as [[c1 e1] m1], (key y) as [[c2 e2] m2], (key z) as [[c3 e3] m3].
  unfold key_lt in *. lia.
Qed.

(** Between two numbers, "not greater" is "less or equal". *)
Lemma not_gtb_leb x y :
  Float.is_nan x = false -> Float.is_nan y = false ->
  Float.gtb x y = false -> Float.leb x y = true.
Proof.
  intros Hx Hy H. apply leb_key. repeat split; try assumption.
  intros Hlt. change (Float.ltb y x = false) in H.
  assert (Float.ltb y x = true) by (apply ltb_key; auto). congruence.
Qed.

Lemma leb_not_nan x y : Float.leb x y = true -> Float.is_nan x = false /\ Float.is_nan y = false.
Proof. rewrite leb_key. tauto. Qed.

(** ** Facts about float comparison *)

Lemma of_int_10 : Float.of_int 10 = S754_finite false 5629499534213120 (-49).
Proof. reflexivity. Qed.

Lemma of_int_40 : Float.of_int 40 = S754_finite false 5629499534213120 (-47).
Proof. reflexivity. Qed.

Lemma of_int_0 : Float.of_int 0 = S754_zero false.
Proof. reflexivity. Qed.

(** Below a positive float, below the same mantissa at a higher exponent. *)
Lemma ltb_raise_exponent x m e1 e2 :
  e1 <= e2 ->
  SFltb x (S754_finite false m e1) = true -> SFltb x (S754_finite false m e2) = true.
Proof.
  intros He. unfold SFltb, SFcompare.
  destruct x as [s | s | | s mx ex]; try (intros H; exact H).
  destruct s; [intros H; exact H |].
  destruct (Z.compare_spec ex e1) as [Heq | Hlt | Hgt].
  - subst ex. destruct (Z.compare_spec e1 e2) as [_ | _ | Hgt]; [easy | easy | lia].
  - intros _. destruct (Z.compare_spec ex e2) as [Heq | _ | Hgt']; [lia | easy | lia].
  - intros H; discriminate H.
Qed.

(** [x < 10] implies [x < 40], for every float [x] (a NaN satisfies
    neither). *)
Lemma lt_10_lt_40 x :
  Float.ltb x (Float.of_int 10) = true -> Float.ltb x (Float.of_int 40) = true.
Proof.
  rewrite of_int_10, of_int_40. unfold Float.ltb.
  apply ltb_raise_exponent. lia.
Qed.

Lemma not_lt_40_not_lt_10 x :
  Float.ltb x (Float.of_int 40) = false -> Float.ltb x (Float.of_int 10) = false.
Proof.
  intros H. destruct (Float.ltb x (Float.of_int 10)) eqn:E; [| reflexivity].
  apply lt_10_lt_40 in E. congruence.
Qed.

(** ** Exact values of binary64 floats *)

Lemma digits2_pos_bounds m :
  2 ^ (Zpos (digits2_pos m) - 1) <= Zpos m < 2 ^ Zpos (digits2_pos m).
Proof.
  induction m as [m IH | m IH |]; cbn [digits2_pos].
  - rewrite Pos2Z.inj_succ. replace (Z.succ (Zpos (digits2_pos m)) - 1) with
      (Z.succ (Zpos (digits2_pos m) - 1)) by lia.
    rewrite !Z.pow_succ_r by lia. lia.
  - rewrite Pos2Z.inj_succ. replace (Z.succ (Zpos (digits2_pos m)) - 1) with
      (Z.succ (Zpos (digits2_pos m) - 1)) by lia.
    rewrite !Z.pow_succ_r by lia. lia.
  - cbn. lia.
Qed.

(** A canonical mantissa of a binary64 float: exponent at least -1074, at
    most 53 digits, and exactly 53 above the smallest exponent. *)
Lemma valid_finite s m e :
  valid (S754_finite s m e) = true ->
  -1074 <= e <= 971
  /\ Zpos m < 2 ^ 53
  /\ (-1074 < e -> 2 ^ 52 <= Zpos m).
Proof.
  unfold valid, valid_binary, bounded, canonical_mantissa, fexp, emin, Float.prec, Float.emax.
  intros H. apply andb_true_iff in H as [Hc Hb].
  apply Z.eqb_eq in Hc. apply Z.leb_le in Hb.
  pose proof (digits2_pos_bounds m) as [Hlo Hhi].
  assert (Hd : Zpos (digits2_pos m) <= 53) by lia.
  split; [lia |]. split.
  - apply Z.lt_le_trans with (1 := Hhi). apply Z.pow_le_mono_r; lia.
  - intros He. assert (Zpos (digits2_pos m) = 53) as Hd' by lia.
    rewrite Hd' in Hlo. exact Hlo.
Qed.

(** Among positive binary64 floats the exact value grows with the
    exponent, whatever the mantissas. *)
Lemma scaled_exponent_lt m1 e1 m2 e2 :
  valid (S754_finite false m1 e1) = true ->
  valid (S754_finite false m2 e2) = true ->
  e1 < e2 ->
  Zpos m1 * 2 ^ (e1 + 1074) < Zpos m2 * 2 ^ (e2 + 1074).
Proof.
  intros H1 H2 He.
  apply valid_finite in H1 as (He1 & Hm1 & _).
  apply valid_finite in H2 as (He2 & _ & Hm2).
  specialize (Hm2 ltac:(lia)).
  assert (Hp1 : 0 < 2 ^ (e1 + 1074)) by (apply Z.pow_pos_nonneg; lia).
  assert (Hk : 0 < 2 ^ (e2 - e1 - 1)) by (apply Z.pow_pos_nonneg; lia).
  replace (e2 + 1074) with ((e2 - e1 - 1) + (1 + (e1 + 1074))) by lia.
  rewrite (Z.pow_add_r 2 (e2 - e1 - 1)), (Z.pow_add_r 2 1) by lia.
  change (2 ^ 1) with 2. change (2 ^ 53) with (2 ^ 52 * 2) in Hm1.
  remember (2 ^ (e1 + 1074)) as a. remember (2 ^ (e2 - e1 - 1)) as b.
  remember (2 ^ 52) as c.
  assert (Zpos m1 * a < c * 2 * a) by nia.
  assert (c * 2 * a <= Zpos m2 * (2 * a)) by nia.
  assert (Zpos m2 * (2 * a) <= Zpos m2 * (b * (2 * a))) by nia.
  lia.
Qed.

(** On binary64 numbers the order of the keys is the order of the exact
    values. *)
Lemma key_lt_scaled x y :
  valid x = true -> valid y = true ->
  Float.is_finite x = true -> Float.is_finite y = true ->
  key_lt (key x) (key y) -> scaled x < scaled y.
Proof.
  intros Vx Vy Fx Fy.
  destruct x as [sx | sx | | sx mx ex], y as [sy | sy | | sy my ey];
    try discriminate Fx; try discriminate Fy; clear Fx Fy.
  - destruct sx, sy; cbn; lia.
  - pose proof (valid_finite _ _ _ Vy) as (He & _).
    assert (0 < 2 ^ (ey + 1074)) by (apply Z.pow_pos_nonneg; lia).
    destruct sx, sy; cbn [key key_lt scaled cond_Zopp]; nia.
  - pose proof (valid_finite _ _ _ Vx) as (He & _).
    assert (0 < 2 ^ (ex + 1074)) by (apply Z.pow_pos_nonneg; lia).
    destruct sx, sy; cbn [key key_lt scaled cond_Zopp]; nia.
  - pose proof (valid_finite _ _ _ Vx) as (Hex & _).
    pose proof (valid_finite _ _ _ Vy) as (Hey & _).
    assert (0 < 2 ^ (ex + 1074)) by (apply Z.pow_pos_nonneg; lia).
    assert (0 < 2 ^ (ey + 1074)) by (apply Z.pow_pos_nonneg; lia).
    destruct sx, sy; cbn [key key_lt scaled cond_Zopp].
    + intros [Hc | [_ [He | [He Hm]]]]; [lia | |].
      * pose proof (scaled_exponent_lt my ey mx ex Vy Vx ltac:(lia)). lia.
      * replace ey with ex by lia. nia.
    + intros _. nia.
    + intros [Hc | [Hc _]]; lia.
    + intros [Hc | [_ [He | [He Hm]]]]; [lia | |].
      * exact (scaled_exponent_lt mx ex my ey Vx Vy He).
      * subst ey. nia.
Qed.

Lemma leb_scaled x y :
  valid x = true -> valid y = true ->
  Float.is_finite x = true -> Float.is_finite y = true ->
  Float.leb x y = true -> scaled x <= scaled y.
Proof.
  intros Vx Vy Fx Fy H. apply leb_key in H as (_ & _ & H).
  destruct (Z.le_gt_cases (scaled x) (scaled y)) as [Hle | Hgt]; [exact Hle |].
  exfalso. apply H. clear H.
  (* the keys are totally ordered on numbers, and equal keys give equal values *)
  destruct x as [sx | sx | | sx mx ex], y as [sy | sy | | sy my ey];
    try discriminate Fx; try discriminate Fy; clear Fx Fy;
    cbn [key key_lt scaled cond_Zopp] in *; try lia.
  - pose proof (valid_finite _ _ _ Vy) as (He & _).
    assert (0 < 2 ^ (ey + 1074)) by (apply Z.pow_pos_nonneg; lia).
    destruct sy; cbn [key key_lt scaled cond_Zopp] in *; nia.
  - pose proof (valid_finite _ _ _ Vx) as (He & _).
    assert (0 < 2 ^ (ex + 1074)) by (apply Z.pow_pos_nonneg; lia).
    destruct sx; cbn [key key_lt scaled cond_Zopp] in *; nia.
  - pose proof (valid_finite _ _ _ Vx) as (Hex & _).
    pose proof (valid_finite _ _ _ Vy) as (Hey & _).
    assert (0 < 2 ^ (ex + 1074)) by (apply Z.pow_pos_nonneg; lia).
    assert (0 < 2 ^ (ey + 1074)) by (apply Z.pow_pos_nonneg; lia).
    destruct sx, sy; cbn [key key_lt scaled cond_Zopp] in *.
    + destruct (Z.lt_total ex ey) as [He | [He | He]].
      * right. split; [reflexivity |]. left. lia.
      * subst ey. right. split; [reflexivity |]. right. split; [reflexivity |]. nia.
      * pose proof (scaled_exponent_lt my ey mx ex Vy Vx He). lia.
    + nia.
    + left. lia.
    + destruct (Z.lt_total ex ey) as [He | [He | He]].
      * pose proof (scaled_exponent_lt mx ex my ey Vx Vy He). lia.
      * subst ey. right. split; [reflexivity |]. right. split; [reflexivity |]. nia.
      * right. split; [reflexivity |]. left. lia.
Qed.

(** ** Rounding never loses a positive number *)

Lemma shr_m_shr_1 mrs : 0 <= shr_m mrs -> shr_m mrs <= shr_m (shr_1 mrs) * 2 + 1.
Proof.
  destruct mrs as [m r s]. cbn [shr_m]. intros Hm.
  destruct m as [| [p | p |] | p]; cbn [shr_1 shr_m]; lia.
Qed.

Lemma pow2_xI p : 2 ^ Zpos p~1 = 2 * (2 ^ Zpos p * 2 ^ Zpos p).
Proof.
  rewrite (Pos2Z.inj_xI p), Z.add_1_r, Z.pow_succ_r, Z.pow_twice_r by lia. reflexivity.
Qed.

Lemma pow2_xO p : 2 ^ Zpos p~0 = 2 ^ Zpos p * 2 ^ Zpos p.
Proof. rewrite (Pos2Z.inj_xO p), Z.pow_twice_r. reflexivity. Qed.

(** Shifting right by [p] places keeps at least [b] when the mantissa is at
    least [b * 2^p]. *)
Lemma iter_shr_1_lower p :
  forall mrs b,
    0 <= b -> 2 ^ Zpos p * b <= shr_m mrs -> b <= shr_m (SpecFloat.iter_pos shr_1 p mrs).
Proof.
  assert (Hstep : forall mrs b, 0 <= b -> 2 * b <= shr_m mrs -> b <= shr_m (shr_1 mrs)).
  { intros mrs b Hb H. pose proof (shr_m_shr_1 mrs ltac:(lia)). lia. }
  induction p as [p IH | p IH |]; intros mrs b Hb H; cbn [SpecFloat.iter_pos].
  - assert (Hp : 0 < 2 ^ Zpos p) by (apply Z.pow_pos_nonneg; lia).
    rewrite pow2_xI in H.
    apply IH; [lia |]. apply IH; [nia |]. apply Hstep; nia.
  - assert (Hp : 0 < 2 ^ Zpos p) by (apply Z.pow_pos_nonneg; lia).
    rewrite pow2_xO in H.
    apply IH; [lia |]. apply IH; nia.
  - apply Hstep; [lia |]. change (2 ^ 1) with 2 in H. lia.
Qed.

Lemma shr_m_of_loc m l : shr_m (shr_record_of_loc m l) = m.
Proof. destruct l as [| []]; reflexivity. Qed.

Lemma shr_fexp_positive m e l :
  0 < m -> -1074 <= e ->
  0 < shr_m (fst (shr_fexp Float.prec Float.emax m e l))
  /\ -1074 <= snd (shr_fexp Float.prec Float.emax m e l).
Proof.
  intros Hm He. unfold shr_fexp, shr, fexp, emin, Float.prec, Float.emax.
  destruct m as [| p | p]; try lia. cbn [Zdigits2].
  pose proof (digits2_pos_bounds p) as [Hlo _].
  destruct (Z.max (Zpos (digits2_pos p) + e - 53) (3 - 1024 - 53) - e) as [| q | q] eqn:En;
    cbn [fst snd]; rewrite ?shr_m_of_loc; try lia.
  split; [| lia].
  apply Z.lt_le_trans with (m := 1); [lia |].
  apply iter_shr_1_lower; [lia |]. rewrite shr_m_of_loc, Z.mul_1_r.
  apply Z.le_trans with (2 := Hlo). apply Z.pow_le_mono_r; lia.
Qed.

Lemma round_nearest_even_ge m l : m <= round_nearest_even m l.
Proof.
  unfold round_nearest_even. destruct l as [| []]; try lia.
  destruct (Z.even m); lia.
Qed.

(** Rounding a positive mantissa at an exponent of at least -1074 gives a
    positive float (finite or infinite), never a zero. *)
Lemma binary_round_aux_positive m e l :
  0 < m -> -1074 <= e ->
  Float.ltb (Float.of_int 0) (binary_round_aux Float.prec Float.emax false m e l) = true.
Proof.
  intros Hm He. unfold binary_round_aux.
  pose proof (shr_fexp_positive m e l Hm He) as [H1 H1e].
  destruct (shr_fexp Float.prec Float.emax m e l) as [mrs' e'] eqn:E1. cbn [fst snd] in *.
  pose proof (round_nearest_even_ge (shr_m mrs') (loc_of_shr_record mrs')) as Hr.
  pose proof (shr_fexp_positive (round_nearest_even (shr_m mrs') (loc_of_shr_record mrs'))
                e' loc_Exact ltac:(lia) H1e) as [H2 _].
  destruct (shr_fexp Float.prec Float.emax _ e' loc_Exact) as [mrs'' e''].
  cbn [fst snd] in *.
  destruct (shr_m mrs'') as [| q | q]; try lia.
  destruct (e'' <=? Float.emax - Float.prec); reflexivity.
Qed.

Lemma iter_xO_value m d : Zpos (Pos.iter xO m d) = Zpos m * 2 ^ Zpos d.
Proof.
  induction d as [| d IH] using Pos.peano_ind.
  - cbn. lia.
  - rewrite Pos.iter_succ, Pos2Z.inj_xO, IH, Pos2Z.inj_succ, Z.pow_succ_r by lia. lia.
Qed.

(** Aligning a mantissa to a lower exponent keeps the value. *)
Lemma shl_align_value m e e' :
  e' <= e ->
  Zpos (fst (shl_align m e e')) = Zpos m * 2 ^ (e - e').
Proof.
  intros He. unfold shl_align.
  destruct (e' - e) as [| d | d] eqn:Ed; cbn [fst]; try lia.
  - replace (e - e') with 0 by lia. lia.
  - rewrite iter_xO_value. f_equal. f_equal. lia.
Qed.

Lemma shl_align_exponent m e e' :
  -1074 <= e -> -1074 <= e' -> -1074 <= snd (shl_align m e e').
Proof.
  intros He He'. unfold shl_align. destruct (e' - e); cbn [snd]; lia.
Qed.

Lemma binary_round_positive m e :
  -1074 <= e ->
  Float.ltb (Float.of_int 0) (binary_round Float.prec Float.emax false m e) = true.
Proof.
  intros He. unfold binary_round.
  pose proof (shl_align_exponent m e
                (fexp Float.prec Float.emax (Zpos (digits2_pos m) + e)) He) as Hs.
  destruct (shl_align m e _) as [mz ez]. cbn [snd] in Hs.
  apply binary_round_aux_positive; [lia |]. apply Hs.
  unfold fexp, emin, Float.prec, Float.emax. lia.
Qed.

(** The difference of two binary64 values, the greater first, is a positive
    float: a subtraction never rounds to zero. *)
Lemma sub_positive x y :
  valid x = true -> valid y = true ->
  Float.ltb y x = true ->
  Float.ltb (Float.of_int 0) (Float.sub x y) = true.
Proof.
  intros Vx Vy Hlt. pose proof Hlt as Hk. apply ltb_key in Hk as (Hy & Hx & Hk).
  destruct x as [sx | sx | | sx mx ex], y as [sy | sy | | sy my ey];
    try discriminate Hx; try discriminate Hy.
  1-8: destruct sx, sy; cbn in Hk; first [lia | reflexivity].
  pose proof (key_lt_scaled _ _ Vy Vx eq_refl eq_refl Hk) as Hs.
  pose proof (valid_finite _ _ _ Vx) as (Hex & _).
  pose proof (valid_finite _ _ _ Vy) as (Hey & _).
  unfold Float.sub, SFsub. cbn zeta.
  set (ez := Z.min ex ey).
  assert (Hez : -1074 <= ez) by (unfold ez; lia).
  pose proof (shl_align_value mx ex ez ltac:(unfold ez; lia)) as Ax.
  pose proof (shl_align_value my ey ez ltac:(unfold ez; lia)) as Ay.
  assert (Hp : 0 < 2 ^ (ez + 1074)) by (apply Z.pow_pos_nonneg; lia).
  assert (Hsx : scaled (S754_finite sx mx ex)
                = cond_Zopp sx (Zpos (fst (shl_align mx ex ez))) * 2 ^ (ez + 1074)).
  { cbn [scaled]. rewrite Ax. replace (ex + 1074) with ((ex - ez) + (ez + 1074)) by lia.
    rewrite Z.pow_add_r by lia. destruct sx; cbn [cond_Zopp]; lia. }
  assert (Hsy : scaled (S754_finite sy my ey)
                = cond_Zopp sy (Zpos (fst (shl_align my ey ez))) * 2 ^ (ez + 1074)).
  { cbn [scaled]. rewrite Ay. replace (ey + 1074) with ((ey - ez) + (ez + 1074)) by lia.
    rewrite Z.pow_add_r by lia. destruct sy; cbn [cond_Zopp]; lia. }
  rewrite Hsx, Hsy in Hs.
  destruct (cond_Zopp sx (Zpos (fst (shl_align mx ex ez)))
            - cond_Zopp sy (Zpos (fst (shl_align my ey ez)))) as [| d | d] eqn:Ed;
    try nia.
  cbn [binary_normalize]. now apply binary_round_positive.
Qed.

(** ** Display precision *)

Lemma length_append (a b : string) :
  String.length (a ++ b) = (String.length a + String.length b)%nat.
Proof. induction a as [| c a IH]; cbn; [reflexivity | now rewrite IH]. Qed.

Lemma length_zeros k : String.length (Float.zeros k) = k.
Proof. induction k as [| k IH]; cbn; [reflexivity | now rewrite IH]. Qed.

Lemma small_decimal_length r :
  0 <= r < 100 ->
  (String.length (NilEmpty.string_of_uint (N.to_uint (Z.to_N r)))
   <= if (r <? 10)%Z then 1 else 2)%nat.
Proof.
  intros Hr.
  assert (Hall : short_decimals = true) by (vm_compute; reflexivity).
  unfold short_decimals in Hall. rewrite forallb_forall in Hall.
  specialize (Hall (Z.to_nat r)). rewrite Z2Nat.id in Hall by lia.
  assert (Hin : In (Z.to_nat r) (seq 0 100)) by (apply in_seq; lia).
  apply Hall in Hin. apply Nat.leb_le in Hin.
  destruct (r <? 10) eqn:E; destruct (Nat.ltb (Z.to_nat r) 10) eqn:E'; try exact Hin.
  - apply Z.ltb_lt in E. apply Nat.ltb_ge in E'. lia.
  - apply Z.ltb_ge in E. apply Nat.ltb_lt in E'. lia.
Qed.

Lemma fixed_digits_decimals n d :
  0 <= n -> d = 1%nat \/ d = 2%nat -> has_decimals d (Float.fixed_digits n d).
Proof.
  intros Hn Hd. unfold Float.fixed_digits, has_decimals.
  set (frac := NilEmpty.string_of_uint (N.to_uint (Z.to_N (n mod 10 ^ Z.of_nat d)))).
  assert (Hlen : (String.length frac <= d)%nat).
  { unfold frac. destruct Hd as [-> | ->].
    - change (10 ^ Z.of_nat 1) with 10.
      pose proof (Z.mod_pos_bound n 10 ltac:(lia)) as Hr.
      pose proof (small_decimal_length (n mod 10) ltac:(lia)) as H.
      destruct (n mod 10 <? 10) eqn:E; [exact H | apply Z.ltb_ge in E; lia].
    - change (10 ^ Z.of_nat 2) with 100.
      pose proof (Z.mod_pos_bound n 100 ltac:(lia)) as Hr.
      pose proof (small_decimal_length (n mod 100) Hr) as H.
      destruct (n mod 100 <? 10); lia. }
  exists (Float.digits_of (n / 10 ^ Z.of_nat d)), (Float.zeros (d - String.length frac) ++ frac).
  split.
  - destruct Hd as [-> | ->]; reflexivity.
  - rewrite length_append, length_zeros. lia.
Qed.

Lemma scaled_round_nonneg m e d : 0 <= Float.scaled_round m e d.
Proof.
  unfold Float.scaled_round.
  assert (Hnum : 0 <= Zpos m * 10 ^ Z.of_nat d) by (apply Z.mul_nonneg_nonneg; [lia | apply Z.pow_nonneg; lia]).
  destruct (0 <=? e) eqn:E.
  - apply Z.mul_nonneg_nonneg; [exact Hnum | apply Z.pow_nonneg; lia].
  - apply Z.leb_gt in E.
    assert (Hden : 0 < 2 ^ (- e)) by (apply Z.pow_pos_nonneg; lia).
    pose proof (Z.div_pos _ _ Hnum Hden) as Hq.
    destruct (2 * ((Zpos m * 10 ^ Z.of_nat d) mod 2 ^ (- e)) ?= 2 ^ (- e)); try lia.
    destruct (Z.even _); lia.
Qed.

(** A finite float is displayed with exactly one, respectively two, digits
    after the point. *)
Lemma format_f_decimals d x :
  d = 1%nat \/ d = 2%nat -> Float.is_finite x = true ->
  has_decimals d (Float.format_f d x).
Proof.
  intros Hd Hx.
  assert (Hsign : forall s n, 0 <= n ->
                              has_decimals d (Float.sign_str s ++ Float.fixed_digits n d)).
  { intros s n Hn. destruct (fixed_digits_decimals n d Hn Hd) as (whole & frac & -> & Hlen).
    exists (Float.sign_str s ++ whole), frac. split; [| exact Hlen].
    now rewrite append_assoc. }
  destruct x as [s | s | | s m e]; try discriminate Hx; cbn [Float.format_f].
  - apply Hsign. lia.
  - apply Hsign. apply scaled_round_nonneg.
Qed.

(** ** Facts about the effects *)

Lemma get_instance_type_info_run pricing instance_type out :
  exists lines,
    get_instance_type_info pricing instance_type out
    = (Ok (resolved_price pricing instance_type), (out ++ lines)%list).
Proof.
  unfold get_instance_type_info, resolved_price, try_except.
  destruct (pricing instance_type) as [e | | | price]; cbn.
  - eexists; reflexivity.
  - exists []; now rewrite app_nil_r.
  - exists []; now rewrite app_nil_r.
  - exists []; now rewrite app_nil_r.
Qed.

Lemma for_each_run {A B} (body : A -> list B -> M (list B)) (f : A -> list B) :
  (forall x acc out, exists lines, body x acc out = (Ok (acc ++ f x)%list, (out ++ lines)%list)) ->
  forall xs acc out,
  exists lines, for_each xs body acc out = (Ok (acc ++ flat_map f xs)%list, (out ++ lines)%list).
Proof.
  intros Hbody xs; induction xs as [| x xs IH]; intros acc out; cbn.
  - exists []; now rewrite !app_nil_r.
  - unfold bind. destruct (Hbody x acc out) as [l1 ->].
    destruct (IH (acc ++ f x)%list (out ++ l1)%list) as [l2 ->].
    exists (l1 ++ l2)%list. now rewrite <- !app_assoc.
Qed.

Lemma flat_map_skip {A B} (p : A -> bool) (f : A -> list B) xs :
  flat_map (fun x => if p x then [] else f x) xs
  = flat_map f (filter (fun x => negb (p x)) xs).
Proof.
  induction xs as [| x xs IH]; cbn; [reflexivity |].
  destruct (p x); cbn; now rewrite IH.
Qed.

Lemma consider_candidate_run pricing current_type current_price new_type acc out :
  exists lines,
    consider_candidate pricing current_type current_price new_type acc out
    = (Ok (acc ++ (if String.eqb new_type current_type then []
                   else suggestion new_type current_price (resolved_price pricing new_type)))%list,
       (out ++ lines)%list).
Proof.
  unfold consider_candidate.
  destruct (String.eqb new_type current_type).
  - exists []; cbn. now rewrite !app_nil_r.
  - unfold bind.
    destruct (get_instance_type_info_run pricing new_type out) as [lines ->].
    exists lines. unfold suggestion, savings_percent_of, savings_of.
    destruct (resolved_price pricing new_type) as [pn |], current_price as [pc |];
      cbn; rewrite ?app_nil_r; try reflexivity.
    destruct (Float.truthy pn && Float.truthy pc && Float.ltb pn pc);
      cbn; rewrite ?app_nil_r; reflexivity.
Qed.

Lemma get_recommendations_run pricing inst avg_util max_util out :
  exists lines,
    get_recommendations pricing inst avg_util max_util out
    = (Ok (recommendations_of pricing (InstanceType inst) max_util), (out ++ lines)%list).
Proof.
  unfold get_recommendations, recommendations_of, idle_part, candidates, family_of.
  set (t := InstanceType inst).
  destruct (Float.ltb max_util (Float.of_int 40)).
  - unfold bind at 1 2.
    destruct (get_instance_type_info_run pricing t out) as [l1 ->].
    destruct (for_each_run (consider_candidate pricing t (resolved_price pricing t)) _
                (consider_candidate_run pricing t (resolved_price pricing t))
                (potential_types (fst (Py.split "." t)))
                ([] ++ [underutilized_msg max_util])%list (out ++ l1)%list) as [l2 ->].
    exists (l1 ++ l2)%list. rewrite (app_assoc out l1 l2).
    rewrite (flat_map_skip (fun x => String.eqb x t)).
    destruct (Float.ltb max_util (Float.of_int 10)); unfold ret;
      rewrite ?app_nil_r; reflexivity.
  - exists []. unfold bind, ret. rewrite !app_nil_r.
    destruct (Float.ltb max_util (Float.of_int 10)); reflexivity.
Qed.

Lemma get_recommendations_returns pricing inst avg_util max_util out :
  returned (get_recommendations pricing inst avg_util max_util out)
  = Ok (recommendations_of pricing (InstanceType inst) max_util).
Proof.
  destruct (get_recommendations_run pricing inst avg_util max_util out) as [lines ->].
  reflexivity.
Qed.

(** ** The recommendation engine *)

Lemma ltb_40_40 : Float.ltb (Float.of_int 40) (Float.of_int 40) = false.
Proof. vm_compute. reflexivity. Qed.

Lemma in_recommendations_underutilized pricing t max_util :
  In (underutilized_msg max_util) (recommendations_of pricing t max_util)
  <-> Float.ltb max_util (Float.of_int 40) = true.
Proof.
  unfold recommendations_of, idle_part. split.
  - destruct (Float.ltb max_util (Float.of_int 40)) eqn:E40; [reflexivity |].
    rewrite (not_lt_40_not_lt_10 _ E40). cbn. intros [].
  - intros ->. now left.
Qed.

Lemma in_recommendations_stopping pricing t max_util :
  In stopping_msg (recommendations_of pricing t max_util)
  <-> Float.ltb max_util (Float.of_int 10) = true.
Proof.
  unfold recommendations_of, idle_part. split.
  - destruct (Float.ltb max_util (Float.of_int 10)); [reflexivity |].
    rewrite app_nil_r.
    destruct (Float.ltb max_util (Float.of_int 40)); [| intros []].
    intros [H | H].
    + now apply underutilized_not_stopping in H.
    + now apply stopping_not_in_suggestions in H.
  - intros ->. apply in_or_app. right. now left.
Qed.

(** C2.  The engine always returns a list; the underutilized advisory,
    carrying the max value, is in it exactly when [max_util < 40] (strictly:
    at 40 the list is empty), and it is then the first entry.  When the
    price of the current type is unknown the advisory is still there and no
    suggestion follows it. *)
Theorem underutilized_iff_max_below_40 :
  forall pricing inst avg_util max_util out,
  exists recs,
    returned (get_recommendations pricing inst avg_util max_util out) = Ok recs
    /\ (In (underutilized_msg max_util) recs <-> Float.ltb max_util (Float.of_int 40) = true)
    /\ (Float.ltb max_util (Float.of_int 40) = true ->
        hd_error recs = Some (underutilized_msg max_util))
    /\ (max_util = Float.of_int 40 -> recs = [])
    /\ (Float.ltb max_util (Float.of_int 40) = true ->
        resolved_price pricing (InstanceType inst) = None ->
        recs = underutilized_msg max_util :: idle_part max_util).
Proof.
  intros pricing inst avg_util max_util out.
  exists (recommendations_of pricing (InstanceType inst) max_util).
  split; [apply get_recommendations_returns |].
  split; [apply in_recommendations_underutilized |].
  unfold recommendations_of. repeat split.
  - intros ->. reflexivity.
  - intros ->. rewrite ltb_40_40. unfold idle_part.
    now rewrite (not_lt_40_not_lt_10 _ ltb_40_40).
  - intros -> ->. cbn [app]. f_equal.
    replace (flat_map _ _) with (@nil string); [reflexivity |].
    symmetry. induction (candidates (InstanceType inst)) as [| c cs IH]; cbn; [reflexivity |].
    rewrite <- IH. unfold suggestion. now destruct (resolved_price pricing c).
Qed.

(** C3.  The idle advisory is in the returned list exactly when
    [max_util < 10]; it then comes last, after the underutilized advisory
    that opens the list and the suggestions, so it never stands alone. *)
Theorem stopping_iff_max_below_10 :
  forall pricing inst avg_util max_util out,
  exists recs,
    returned (get_recommendations pricing inst avg_util max_util out) = Ok recs
    /\ (In stopping_msg recs <-> Float.ltb max_util (Float.of_int 10) = true)
    /\ (Float.ltb max_util (Float.of_int 10) = true ->
        In (underutilized_msg max_util) recs
        /\ exists suggestions,
            recs = (underutilized_msg max_util :: suggestions ++ [stopping_msg])%list
            /\ (forall entry, In entry suggestions ->
                              exists new_type savings savings_percent,
                                entry = suggest_msg new_type savings savings_percent)
            /\ ~ In stopping_msg suggestions
            /\ ~ In (underutilized_msg max_util) suggestions).
Proof.
  intros pricing inst avg_util max_util out.
  exists (recommendations_of pricing (InstanceType inst) max_util).
  split; [apply get_recommendations_returns |].
  split; [apply in_recommendations_stopping |].
  intros H10. pose proof (lt_10_lt_40 _ H10) as H40.
  split; [now apply in_recommendations_underutilized |].
  unfold recommendations_of, idle_part. rewrite H10, H40.
  eexists. split; [reflexivity |].
  split; [| split; [apply stopping_not_in_suggestions
                   | apply underutilized_not_in_suggestions]].
  intros entry H. apply in_flat_map in H as (c & _ & H).
  apply suggestion_entry in H as (pc & pn & _ & _ & _ & _ & _ & ->). eauto.
Qed.

(** C10.  The average utilization is not consulted: two calls that differ
    only in it behave alike (same list, same output). *)
Theorem get_recommendations_ignores_avg :
  forall pricing inst a1 a2 max_util out,
    get_recommendations pricing inst a1 max_util out
    = get_recommendations pricing inst a2 max_util out.
Proof. intros. unfold get_recommendations. reflexivity. Qed.

(** C4.  For an underutilized instance the suggestions come from the
    candidates [family.large], [family.medium], [family.small], taken in
    that order without the current type, where the family is what precedes
    the first ['.'] of the current type; the returned list is the advisory,
    then the entries of these candidates in that order, then the idle
    part.  Each entry names the candidate it comes from. *)
Theorem candidates_follow_declaration_order :
  forall pricing inst avg_util max_util out,
    Float.ltb max_util (Float.of_int 40) = true ->
    let current_type := InstanceType inst in
    let family := family_of current_type in
    (contains "." family = false
     /\ (current_type = family \/ exists rest, current_type = family ++ "." ++ rest)
     /\ (forall prefix rest,
            current_type = prefix ++ "." ++ rest -> contains "." prefix = false ->
            family = prefix))
    /\ candidates current_type
       = filter (fun c => negb (String.eqb c current_type))
           [family ++ ".large"; family ++ ".medium"; family ++ ".small"]
    /\ returned (get_recommendations pricing inst avg_util max_util out)
       = Ok (underutilized_msg max_util
               :: flat_map (fun c => suggestion c (resolved_price pricing current_type)
                                       (resolved_price pricing c))
                    (candidates current_type)
               ++ idle_part max_util)%list
    /\ (forall c entry,
          In entry (suggestion c (resolved_price pricing current_type) (resolved_price pricing c)) ->
          exists savings savings_percent, entry = suggest_msg c savings savings_percent).
Proof.
  intros pricing inst avg_util max_util out H40 current_type family.
  split.
  { destruct (split_first_piece "." current_type) as [Hc Hp].
    repeat split; [exact Hc | exact Hp |].
    intros prefix rest Ht Hprefix. unfold family, family_of. rewrite Ht.
    now apply split_prefix. }
  split; [reflexivity |].
  split.
  - rewrite get_recommendations_returns. unfold recommendations_of.
    fold current_type. now rewrite H40.
  - intros c entry H. apply suggestion_entry in H as (pc & pn & _ & _ & _ & _ & _ & ->).
    eauto.
Qed.

(** The m5.large scenario: medium and small are suggested, in this order. *)
Lemma candidates_follow_declaration_order_m5 :
  candidates "m5.large" = ["m5.medium"; "m5.small"]
  /\ returned (get_recommendations Scenario.m5_pricing Scenario.m5_large
                 (Float.of_int 20) (Float.of_int 35) [])
     = Ok ["Underutilized (Max CPU: 35.0%)";
           "⬇️ Suggest: m5.medium → Save $0.05/hr (50.0%)";
           "⬇️ Suggest: m5.small → Save $0.07/hr (75.0%)"].
Proof.
  destruct (candidates_follow_declaration_order Scenario.m5_pricing Scenario.m5_large
              (Float.of_int 20) (Float.of_int 35) [] eq_refl) as (_ & Hc & Hr & _).
  split.
  - etransitivity; [exact Hc | reflexivity].
  - etransitivity; [exact Hr | vm_compute; reflexivity].
Defined.

(** ** Downgrade suggestions *)

Lemma in_candidates t c :
  In c (candidates t) <-> In c (potential_types (family_of t)) /\ c <> t.
Proof.
  unfold candidates. rewrite filter_In, negb_true_iff, String.eqb_neq. reflexivity.
Qed.

(** The suggestions found in the returned list for a candidate are the
    entry of that candidate. *)
Lemma in_recommendations_suggest pricing t max_util c savings pct :
  In c (potential_types (family_of t)) ->
  In (suggest_msg c savings pct) (recommendations_of pricing t max_util) ->
  Float.ltb max_util (Float.of_int 40) = true
  /\ c <> t
  /\ In (suggest_msg c savings pct)
       (suggestion c (resolved_price pricing t) (resolved_price pricing c)).
Proof.
  intros Hc. unfold recommendations_of, idle_part. intros H.
  apply in_app_or in H as [H | H].
  - destruct (Float.ltb max_util (Float.of_int 40)); [| destruct H].
    destruct H as [H | H]; [symmetry in H; now apply suggest_not_underutilized in H |].
    apply in_flat_map in H as (c' & Hc' & H).
    apply in_candidates in Hc' as [Hc' Hne].
    pose proof H as H'.
    apply suggestion_entry in H' as (pc & pn & _ & _ & _ & _ & _ & He).
    pose proof (suggest_msg_same_type _ _ _ _ _ _ _ Hc Hc' He) as <-.
    auto.
  - destruct (Float.ltb max_util (Float.of_int 10)); [| destruct H].
    destruct H as [H | []]. symmetry in H. now apply suggest_not_stopping in H.
Qed.

(** C1, as the code has it.  For an underutilized instance and a potential
    type other than the current one, a suggestion for that type is in the
    returned list exactly when both prices are resolved, both are nonzero,
    and the candidate price is strictly lower.  The entry is then the one
    built from savings = current - candidate and savings percent =
    savings / current * 100; the savings are strictly positive (for
    binary64 prices), and the amounts are shown with two and one digits
    after the point (when finite). *)
Theorem suggestion_iff_cheaper_nonzero_price :
  forall pricing inst avg_util max_util out new_type,
    Float.ltb max_util (Float.of_int 40) = true ->
    In new_type (potential_types (family_of (InstanceType inst))) ->
    new_type <> InstanceType inst ->
    exists recs,
      returned (get_recommendations pricing inst avg_util max_util out) = Ok recs
      /\ ((exists savings savings_percent,
              In (suggest_msg new_type savings savings_percent) recs)
          <-> exists current_price new_price,
              resolved_price pricing (InstanceType inst) = Some current_price
              /\ resolved_price pricing new_type = Some new_price
              /\ Float.truthy current_price = true
              /\ Float.truthy new_price = true
              /\ Float.ltb new_price current_price = true)
      /\ (forall current_price new_price,
             resolved_price pricing (InstanceType inst) = Some current_price ->
             resolved_price pricing new_type = Some new_price ->
             Float.truthy current_price = true ->
             Float.truthy new_price = true ->
             Float.ltb new_price current_price = true ->
             let savings := Float.sub current_price new_price in
             let savings_percent :=
               Float.mul (Float.div savings current_price) (Float.of_int 100) in
             In (suggest_msg new_type savings savings_percent) recs
             /\ (forall s p, In (suggest_msg new_type s p) recs ->
                             suggest_msg new_type s p
                             = suggest_msg new_type savings savings_percent)
             /\ (valid current_price = true -> valid new_price = true ->
                 Float.ltb (Float.of_int 0) savings = true)
             /\ (Float.is_finite savings = true ->
                 has_decimals 2 (Float.format_f 2 savings))
             /\ (Float.is_finite savings_percent = true ->
                 has_decimals 1 (Float.format_f 1 savings_percent))).
Proof.
  intros pricing inst avg_util max_util out new_type H40 Hin Hne.
  exists (recommendations_of pricing (InstanceType inst) max_util).
  split; [apply get_recommendations_returns |].
  set (t := InstanceType inst) in *.
  assert (Hemit : forall pc pn,
             resolved_price pricing t = Some pc ->
             resolved_price pricing new_type = Some pn ->
             Float.truthy pc = true -> Float.truthy pn = true ->
             Float.ltb pn pc = true ->
             In (suggest_msg new_type (savings_of pc pn) (savings_percent_of pc pn))
               (recommendations_of pricing t max_util)).
  { intros pc pn Hpc Hpn Tc Tn Hlt. unfold recommendations_of. rewrite H40.
    apply in_or_app. left. right. apply in_flat_map. exists new_type.
    split; [now apply in_candidates |].
    unfold suggestion. rewrite Hpc, Hpn, Tc, Tn, Hlt. now left. }
  split; [split |].
  - intros (savings & pct & H).
    apply in_recommendations_suggest in H as (_ & _ & H); [| exact Hin].
    apply suggestion_entry in H as (pc & pn & Hpc & Hpn & Tn & Tc & Hlt & _).
    exists pc, pn. auto.
  - intros (pc & pn & Hpc & Hpn & Tc & Tn & Hlt). eauto.
  - intros pc pn Hpc Hpn Tc Tn Hlt savings savings_percent.
    split; [now apply Hemit |].
    split.
    { intros s p H.
      apply in_recommendations_suggest in H as (_ & _ & H); [| exact Hin].
      apply suggestion_entry in H as (pc' & pn' & Hpc' & Hpn' & _ & _ & _ & ->).
      rewrite Hpc in Hpc'. rewrite Hpn in Hpn'.
      injection Hpc' as <-. injection Hpn' as <-. reflexivity. }
    split; [intros Vc Vn; now apply sub_positive |].
    split; intros Hfin; apply format_f_decimals; auto.
Qed.

(** The m5.large scenario at a maximum of 35: the suggestions for medium
    and small and their texts. *)
Lemma suggestion_iff_cheaper_nonzero_price_m5 :
  exists recs,
    returned (get_recommendations Scenario.m5_pricing Scenario.m5_large
                (Float.of_int 20) (Float.of_int 35) []) = Ok recs
    /\ In "⬇️ Suggest: m5.medium → Save $0.05/hr (50.0%)" recs
    /\ Float.ltb (Float.of_int 0)
         (Float.sub (Scenario.usd_milli 96) (Scenario.usd_milli 48)) = true.
Proof.
  destruct (suggestion_iff_cheaper_nonzero_price Scenario.m5_pricing Scenario.m5_large
              (Float.of_int 20) (Float.of_int 35) [] "m5.medium" eq_refl)
    as (recs & Hret & _ & H).
  - right. left. reflexivity.
  - discriminate.
  - exists recs. split; [exact Hret |].
    destruct (H (Scenario.usd_milli 96) (Scenario.usd_milli 48)
                eq_refl eq_refl eq_refl eq_refl eq_refl) as (Hin & _ & Hpos & _).
    split; [exact Hin | apply Hpos; reflexivity].
Defined.

(** The medium size listed at $0.00: the price is resolved and lower than
    the current one, and yet nothing is suggested. *)
Lemma zero_price_is_not_suggested :
  In "m5.medium" (potential_types (family_of (InstanceType Scenario.m5_large)))
  /\ "m5.medium" <> InstanceType Scenario.m5_large
  /\ (exists current_price new_price,
         resolved_price Scenario.free_medium_pricing "m5.large" = Some current_price
         /\ resolved_price Scenario.free_medium_pricing "m5.medium" = Some new_price
         /\ Float.ltb new_price current_price = true)
  /\ returned (get_recommendations Scenario.free_medium_pricing Scenario.m5_large
                 (Float.of_int 20) (Float.of_int 35) [])
     = Ok ["Underutilized (Max CPU: 35.0%)"]
  /\ ~ (exists savings savings_percent,
           In (suggest_msg "m5.medium" savings savings_percent)
             ["Underutilized (Max CPU: 35.0%)"]).
Proof.
  split; [right; left; reflexivity |].
  split; [discriminate |].
  split; [do 2 eexists; repeat split; vm_compute; reflexivity |].
  split; [vm_compute; reflexivity |].
  intros (s & p & [H | []]). unfold suggest_msg in H. cbn [append] in H. discriminate H.
Qed.

(** ** Types without a delimiter *)

Lemma candidates_without_delimiter t :
  contains "." t = false -> family_of t = t /\ candidates t = potential_types t.
Proof.
  intros H. unfold candidates, family_of. rewrite (split_no_separator _ _ H).
  split; [reflexivity |].
  assert (Hne : forall suffix, contains "." suffix = true ->
                               String.eqb (t ++ suffix) t = false).
  { intros suffix Hs. apply String.eqb_neq. intros Heq.
    assert (Hc : contains "." (t ++ suffix) = true)
      by (rewrite contains_append, Hs; apply orb_true_r).
    rewrite Heq in Hc. congruence. }
  unfold potential_types. cbn [filter]. now rewrite !Hne.
Qed.

(** C9, as the code has it.  For an underutilized instance whose type has
    no ['.'], the family is the whole type, the engine returns normally, and
    all three names [type.large], [type.medium], [type.small] are candidates
    (none is the current type); suggestions follow the prices resolved for
    them, so there is none when the lookup knows none of these names. *)
Theorem undelimited_type_candidates :
  forall pricing inst avg_util max_util out,
    contains "." (InstanceType inst) = false ->
    Float.ltb max_util (Float.of_int 40) = true ->
    let t := InstanceType inst in
    family_of t = t
    /\ candidates t = potential_types t
    /\ returned (get_recommendations pricing inst avg_util max_util out)
       = Ok (underutilized_msg max_util
               :: flat_map (fun c => suggestion c (resolved_price pricing t)
                                       (resolved_price pricing c))
                    (potential_types t)
               ++ idle_part max_util)%list
    /\ ((forall c, In c (potential_types t) -> resolved_price pricing c = None) ->
        returned (get_recommendations pricing inst avg_util max_util out)
        = Ok (underutilized_msg max_util :: idle_part max_util)).
Proof.
  intros pricing inst avg_util max_util out Hdot H40 t.
  destruct (candidates_without_delimiter t Hdot) as [Hf Hc].
  split; [exact Hf |]. split; [exact Hc |].
  rewrite get_recommendations_returns. unfold recommendations_of. fold t.
  rewrite H40, Hc.
  split; [reflexivity |].
  intros Hnone. unfold potential_types in *. cbn [flat_map].
  rewrite (Hnone (t ++ ".large")), (Hnone (t ++ ".medium")), (Hnone (t ++ ".small"))
    by (cbn [In]; auto 6).
  reflexivity.
Qed.

(** A type without delimiter whose derived names are unknown to the catalog:
    the advisory alone. *)
Lemma undelimited_type_candidates_unknown :
  returned (get_recommendations Scenario.no_catalog Scenario.undelimited
              (Float.of_int 20) (Float.of_int 35) [])
  = Ok ["Underutilized (Max CPU: 35.0%)"].
Proof.
  destruct (undelimited_type_candidates Scenario.no_catalog Scenario.undelimited
              (Float.of_int 20) (Float.of_int 35) [] eq_refl eq_refl) as (_ & _ & _ & H).
  etransitivity; [apply H; reflexivity | vm_compute; reflexivity].
Defined.

(** With a catalog that prices [m5large] and [m5large.medium], the type
    [m5large] has candidates and gets a suggestion. *)
Lemma undelimited_type_gets_suggestion :
  contains "." (InstanceType Scenario.undelimited) = false
  /\ candidates (InstanceType Scenario.undelimited)
     = ["m5large.large"; "m5large.medium"; "m5large.small"]
  /\ returned (get_recommendations Scenario.undelimited_pricing Scenario.undelimited
                 (Float.of_int 20) (Float.of_int 35) [])
     = Ok ["Underutilized (Max CPU: 35.0%)";
           "⬇️ Suggest: m5large.medium → Save $0.05/hr (50.0%)"].
Proof. vm_compute. auto. Qed.

(** ** The sampler *)

Lemma max_fold_invariant xs :
  forall current seen,
    In current seen ->
    (forall y, In y seen -> Float.gtb y current = false) ->
    is_maximum
      (fold_left (fun current item => if Float.gtb item current then item else current)
         xs current)
      (seen ++ xs).
Proof.
  induction xs as [| item xs IH]; intros current seen Hin Hmax.
  - rewrite app_nil_r. now split.
  - cbn [fold_left].
    replace (seen ++ item :: xs)%list with ((seen ++ [item]) ++ xs)%list
      by now rewrite <- app_assoc.
    destruct (Float.gtb item current) eqn:E; apply IH.
    + apply in_or_app. right. now left.
    + intros y Hy. apply in_app_or in Hy as [Hy | [<- | []]].
      * specialize (Hmax y Hy). unfold Float.gtb in *.
        destruct (SFltb item y) eqn:E'; [| reflexivity].
        pose proof (ltb_trans current item y E E'). unfold Float.ltb in *. congruence.
      * apply ltb_irrefl.
    + apply in_or_app. now left.
    + intros y Hy. apply in_app_or in Hy as [Hy | [<- | []]]; auto.
Qed.

(** [max] returns a maximum of its non-empty argument, whatever the items
    are. *)
Lemma max_is_maximum x xs : is_maximum (Py.max x xs) (x :: xs).
Proof.
  apply (max_fold_invariant xs x [x]).
  - now left.
  - intros y [<- | []]. apply ltb_irrefl.
Qed.

Lemma get_instance_metrics_run cloudwatch instance_id days out :
  get_instance_metrics cloudwatch instance_id days out
  = match cloudwatch instance_id days with
    | inl e => (Raise e, out)
    | inr response =>
        match datapoints_of response with
        | [] => (Ok None, out)
        | dp :: dps =>
            (Ok (Some (arithmetic_mean (map Average (dp :: dps)),
                       Py.max (Maximum dp) (map Maximum dps))), out)
        end
    end.
Proof.
  unfold get_instance_metrics, get_metric_statistics, bind, datapoints_of.
  destruct (cloudwatch instance_id days) as [e | response]; [reflexivity |].
  unfold ret. destruct (Datapoints response) as [[| dp dps] |]; try reflexivity.
  unfold arithmetic_mean, Py.sum, Py.len. now rewrite length_map.
Qed.

(** What the sampler returns on a non-empty answer. *)
Lemma get_instance_metrics_summary cloudwatch instance_id days out response :
  cloudwatch instance_id days = inr response ->
  datapoints_of response <> [] ->
  exists avg_util max_util,
    returned (get_instance_metrics cloudwatch instance_id days out)
    = Ok (Some (avg_util, max_util))
    /\ avg_util = arithmetic_mean (map Average (datapoints_of response))
    /\ is_maximum max_util (map Maximum (datapoints_of response))
    /\ ((forall dp, In dp (datapoints_of response) -> Float.is_nan (Maximum dp) = false) ->
        forall dp, In dp (datapoints_of response) -> Float.leb (Maximum dp) max_util = true).
Proof.
  intros Hcw Hne. rewrite get_instance_metrics_run, Hcw.
  destruct (datapoints_of response) as [| dp dps]; [congruence |].
  cbn [returned fst].
  pose proof (max_is_maximum (Maximum dp) (map Maximum dps)) as Hmax.
  do 2 eexists. split; [reflexivity |]. split; [reflexivity |].
  split; [exact Hmax |].
  intros Hnan dp' Hdp'. destruct Hmax as [Hin Hge].
  apply not_gtb_leb.
  - now apply Hnan.
  - change (In (Py.max (Maximum dp) (map Maximum dps)) (map Maximum (dp :: dps))) in Hin.
    apply in_map_iff in Hin as (dp0 & <- & Hdp0). now apply Hnan.
  - apply Hge. change (In (Maximum dp') (map Maximum (dp :: dps))). now apply in_map.
Qed.

(** C6.  When the telemetry query answers, the sampler returns the "no
    data" result exactly when the answer holds no data point; otherwise it
    returns the pair of the arithmetic mean of the daily averages and a
    maximum of the daily maxima.  When the query raises, so does the
    sampler. *)
Theorem sampler_mean_and_max :
  forall cloudwatch instance_id days out,
    match cloudwatch instance_id days with
    | inl e =>
        returned (get_instance_metrics cloudwatch instance_id days out) = Raise e
    | inr response =>
        let dps := datapoints_of response in
        (returned (get_instance_metrics cloudwatch instance_id days out) = Ok None
         <-> dps = [])
        /\ (dps <> [] ->
            exists avg_util max_util,
              returned (get_instance_metrics cloudwatch instance_id days out)
              = Ok (Some (avg_util, max_util))
              /\ avg_util = arithmetic_mean (map Average dps)
              /\ is_maximum max_util (map Maximum dps)
              /\ ((forall dp, In dp dps -> Float.is_nan (Maximum dp) = false) ->
                  forall dp, In dp dps -> Float.leb (Maximum dp) max_util = true))
    end.
Proof.
  intros cloudwatch instance_id days out.
  destruct (cloudwatch instance_id days) as [e | response] eqn:Hcw.
  - rewrite get_instance_metrics_run, Hcw. reflexivity.
  - cbn zeta. split.
    + rewrite get_instance_metrics_run, Hcw.
      destruct (datapoints_of response); cbn [returned fst]; split;
        congruence || discriminate.
    + intros Hne.
      exact (get_instance_metrics_summary cloudwatch instance_id days out response Hcw Hne).
Qed.

(** ** The summary: maximum against average *)

(** The exact value of a binary64 float [m * 2^e] is that rational. *)
Lemma exact_value_finite s m e :
  -1074 <= e ->
  (exact_value (S754_finite s m e)
   == inject_Z (cond_Zopp s (Zpos m))
      * (if 0 <=? e then inject_Z (2 ^ e) else / inject_Z (2 ^ (- e))))%Q.
Proof.
  intros He. unfold exact_value, scaled.
  assert (Hu : 0 < 2 ^ 1074) by (apply Z.pow_pos_nonneg; lia).
  assert (Hsplit : cond_Zopp s (Zpos m * 2 ^ (e + 1074))
                   = cond_Zopp s (Zpos m) * 2 ^ (e + 1074))
    by (destruct s; cbn [cond_Zopp]; lia).
  rewrite Hsplit. clear Hsplit.
  generalize (cond_Zopp s (Zpos m)). intros z.
  destruct (0 <=? e) eqn:E.
  - apply Z.leb_le in E. rewrite Z.pow_add_r by lia.
    remember (2 ^ 1074) as u. rewrite !inject_Z_mult. field.
    intros H. apply (inject_Z_injective u 0) in H. lia.
  - apply Z.leb_gt in E.
    assert (Hd : 0 < 2 ^ (- e)) by (apply Z.pow_pos_nonneg; lia).
    assert (Hu' : 2 ^ 1074 = 2 ^ (e + 1074) * 2 ^ (- e))
      by (rewrite <- Z.pow_add_r by lia; f_equal; lia).
    rewrite Hu'.
    assert (Hn : 0 < 2 ^ (e + 1074)) by (apply Z.pow_pos_nonneg; lia).
    remember (2 ^ (e + 1074)) as a. remember (2 ^ (- e)) as d.
    rewrite !inject_Z_mult. field. split; intros H.
    + apply (inject_Z_injective d 0) in H. lia.
    + apply (inject_Z_injective a 0) in H. lia.
Qed.

Lemma exact_value_le x y : scaled x <= scaled y -> (exact_value x <= exact_value y)%Q.
Proof.
  intros H. unfold exact_value, Qdiv.
  apply Qmult_le_compat_r; [now rewrite <- Zle_Qle |].
  apply Qinv_le_0_compat. now rewrite <- (Zle_Qle 0).
Qed.

Lemma sum_exact_values_le xs bound :
  (forall x, In x xs -> (exact_value x <= bound)%Q) ->
  (fold_right Qplus 0 (map exact_value xs)
   <= inject_Z (Z.of_nat (List.length xs)) * bound)%Q.
Proof.
  induction xs as [| x xs IH]; intros H; cbn [map fold_right List.length].
  - rewrite Qmult_0_l. apply Qle_refl.
  - rewrite Nat2Z.inj_succ, <- Z.add_1_l, inject_Z_plus, Qmult_plus_distr_l, Qmult_1_l.
    apply Qplus_le_compat; [apply H; now left |].
    apply IH. intros y Hy. apply H. now right.
Qed.

Lemma exact_mean_le xs bound :
  xs <> [] ->
  (forall x, In x xs -> (exact_value x <= bound)%Q) ->
  (exact_mean xs <= bound)%Q.
Proof.
  intros Hne H. unfold exact_mean.
  apply Qle_shift_div_r.
  - rewrite <- (Zlt_Qlt 0). destruct xs; [congruence | cbn [List.length]; lia].
  - rewrite Qmult_comm. now apply sum_exact_values_le.
Qed.

(** C7, as the code has it.  For a non-empty answer whose daily maxima are
    at least the daily averages, the maximum of the summary is at least
    every daily average, and so at least their exact mean when the data are
    finite binary64 values.  (The average of the summary is that mean
    computed in floats, with a rounding at every addition and at the
    division.) *)
Theorem max_at_least_every_average :
  forall cloudwatch instance_id days out response,
    cloudwatch instance_id days = inr response ->
    datapoints_of response <> [] ->
    (forall dp, In dp (datapoints_of response) ->
                Float.leb (Average dp) (Maximum dp) = true) ->
    exists avg_util max_util,
      returned (get_instance_metrics cloudwatch instance_id days out)
      = Ok (Some (avg_util, max_util))
      /\ avg_util = arithmetic_mean (map Average (datapoints_of response))
      /\ (forall dp, In dp (datapoints_of response) ->
                     Float.leb (Average dp) max_util = true)
      /\ ((forall dp, In dp (datapoints_of response) ->
                      is_number (Average dp) = true /\ is_number (Maximum dp) = true) ->
          (exact_mean (map Average (datapoints_of response)) <= exact_value max_util)%Q).
Proof.
  intros cloudwatch instance_id days out response Hcw Hne Hle.
  destruct (get_instance_metrics_summary cloudwatch instance_id days out response Hcw Hne)
    as (avg_util & max_util & Hret & Havg & [Hin Hmax] & Hall).
  exists avg_util, max_util.
  split; [exact Hret |]. split; [exact Havg |].
  assert (Hnan : forall dp, In dp (datapoints_of response) ->
                            Float.is_nan (Maximum dp) = false).
  { intros dp Hdp. now apply (leb_not_nan _ _ (Hle dp Hdp)). }
  assert (Hevery : forall dp, In dp (datapoints_of response) ->
                              Float.leb (Average dp) max_util = true).
  { intros dp Hdp. apply leb_trans with (y := Maximum dp); auto. }
  split; [exact Hevery |].
  intros Hnum. apply exact_mean_le.
  - destruct (datapoints_of response); [congruence | discriminate].
  - intros x Hx. apply in_map_iff in Hx as (dp & <- & Hdp).
    apply in_map_iff in Hin as (dpm & <- & Hdpm).
    destruct (Hnum dp Hdp) as [Ha _]. destruct (Hnum dpm Hdpm) as [_ Hm].
    apply andb_true_iff in Ha as [Va Fa]. apply andb_true_iff in Hm as [Vm Fm].
    apply exact_value_le. apply leb_scaled; auto.
Qed.

(** The third instance of the three-instance scenario: two days, averages
    20 and 10, maxima 35 and 30. *)
Lemma max_at_least_every_average_two_days :
  exists avg_util max_util,
    returned (get_instance_metrics Scenario.three_telemetry "i-0c" 14 [])
    = Ok (Some (avg_util, max_util))
    /\ Float.leb (Float.of_int 20) max_util = true
    /\ Float.leb (Float.of_int 10) max_util = true
    /\ (exact_mean [Float.of_int 20; Float.of_int 10] <= exact_value max_util)%Q.
Proof.
  destruct (max_at_least_every_average Scenario.three_telemetry "i-0c" 14 [] _ eq_refl)
    as (avg_util & max_util & Hret & _ & Hle & Hmean).
  - discriminate.
  - intros dp [<- | [<- | []]]; vm_compute; reflexivity.
  - exists avg_util, max_util. split; [exact Hret |].
    split; [| split].
    + apply (Hle {| Average := Float.of_int 20; Maximum := Float.of_int 35 |}). now left.
    + apply (Hle {| Average := Float.of_int 10; Maximum := Float.of_int 30 |}).
      right. now left.
    + apply Hmean. intros dp [<- | [<- | []]]; split; vm_compute; reflexivity.
Defined.

(** Three days at a steady 0.1 percent: each daily maximum equals the daily
    average, and the average of the summary is greater than its maximum. *)
Lemma average_exceeds_max_by_rounding :
  (forall dp, In dp Scenario.steady_days -> Float.leb (Average dp) (Maximum dp) = true)
  /\ exists avg_util max_util,
      returned (get_instance_metrics Scenario.steady_telemetry "i-0a" 14 [])
      = Ok (Some (avg_util, max_util))
      /\ Float.leb avg_util max_util = false
      /\ Float.ltb max_util avg_util = true.
Proof.
  split.
  - intros dp Hdp. cbn [Scenario.steady_days In] in Hdp.
    destruct Hdp as [<- | [<- | [<- | []]]]; vm_compute; reflexivity.
  - do 2 eexists. split; [vm_compute; reflexivity |].
    split; vm_compute; reflexivity.
Qed.

(** ** The report assembler *)

Lemma sampled_any_output cloudwatch inst out :
  get_instance_metrics cloudwatch (InstanceId inst) 14 out = (sampled cloudwatch inst, out).
Proof.
  unfold sampled. rewrite !get_instance_metrics_run.
  destruct (cloudwatch (InstanceId inst) 14) as [e | response]; [reflexivity |].
  destruct (datapoints_of response); reflexivity.
Qed.

(** One turn of the loop never raises: it appends the rows of the instance
    and prints the "Analyzing" line followed by the notice, if any. *)
Lemma analyze_instance_run cloudwatch pricing inst results out :
  exists lines,
    analyze_instance cloudwatch pricing inst results out
    = (Ok (results ++ rows_for cloudwatch pricing inst)%list,
       (out ++ analyzing_line inst :: skip_notice cloudwatch inst ++ lines)%list).
Proof.
  unfold analyze_instance, rows_for, skip_notice, try_except, print, ret.
  fold (analyzing_line inst).
  unfold bind at 1. unfold bind at 1.
  rewrite sampled_any_output.
  destruct (sampled cloudwatch inst) as [[[avg_util max_util] |] | e].
  - unfold bind.
    destruct (get_recommendations_run pricing inst avg_util max_util
                (out ++ [analyzing_line inst])%list) as [lines ->].
    exists lines. now rewrite <- app_assoc.
  - exists []. unfold bind. now rewrite <- app_assoc, app_nil_r.
  - exists []. unfold bind. now rewrite <- app_assoc, !app_nil_r.
Qed.

Lemma analyze_loop_run cloudwatch pricing insts :
  forall results out,
  exists lines,
    for_each insts (analyze_instance cloudwatch pricing) results out
    = (Ok (results ++ flat_map (rows_for cloudwatch pricing) insts)%list, (out ++ lines)%list)
    /\ forall inst, In inst insts ->
                  incl (analyzing_line inst :: skip_notice cloudwatch inst) lines.
Proof.
  induction insts as [| inst insts IH]; intros results out; cbn [for_each flat_map].
  - exists []. rewrite !app_nil_r. split; [reflexivity | intros ? []].
  - unfold bind.
    destruct (analyze_instance_run cloudwatch pricing inst results out) as [l1 ->].
    destruct (IH (results ++ rows_for cloudwatch pricing inst)%list
                (out ++ analyzing_line inst :: skip_notice cloudwatch inst ++ l1)%list)
      as (l2 & -> & Hl2).
    eexists. split.
    + rewrite <- !app_assoc. reflexivity.
    + intros inst' [<- | Hin] line Hline.
      * apply in_or_app. left. destruct Hline as [<- | Hline]; [now left | right].
        apply in_or_app. now left.
      * apply in_or_app. right. now apply (Hl2 inst').
Qed.

Lemma rows_in_inventory_order cloudwatch pricing insts :
  map row_InstanceId (flat_map (rows_for cloudwatch pricing) insts)
  = map InstanceId (filter (has_summary cloudwatch) insts).
Proof.
  induction insts as [| inst insts IH]; cbn; [reflexivity |].
  rewrite map_app, IH. unfold rows_for, has_summary.
  destruct (sampled cloudwatch inst) as [[[avg_util max_util] |] | e]; reflexivity.
Qed.

Lemma analyze_instances_run cloudwatch reservations pricing out :
  exists insts,
    returned (get_all_instances (inr reservations) out) = Ok insts
    /\ returned (analyze_instances cloudwatch (inr reservations) pricing out)
       = Ok match flat_map (rows_for cloudwatch pricing) insts with
            | [] => None
            | rows => Some rows
            end.
Proof.
  eexists. split; [reflexivity |].
  unfold analyze_instances, print, ret. unfold bind at 1 2 3 4. cbn [get_all_instances ret].
  unfold ret. unfold bind at 1.
  match goal with
  | |- context [for_each ?insts _ ?results ?out0] =>
      destruct (analyze_loop_run cloudwatch pricing insts results out0) as (lines & -> & _)
  end.
  cbn [app]. destruct (flat_map _ _); reflexivity.
Qed.

(** C5.  The loop of the assembler visits the whole inventory (the line
    announcing each instance is printed) and never raises.  A telemetry
    error leaves the sampler as an exception, is caught, and is printed; an
    instance for which the sampler raised or returned "no data" adds no row
    and its notice is printed; every other instance adds its row; the rows
    keep the order of the inventory.  In
    the scenario of three instances (one query raises, one answers without
    data points, one answers with data) the report is the single row of the
    third instance. *)
Theorem assembler_skips_and_continues :
  (forall cloudwatch pricing insts results out,
      (forall inst e out',
          cloudwatch (InstanceId inst) 14 = inl e ->
          returned (get_instance_metrics cloudwatch (InstanceId inst) 14 out') = Raise e)
      /\ (forall inst,
             match sampled cloudwatch inst with
             | Ok (Some (avg_util, max_util)) =>
                 exists recs,
                   returned (get_recommendations pricing inst avg_util max_util out) = Ok recs
                   /\ rows_for cloudwatch pricing inst
                      = [report_row_of inst avg_util max_util recs]
             | Ok None | Raise _ => rows_for cloudwatch pricing inst = []
             end)
      /\ (exists lines,
             for_each insts (analyze_instance cloudwatch pricing) results out
             = (Ok (results ++ flat_map (rows_for cloudwatch pricing) insts)%list,
                (out ++ lines)%list)
             /\ forall inst, In inst insts ->
                           incl (analyzing_line inst :: skip_notice cloudwatch inst) lines)
      /\ map row_InstanceId (flat_map (rows_for cloudwatch pricing) insts)
         = map InstanceId (filter (has_summary cloudwatch) insts)
      /\ (forall reservations,
             exists inventory,
               returned (get_all_instances (inr reservations) out) = Ok inventory
               /\ returned (analyze_instances cloudwatch (inr reservations) pricing out)
                  = Ok match flat_map (rows_for cloudwatch pricing) inventory with
                       | [] => None
                       | rows => Some rows
                       end))
  /\ (let run :=
        analyze_instances Scenario.three_telemetry Scenario.three_instances
          Scenario.m5_pricing [] in
      returned run
      = Ok (Some [ {| row_InstanceId := "i-0c";
                      row_Name := "web";
                      row_InstanceType := "m5.large";
                      row_AvgCPU := Float.of_int 15;
                      row_MaxCPU := Float.of_int 35;
                      row_Recommendations :=
                        Py.join Py.nl
                          ["Underutilized (Max CPU: 35.0%)";
                           "⬇️ Suggest: m5.medium → Save $0.05/hr (50.0%)";
                           "⬇️ Suggest: m5.small → Save $0.07/hr (75.0%)"] |} ])
      /\ In " Error with i-0a: Throttling" (printed run)
      /\ In " No metrics found." (printed run)).
Proof.
  split.
  - intros cloudwatch pricing insts results out.
    split.
    { intros inst e out' He. rewrite get_instance_metrics_run, He. reflexivity. }
    split.
    { intros inst. unfold rows_for.
      destruct (sampled cloudwatch inst) as [[[avg_util max_util] |] | e]; try reflexivity.
      eexists. split; [apply get_recommendations_returns | reflexivity]. }
    split; [apply analyze_loop_run |].
    split; [apply rows_in_inventory_order |].
    intros reservations. apply analyze_instances_run.
  - vm_compute. repeat split; auto 10.
Qed.

(** ** The "no recommendation" state *)

Lemma render_underutilized m rest :
  render_recommendations (underutilized_msg m :: rest) <> no_recommendations_msg.
Proof.
  unfold render_recommendations, Py.join, underutilized_msg, no_recommendations_msg.
  destruct rest; cbn [concat append]; discriminate.
Qed.

(** C8, as the code has it.  When [max_util < 40] does not hold the engine
    returns the empty list, and it is the assembler that turns an empty
    list into the marker [no_recommendations_msg] of the row; the row shows
    the marker exactly in that case. *)
Theorem no_recommendation_marker :
  forall cloudwatch pricing inst results out avg_util max_util,
    sampled cloudwatch inst = Ok (Some (avg_util, max_util)) ->
    exists recs row,
      returned (get_recommendations pricing inst avg_util max_util out) = Ok recs
      /\ returned (analyze_instance cloudwatch pricing inst results out)
         = Ok (results ++ [row])%list
      /\ row_Recommendations row = render_recommendations recs
      /\ (Float.ltb max_util (Float.of_int 40) = false ->
          recs = [] /\ row_Recommendations row = no_recommendations_msg)
      /\ (row_Recommendations row = no_recommendations_msg
          <-> Float.ltb max_util (Float.of_int 40) = false).
Proof.
  intros cloudwatch pricing inst results out avg_util max_util Hs.
  exists (recommendations_of pricing (InstanceType inst) max_util).
  exists (report_row_of inst avg_util max_util
            (recommendations_of pricing (InstanceType inst) max_util)).
  split; [apply get_recommendations_returns |].
  split.
  { destruct (analyze_instance_run cloudwatch pricing inst results out) as [lines ->].
    unfold rows_for. rewrite Hs. reflexivity. }
  split; [reflexivity |].
  cbn [row_Recommendations report_row_of].
  assert (Hempty : Float.ltb max_util (Float.of_int 40) = false ->
                   recommendations_of pricing (InstanceType inst) max_util = []).
  { intros H40. unfold recommendations_of, idle_part.
    now rewrite H40, (not_lt_40_not_lt_10 _ H40). }
  split.
  - intros H40. now rewrite (Hempty H40).
  - split.
    + destruct (Float.ltb max_util (Float.of_int 40)) eqn:H40; [| reflexivity].
      unfold recommendations_of. rewrite H40. cbn [app].
      intros H. now apply render_underutilized in H.
    + intros H40. now rewrite (Hempty H40).
Qed.

(** A busy m5.large, maximum 60: the engine returns the empty list and the
    row shows the marker. *)
Lemma no_recommendation_marker_busy :
  exists row,
    returned (get_recommendations Scenario.m5_pricing Scenario.m5_large
                (Float.of_int 50) (Float.of_int 60) []) = Ok []
    /\ returned (analyze_instance Scenario.busy_telemetry Scenario.m5_pricing
                   Scenario.m5_large [] [])
       = Ok [row]
    /\ row_Recommendations row = "✅ No recommendations".
Proof.
  destruct (no_recommendation_marker Scenario.busy_telemetry Scenario.m5_pricing
              Scenario.m5_large [] [] (Float.of_int 50) (Float.of_int 60)
              eq_refl) as (recs & row & H1 & H2 & _ & H4 & _).
  destruct (H4 eq_refl) as [-> H5].
  exists row. repeat split; assumption.
Defined.

(** At a maximum of 60 the engine returns the empty sequence itself. *)
Lemma engine_returns_empty_list_at_60 :
  returned (get_recommendations Scenario.m5_pricing Scenario.m5_large
              (Float.of_int 50) (Float.of_int 60) []) = Ok [].
Proof. vm_compute. reflexivity. Qed.

(** ** The inventory *)

Lemma dict_get_set_same k v default d :
  Py.dict_get k default (Py.dict_set k v d) = v.
Proof.
  induction d as [| [k' v'] d IH]; cbn.
  - now rewrite String.eqb_refl.
  - destruct (String.eqb k' k) eqn:E; cbn.
    + now rewrite String.eqb_refl.
    + now rewrite E.
Qed.

Lemma dict_get_set_other k k' v default d :
  k' <> k -> Py.dict_get k default (Py.dict_set k' v d) = Py.dict_get k default d.
Proof.
  intros Hne. apply String.eqb_neq in Hne.
  induction d as [| [k0 v0] d IH]; cbn.
  - now rewrite Hne.
  - destruct (String.eqb k0 k') eqn:E; cbn.
    + apply String.eqb_eq in E. subst k0. now rewrite Hne.
    + now rewrite IH.
Qed.

Lemma dict_set_keys k v d x :
  In x (map fst (Py.dict_set k v d)) <-> x = k \/ In x (map fst d).
Proof.
  induction d as [| [k' v'] d IH]; cbn.
  - intuition.
  - destruct (String.eqb_spec k' k) as [-> | Hne]; cbn.
    + intuition.
    + rewrite IH. intuition.
Qed.

Lemma dict_set_unique k v d :
  NoDup (map fst d) -> NoDup (map fst (Py.dict_set k v d)).
Proof.
  induction d as [| [k' v'] d IH]; cbn; intros Hd.
  - constructor; [intros [] | constructor].
  - inversion Hd as [| ? ? Hnotin Hrest]; subst.
    destruct (String.eqb_spec k' k) as [-> | Hne]; cbn.
    + now constructor.
    + constructor; [| now apply IH].
      rewrite dict_set_keys. intros [-> | Hin]; [now apply Hne | now apply Hnotin].
Qed.

Lemma dict_of_tags tags :
  forall d,
    let built := fold_left (fun d tag => Py.dict_set (fst tag) (snd tag) d) tags d in
    (NoDup (map fst d) -> NoDup (map fst built))
    /\ (forall x, In x (map fst built) <-> In x (map fst tags) \/ In x (map fst d))
    /\ (forall k default,
          Py.dict_get k default built
          = match last_value k tags with
            | Some v => v
            | None => Py.dict_get k default d
            end).
Proof.
  induction tags as [| [k' v'] tags IH]; intros d; cbn zeta; cbn [fold_left].
  - split; [auto |]. split; [cbn; intuition | reflexivity].
  - destruct (IH (Py.dict_set k' v' d)) as (Hu & Hk & Hg). cbn [fst snd].
    split; [intros Hd; apply Hu; now apply dict_set_unique |].
    split.
    + intros x. rewrite Hk, dict_set_keys. cbn. intuition.
    + intros k default. rewrite Hg. cbn [last_value].
      destruct (last_value k tags); [reflexivity |].
      destruct (String.eqb_spec k' k) as [-> | Hne].
      * apply dict_get_set_same.
      * now apply dict_get_set_other.
Qed.

Lemma Forall2_map_eq {A B C} (R : A -> B -> Prop) (f : B -> C) (g : A -> C) xs ys :
  Forall2 R xs ys -> (forall x y, R x y -> f y = g x) -> map f ys = map g xs.
Proof.
  intros H Hfg. induction H as [| x y xs ys Hxy _ IH]; [reflexivity |].
  cbn [map]. now rewrite IH, (Hfg x y Hxy).
Qed.

Lemma get_all_instances_run reservations out :
  exists insts,
    get_all_instances (inr reservations) out = (Ok insts, out)
    /\ Forall2 (fun e i =>
                  InstanceId i = ec2_InstanceId e
                  /\ InstanceType i = ec2_InstanceType e
                  /\ LaunchTime i = ec2_LaunchTime e
                  /\ Tags i = fold_left (fun d tag => Py.dict_set (fst tag) (snd tag) d)
                                (listed_tags e) [])
         (listed reservations) insts.
Proof.
  eexists. split; [reflexivity |].
  unfold listed. induction reservations as [| r rs IH]; cbn [flat_map List.concat].
  - constructor.
  - apply Forall2_app; [| exact IH].
    clear IH. induction r as [| e r IHr]; cbn [map]; constructor; auto.
Qed.

(** X1.  When the listing succeeds, [get_all_instances] returns one entry
    for each instance of each reservation, in the order of the answer, with
    the identifier, type and launch time unchanged, and prints nothing. *)
Theorem inventory_keeps_listing_order :
  forall reservations out,
  exists insts,
    get_all_instances (inr reservations) out = (Ok insts, out)
    /\ List.length insts = List.length (listed reservations)
    /\ map InstanceId insts = map ec2_InstanceId (listed reservations)
    /\ map InstanceType insts = map ec2_InstanceType (listed reservations)
    /\ map LaunchTime insts = map ec2_LaunchTime (listed reservations).
Proof.
  intros reservations out.
  destruct (get_all_instances_run reservations out) as (insts & Hrun & Hall).
  exists insts. split; [exact Hrun |].
  split; [symmetry; exact (Forall2_length Hall) |].
  repeat split; apply (Forall2_map_eq _ _ _ _ _ Hall); intros e i H; apply H.
Qed.

(** X2.  The [Tags] dictionary of a listed instance has each key once, has
    exactly the keys of the listed tags, and maps a key to the value of the
    last tag that carries it; a key that no tag carries (in particular when
    ['Tags'] is absent) gets the default of [get]. *)
Theorem tags_last_value_wins :
  forall reservations out,
  exists insts,
    returned (get_all_instances (inr reservations) out) = Ok insts
    /\ Forall2 (fun e i =>
                  NoDup (map fst (Tags i))
                  /\ (forall k, In k (map fst (Tags i)) <-> In k (map fst (listed_tags e)))
                  /\ (forall k default,
                        Py.dict_get k default (Tags i)
                        = match last_value k (listed_tags e) with
                          | Some v => v
                          | None => default
                          end))
         (listed reservations) insts.
Proof.
  intros reservations out.
  destruct (get_all_instances_run reservations out) as (insts & Hrun & Hall).
  exists insts. split; [now rewrite Hrun |].
  revert Hall. apply Forall2_impl. intros e i (_ & _ & _ & Ht).
  destruct (dict_of_tags (listed_tags e) []) as (Hu & Hk & Hg). cbn zeta in *.
  rewrite Ht. split; [apply Hu; constructor |].
  split.
  - intros k. rewrite Hk. cbn. intuition.
  - intros k default. now rewrite Hg.
Qed.

Lemma has_summary_has_datapoints cloudwatch inst :
  has_summary cloudwatch inst = has_datapoints cloudwatch (InstanceId inst).
Proof.
  unfold has_summary, has_datapoints, sampled. rewrite get_instance_metrics_run.
  destruct (cloudwatch (InstanceId inst) 14) as [e | response]; [reflexivity |].
  destruct (datapoints_of response); reflexivity.
Qed.

Lemma analyze_instances_full cloudwatch reservations pricing out :
  exists insts lines,
    get_all_instances (inr reservations) out = (Ok insts, out)
    /\ analyze_instances cloudwatch (inr reservations) pricing out
       = (Ok match flat_map (rows_for cloudwatch pricing) insts with
             | [] => None
             | rows => Some rows
             end,
          (out ++ banner
               ++ ("Found " ++ Py.str_of_nat (List.length insts)
                     ++ " running EC2 instance(s)" ++ Py.nl)%string
               :: lines
               ++ match flat_map (rows_for cloudwatch pricing) insts with
                  | [] => [no_data_notice]
                  | _ => []
                  end)%list).
Proof.
  destruct (get_all_instances_run reservations out) as (insts & Hrun & _).
  exists insts.
  unfold analyze_instances, print, ret. unfold bind at 1 2 3 4.
  assert (Hrun' : forall o, get_all_instances (inr reservations) o = (Ok insts, o)).
  { intros o. unfold get_all_instances, ret in *. congruence. }
  rewrite !Hrun'. unfold bind at 1.
  match goal with
  | |- context [for_each insts _ ?results ?out0] =>
      destruct (analyze_loop_run cloudwatch pricing insts results out0) as (lines & -> & _)
  end.
  exists lines. split; [reflexivity |].
  cbn [app]. unfold banner, no_data_notice.
  destruct (flat_map _ _); unfold bind; cbn [app];
    rewrite <- ?app_assoc; cbn [app]; rewrite ?app_nil_r; reflexivity.
Qed.

(** X3.  A failure of the instance listing aborts the run: the exception
    leaves [analyze_instances] after the two banner lines, and no instance
    is analysed. *)
Theorem listing_failure_aborts_run :
  forall cloudwatch e pricing out,
    analyze_instances cloudwatch (inl e) pricing out = (Raise e, (out ++ banner)%list).
Proof.
  intros. unfold analyze_instances, print, bind, get_all_instances, raise, banner.
  now rewrite <- app_assoc.
Qed.

(** X4.  When the listing succeeds the run returns normally.  It returns
    [None] exactly when no listed instance has data points, and the last
    line printed is then the "No data to export" notice; otherwise it
    returns a non-empty list of rows. *)
Theorem empty_report_is_none :
  forall cloudwatch reservations pricing out,
  exists result,
    returned (analyze_instances cloudwatch (inr reservations) pricing out) = Ok result
    /\ (result = None
        <-> forall e, In e (listed reservations) ->
                      has_datapoints cloudwatch (ec2_InstanceId e) = false)
    /\ (result = None ->
        exists lines,
          printed (analyze_instances cloudwatch (inr reservations) pricing out)
          = (lines ++ [no_data_notice])%list)
    /\ (forall rows, result = Some rows -> rows <> []).
Proof.
  intros cloudwatch reservations pricing out.
  destruct (analyze_instances_full cloudwatch reservations pricing out)
    as (insts & lines & Hinv & ->).
  destruct (get_all_instances_run reservations out) as (insts' & Hinv' & Hall).
  rewrite Hinv in Hinv'. injection Hinv' as <-.
  eexists. split; [reflexivity |].
  assert (Hrows : flat_map (rows_for cloudwatch pricing) insts = []
                  <-> forall e, In e (listed reservations) ->
                                has_datapoints cloudwatch (ec2_InstanceId e) = false).
  { clear Hinv. induction Hall as [| e i es insts' (Hid & _) _ IH]; cbn [flat_map].
    - split; [intros _ e [] | reflexivity].
    - pose proof (has_summary_has_datapoints cloudwatch i) as Hs. rewrite Hid in Hs.
      unfold has_summary in Hs. unfold rows_for at 1.
      destruct (sampled cloudwatch i) as [[[a m] |] | err]; cbn [app].
      + split; [discriminate |]. intros H. specialize (H e (or_introl eq_refl)). congruence.
      + rewrite IH. split.
        * intros H e' [<- | Hin]; [now symmetry | now apply H].
        * intros H e' Hin. apply H. now right.
      + rewrite IH. split.
        * intros H e' [<- | Hin]; [now symmetry | now apply H].
        * intros H e' Hin. apply H. now right. }
  rewrite <- Hrows. cbn [printed snd].
  destruct (flat_map (rows_for cloudwatch pricing) insts) as [| row rows] eqn:E.
  - split; [tauto |]. split; [| discriminate].
    intros _.
    exists (out ++ banner
                ++ ("Found " ++ Py.str_of_nat (List.length insts)
                      ++ " running EC2 instance(s)" ++ Py.nl)%string :: lines)%list.
    rewrite <- !app_assoc. reflexivity.
  - split; [split; discriminate |]. split; [discriminate |].
    intros rows' H. injection H as <-. discriminate.
Qed.

(** X5.  The report has one row for each listed instance with data points,
    in the order of the listing; the row carries the identifier and the
    type of the instance and, as its name, the value of its last ['Name']
    tag (the empty string when it has none). *)
Theorem rows_identify_listed_instances :
  forall cloudwatch reservations pricing out,
  exists result,
    returned (analyze_instances cloudwatch (inr reservations) pricing out) = Ok result
    /\ map (fun row => (row_InstanceId row, row_Name row, row_InstanceType row))
         match result with Some rows => rows | None => [] end
       = map (fun e => (ec2_InstanceId e, listed_name e, ec2_InstanceType e))
           (filter (fun e => has_datapoints cloudwatch (ec2_InstanceId e))
              (listed reservations)).
Proof.
  intros cloudwatch reservations pricing out.
  destruct (analyze_instances_full cloudwatch reservations pricing out)
    as (insts & lines & Hinv & ->).
  destruct (get_all_instances_run reservations out) as (insts' & Hinv' & Hall).
  rewrite Hinv in Hinv'. injection Hinv' as <-.
  eexists. split; [reflexivity |].
  replace (match match flat_map (rows_for cloudwatch pricing) insts with
                 | [] => None
                 | rows => Some rows
                 end with
           | Some rows => rows
           | None => []
           end)
    with (flat_map (rows_for cloudwatch pricing) insts)
    by (destruct (flat_map _ _); reflexivity).
  clear Hinv. induction Hall as [| e i es insts' (Hid & Hty & _ & Htags) _ IH];
    cbn [flat_map filter map]; [reflexivity |].
  rewrite map_app, IH.
  pose proof (has_summary_has_datapoints cloudwatch i) as Hs. rewrite Hid in Hs.
  rewrite <- Hs. unfold has_summary, rows_for.
  destruct (sampled cloudwatch i) as [[[a m] |] | err]; cbn [map app]; try reflexivity.
  f_equal. cbn [row_InstanceId row_Name row_InstanceType report_row_of].
  rewrite Hid, Hty, Htags. unfold listed_name.
  destruct (dict_of_tags (listed_tags e) []) as (_ & _ & Hg). cbn zeta in Hg.
  now rewrite Hg.
Qed.

(** ** What the engine prints and how much it returns *)

Lemma get_instance_type_info_lines pricing instance_type out :
  get_instance_type_info pricing instance_type out
  = (Ok (resolved_price pricing instance_type),
     (out ++ pricing_error_line pricing instance_type)%list).
Proof.
  unfold get_instance_type_info, resolved_price, pricing_error_line, try_except.
  destruct (pricing instance_type) as [e | | | price]; cbn;
    rewrite ?app_nil_r; reflexivity.
Qed.

Lemma consider_candidate_lines pricing current_type current_price new_type acc out :
  exists acc',
    consider_candidate pricing current_type current_price new_type acc out
    = (Ok acc',
       (out ++ if String.eqb new_type current_type then []
               else pricing_error_line pricing new_type)%list).
Proof.
  unfold consider_candidate.
  destruct (String.eqb new_type current_type).
  - exists acc. unfold ret. now rewrite app_nil_r.
  - unfold bind. rewrite get_instance_type_info_lines.
    destruct (resolved_price pricing new_type) as [pn |], current_price as [pc |];
      try (eexists; reflexivity).
    destruct (Float.truthy pn && Float.truthy pc && Float.ltb pn pc); eexists; reflexivity.
Qed.

Lemma candidate_loop_lines pricing current_type current_price types :
  forall acc out,
  exists acc',
    for_each types (consider_candidate pricing current_type current_price) acc out
    = (Ok acc',
       (out ++ flat_map (pricing_error_line pricing)
                 (filter (fun t => negb (String.eqb t current_type)) types))%list).
Proof.
  induction types as [| t types IH]; intros acc out; cbn [for_each filter flat_map].
  - exists acc. unfold ret. now rewrite app_nil_r.
  - unfold bind.
    destruct (consider_candidate_lines pricing current_type current_price t acc out)
      as [acc1 ->].
    destruct (IH acc1 (out ++ if String.eqb t current_type then []
                              else pricing_error_line pricing t)%list) as [acc2 ->].
    exists acc2. destruct (String.eqb t current_type); cbn [negb flat_map];
      now rewrite <- app_assoc.
Qed.

(** X6.  The engine prints nothing of its own: its output is one line for
    each pricing lookup that fails, for the current type first and then for
    the candidates in their order; for an instance that is not
    underutilized it looks nothing up and prints nothing. *)
Theorem engine_prints_only_lookup_errors :
  forall pricing inst avg_util max_util out,
    printed (get_recommendations pricing inst avg_util max_util out)
    = (out ++ if Float.ltb max_util (Float.of_int 40)
              then flat_map (pricing_error_line pricing)
                     (InstanceType inst :: candidates (InstanceType inst))
              else [])%list.
Proof.
  intros pricing inst avg_util max_util out.
  unfold get_recommendations, candidates, family_of.
  destruct (Float.ltb max_util (Float.of_int 40)).
  - unfold bind at 1 2. rewrite get_instance_type_info_lines.
    match goal with
    | |- context [for_each ?types ?body ?acc ?out0] =>
        destruct (candidate_loop_lines pricing (InstanceType inst)
                    (resolved_price pricing (InstanceType inst)) types acc out0)
          as [acc' ->]
    end.
    cbn [flat_map]. rewrite <- app_assoc.
    destruct (Float.ltb max_util (Float.of_int 10)); reflexivity.
  - unfold bind, ret. rewrite app_nil_r.
    destruct (Float.ltb max_util (Float.of_int 10)); reflexivity.
Qed.

Lemma suggestion_length c pc pn : (List.length (suggestion c pc pn) <= 1)%nat.
Proof.
  unfold suggestion. destruct pn, pc; cbn; try lia.
  destruct (_ && _); cbn; lia.
Qed.

Lemma suggestions_length (f : string -> list string) cs :
  (forall c, (List.length (f c) <= 1)%nat) ->
  (List.length (flat_map f cs) <= List.length cs)%nat.
Proof.
  intros Hf. induction cs as [| c cs IH]; cbn [flat_map List.length]; [lia |].
  rewrite length_app. specialize (Hf c). lia.
Qed.

(** X7.  The engine returns at most five entries: the advisory, at most
    one suggestion for each candidate, and the idle advisory.  When the
    current type is itself one of the three potential types of its family,
    at most two candidates remain and the list has at most four entries. *)
Theorem at_most_five_recommendations :
  forall pricing inst avg_util max_util out,
  exists recs,
    returned (get_recommendations pricing inst avg_util max_util out) = Ok recs
    /\ (List.length recs <= 5)%nat
    /\ (In (InstanceType inst) (potential_types (family_of (InstanceType inst))) ->
        (List.length recs <= 4)%nat).
Proof.
  intros pricing inst avg_util max_util out.
  exists (recommendations_of pricing (InstanceType inst) max_util).
  split; [apply get_recommendations_returns |].
  set (t := InstanceType inst).
  assert (Hidle : (List.length (idle_part max_util) <= 1)%nat)
    by (unfold idle_part; destruct (Float.ltb _ _); cbn; lia).
  pose proof (suggestions_length
                (fun c => suggestion c (resolved_price pricing t) (resolved_price pricing c))
                (candidates t)
                (fun c => suggestion_length c _ _)) as Hs.
  assert (Hc : (List.length (candidates t) <= 3)%nat).
  { unfold candidates, potential_types. cbn [filter].
    repeat destruct (negb _); cbn; lia. }
  unfold recommendations_of. fold t.
  split.
  - destruct (Float.ltb max_util (Float.of_int 40)); rewrite length_app; cbn [List.length]; lia.
  - intros Hin.
    assert (Hc' : (List.length (candidates t) <= 2)%nat).
    { unfold candidates, potential_types in *. cbn [filter In] in *.
      destruct Hin as [H | [H | [H | []]]]; rewrite H, String.eqb_refl; cbn [negb];
        repeat destruct (negb _); cbn; lia. }
    destruct (Float.ltb max_util (Float.of_int 40)); rewrite length_app; cbn [List.length]; lia.
Qed.

(** ** The pricing lookup, decoded *)

Lemma call_try_except {A} (a : exn + A) (handler : exn -> M A) out :
  try_except (call a) handler out
  = match a with
    | inl e => handler e out
    | inr x => (Ok x, out)
    end.
Proof. destruct a; reflexivity. Qed.

(** X8.  The decoded pricing lookup never raises.  Whatever fails inside
    it (the service call, the decoding of the price item, a missing key, an
    empty set of terms or of price dimensions, the conversion of the price)
    is printed on one line and turned into [None]; when nothing fails,
    nothing is printed. *)
Theorem pricing_lookup_never_raises :
  forall subscript_error attribute_error json_loads py_float get_products instance_type out,
    let run :=
      Pricing.get_instance_type_info subscript_error attribute_error json_loads py_float
        get_products instance_type out in
    match Pricing.lookup subscript_error attribute_error json_loads py_float get_products
            instance_type with
    | inr price => run = (Ok price, out)
    | inl e =>
        run = (Ok None,
               (out ++ [("Error getting pricing for " ++ instance_type ++ ": "
                           ++ str_exn e)%string])%list)
    end.
Proof.
  intros. unfold run, Pricing.get_instance_type_info. rewrite call_try_except.
  destruct (Pricing.lookup _ _ _ _ _ _); reflexivity.
Qed.


(** X10.  First match wins.  When the first item of ['PriceList'] decodes to
    a price item of the usual shape, the lookup reads the ['USD'] entry of
    the first price dimension of the first on-demand term, whatever the
    other items, terms and dimensions are: it returns [None] when the entry
    is absent or falsy (an empty text), and otherwise the float of the
    entry, [None] if that conversion fails.  The text of a zero price is
    truthy, so a price of zero is returned as a price. *)
Theorem first_price_item_decides :
  forall subscript_error attribute_error json_loads py_float get_products instance_type out
         item rest term_key dimension_key price_per_unit
         other_dimension_members other_dimensions other_term_members other_terms,
    get_products instance_type = inr (item :: rest) ->
    json_loads item
    = inr (Pricing.price_item_of term_key dimension_key price_per_unit
             other_dimension_members other_dimensions other_term_members other_terms) ->
    returned (Pricing.get_instance_type_info subscript_error attribute_error json_loads
                py_float get_products instance_type out)
    = Ok match Json.find "USD" price_per_unit with
         | Some usd_price =>
             if Json.truthy usd_price then
               match py_float usd_price with
               | inr price => Some price
               | inl _ => None
               end
             else None
         | None => None
         end.
Proof.
  intros until other_terms. intros Hlist Hitem.
  unfold Pricing.get_instance_type_info. rewrite call_try_except.
  unfold Pricing.lookup. rewrite Hlist. cbn [and_then]. rewrite Hitem. cbn [and_then].
  unfold Pricing.price_of_item, Pricing.price_item_of.
  cbn. rewrite String.eqb_refl. cbn. rewrite String.eqb_refl. cbn.
  destruct (Json.find "USD" price_per_unit) as [usd_price |]; cbn.
  - destruct (Json.truthy usd_price); [| reflexivity].
    destruct (py_float usd_price); reflexivity.
  - reflexivity.
Qed.

(** The catalog with the m5.large item: $0.096, read from the first item. *)
Lemma first_price_item_decides_m5 :
  returned (Pricing.get_instance_type_info PricingScenario.subscript_error
              PricingScenario.attribute_error PricingScenario.json_loads
              PricingScenario.py_float PricingScenario.get_products "m5.large" [])
  = Ok (Some (Scenario.usd_milli 96)).
Proof.
  exact (first_price_item_decides PricingScenario.subscript_error
           PricingScenario.attribute_error PricingScenario.json_loads
           PricingScenario.py_float PricingScenario.get_products "m5.large" []
           "m5.large item" ["another item"] _ _ _ _ _ _ _ eq_refl eq_refl).
Defined.

(** ** Text methods *)

Lemma append_nil_r_local (s : string) : s ++ "" = s.
Proof. induction s as [| c s IH]; cbn; [reflexivity | now rewrite IH]. Qed.

Lemma prefix_refl s : String.prefix s s = true.
Proof.
  induction s as [| c s IH]; cbn; [reflexivity |].
  destruct (ascii_dec c c); [exact IH | congruence].
Qed.

Lemma prefix_split p s t :
  String.prefix p (s ++ t) = true ->
  String.prefix p s = true \/ exists p2, p = s ++ p2 /\ String.prefix p2 t = true.
Proof.
  revert p. induction s as [| c s IH]; intros p H.
  - right. exists p. now split.
  - destruct p as [| a p]; [now left |].
    cbn in H |- *. destruct (ascii_dec a c) as [-> | Hne]; [| discriminate].
    destruct (IH p H) as [Hp | (p2 & -> & Hp2)]; [now left | right].
    exists p2. now split.
Qed.

Lemma replace_from_passes old new s :
  forall skip, (String.length s <= skip)%nat -> Text.replace_from old new skip s = "".
Proof.
  induction s as [| c s IH]; intros skip H; cbn; [reflexivity |].
  destruct skip as [| k]; cbn in H; [lia |]. apply IH. lia.
Qed.

(** Without an occurrence nothing is replaced. *)
Lemma replace_absent old new s :
  Text.occurs old s = false -> Text.replace old new s = s.
Proof.
  unfold Text.replace. induction s as [| c s IH]; cbn [Text.occurs Text.replace_from].
  - reflexivity.
  - intros H. apply orb_false_iff in H as [Hp Ho].
    rewrite Hp, (IH Ho). reflexivity.
Qed.

(** An extension [".ext"] that occurs only at the end is replaced there. *)
Lemma replace_final_extension ext new stem :
  contains "." ext = false ->
  Text.occurs (String "." ext) stem = false ->
  Text.replace (String "." ext) new (stem ++ String "." ext) = stem ++ new.
Proof.
  intros Hext. unfold Text.replace.
  induction stem as [| c stem IH]; intros Hocc.
  - cbn [append Text.replace_from]. rewrite prefix_refl.
    rewrite replace_from_passes by (cbn; lia). now rewrite append_nil_r_local.
  - cbn [Text.occurs] in Hocc. apply orb_false_iff in Hocc as [Hp Ho].
    cbn [append Text.replace_from].
    destruct (String.prefix (String "." ext) (String c (stem ++ String "." ext))) eqn:E.
    + exfalso. change (String c (stem ++ String "." ext))
        with (String c stem ++ String "." ext) in E.
      apply prefix_split in E as [E | (p2 & Heq & Hp2)]; [congruence |].
      cbn [append] in Heq. injection Heq as <- Hrest.
      destruct p2 as [| a p2].
      * rewrite Hrest in Hp. rewrite append_nil_r_local in Hp.
        now rewrite prefix_refl in Hp.
      * cbn in Hp2. destruct (ascii_dec a ".") as [-> | Hne]; [| discriminate].
        rewrite Hrest, contains_append in Hext. cbn in Hext.
        now rewrite orb_true_r in Hext.
    + now rewrite (IH Ho).
Qed.

Lemma lower_append a b : Text.lower (a ++ b) = Text.lower a ++ Text.lower b.
Proof. induction a as [| c a IH]; cbn; [reflexivity | now rewrite IH]. Qed.

Lemma endswith_suffix s sfx : Text.endswith (s ++ sfx) sfx = true.
Proof.
  induction s as [| c s IH].
  - destruct sfx; cbn [append Text.endswith]; now rewrite String.eqb_refl.
  - cbn [append Text.endswith]. rewrite IH. apply orb_true_r.
Qed.

Lemma endswith_decompose s sfx :
  Text.endswith s sfx = true -> exists a, s = a ++ sfx.
Proof.
  induction s as [| c s IH]; cbn [Text.endswith]; intros H.
  - rewrite orb_false_r in H. apply String.eqb_eq in H as <-. now exists "".
  - apply orb_true_iff in H as [H | H].
    + apply String.eqb_eq in H as <-. now exists "".
    + destruct (IH H) as (a & ->). now exists (String c a).
Qed.

Lemma append_last_inj a b c d :
  a ++ String c "" = b ++ String d "" -> c = d.
Proof.
  revert b. induction a as [| x a IH]; intros [| y b] H; cbn in H.
  - now injection H.
  - injection H as _ H. now destruct b.
  - injection H as _ H. now destruct a.
  - injection H as _ H. exact (IH b H).
Qed.

(** A text does not end with both extensions. *)
Lemma pdf_is_not_pptx s :
  Text.endswith s ".pdf" = true -> Text.endswith s ".pptx" = false.
Proof.
  intros H. destruct (Text.endswith s ".pptx") eqn:E; [exfalso | reflexivity].
  apply endswith_decompose in H as (a & ->).
  apply endswith_decompose in E as (b & E).
  change ".pdf" with (".pd" ++ "f") in E. change ".pptx" with (".ppt" ++ "x") in E.
  rewrite <- !append_assoc in E. apply append_last_inj in E. discriminate.
Qed.

Lemma take_chars_idempotent n s :
  Text.take_chars n (Text.take_chars n s) = Text.take_chars n s.
Proof.
  revert n. induction s as [| c s IH]; intros n; cbn [Text.take_chars]; [reflexivity |].
  destruct (Text.is_continuation c) eqn:E.
  - cbn [Text.take_chars]. now rewrite E, IH.
  - destruct n as [| n]; [reflexivity |].
    cbn [Text.take_chars]. now rewrite E, IH.
Qed.

Lemma take_chars_bound n s : (Text.chars (Text.take_chars n s) <= n)%nat.
Proof.
  revert n. induction s as [| c s IH]; intros n; cbn [Text.take_chars Text.chars]; [lia |].
  destruct (Text.is_continuation c) eqn:E.
  - cbn [Text.chars]. rewrite E. apply IH.
  - destruct n as [| n]; cbn [Text.chars]; [lia |].
    rewrite E. specialize (IH n). lia.
Qed.

Lemma take_chars_prefix n s : exists rest, s = Text.take_chars n s ++ rest.
Proof.
  revert n. induction s as [| c s IH]; intros n; cbn [Text.take_chars].
  - now exists "".
  - destruct (Text.is_continuation c).
    + destruct (IH n) as (rest & H). exists rest. cbn. now rewrite <- H.
    + destruct n as [| n]; [now exists (String c s) |].
      destruct (IH n) as (rest & H). exists rest. cbn. now rewrite <- H.
Qed.

(** ** The S3 trigger *)

Section LambdaFacts.

Variable subscript_error : json -> string -> exn.
Variable index_error : json -> exn.
Variable attribute_error : json -> string -> exn.
Variable py_str : json -> string.
Variable TOGETHER_API_KEY : option string.
Variable post : string -> string -> exn + json.
Variable download_file : json -> json -> exn + string.
Variable Presentation : string -> exn + list (list Lambda.shape).
Variable pdf_pages : string -> exn + list (option string).
Variable put_object : json -> string -> string -> option exn.

Let handler := Lambda.lambda_handler subscript_error index_error attribute_error
  py_str TOGETHER_API_KEY post download_file Presentation pdf_pages put_object.
Let field := Lambda.event_field subscript_error index_error.
Let summarize := Lambda.summarize_with_together subscript_error index_error
  py_str TOGETHER_API_KEY post.

(** A run of the handler once the event names the object and the download
    has gone through. *)
Lemma lambda_handler_run event bucket k file puts :
  field event "bucket" "name" = inr bucket ->
  field event "object" "key" = inr (JStr k) ->
  download_file bucket (JStr k) = inr file ->
  handler event puts =
    match summary_name k with
    | None => (Ok {| Lambda.statusCode := 400; Lambda.body := "Unsupported file type" |}, puts)
    | Some name =>
        match (text <-- source_text Presentation pdf_pages k file ;;
               summary <-- summarize text ;;
               Lambda.as_str attribute_error summary "encode") with
        | inl e => (Raise e, puts)
        | inr encoded =>
            match put_object bucket name encoded with
            | Some e => (Raise e, puts)
            | None =>
                (Ok {| Lambda.statusCode := 200;
                       Lambda.body := "Summary saved as " ++ name |},
                 (puts ++ [(bucket, name, encoded)])%list)
            end
        end
    end.
Proof.
  unfold handler, field, summarize, Lambda.lambda_handler, summary_name, source_text.
  intros Hb Hk Hd. unfold State.bind at 1. rewrite Hb. cbn [State.call State.ret].
  unfold State.bind at 1. rewrite Hk. cbn [State.call State.ret].
  unfold State.bind at 1. rewrite Hd. cbn [State.call State.ret].
  unfold State.bind at 1. cbn [Lambda.as_str State.call State.ret].
  destruct (Text.endswith (Text.lower k) ".pptx").
  - unfold State.bind, and_then.
    destruct (Lambda.extract_pptx_text Presentation file) as [e | text]; [reflexivity |].
    cbn [State.call State.ret State.raise].
    destruct (Lambda.summarize_with_together _ _ _ _ _ text) as [e | summary]; [reflexivity |].
    cbn [State.call State.ret State.raise].
    destruct (Lambda.as_str attribute_error summary "encode") as [e | encoded]; [reflexivity |].
    cbn [State.call State.ret State.raise].
    destruct (put_object bucket _ encoded); reflexivity.
  - destruct (Text.endswith (Text.lower k) ".pdf"); [| reflexivity].
    unfold State.bind, and_then.
    destruct (Lambda.extract_pdf_text pdf_pages file) as [e | text]; [reflexivity |].
    cbn [State.call State.ret State.raise].
    destruct (Lambda.summarize_with_together _ _ _ _ _ text) as [e | summary]; [reflexivity |].
    cbn [State.call State.ret State.raise].
    destruct (Lambda.as_str attribute_error summary "encode") as [e | encoded]; [reflexivity |].
    cbn [State.call State.ret State.raise].
    destruct (put_object bucket _ encoded); reflexivity.
Qed.

Lemma lambda_handler_download_fails event bucket key e puts :
  field event "bucket" "name" = inr bucket ->
  field event "object" "key" = inr key ->
  download_file bucket key = inl e ->
  handler event puts = (Raise e, puts).
Proof.
  unfold handler, field, Lambda.lambda_handler. intros Hb Hk Hd.
  unfold State.bind at 1. rewrite Hb. cbn [State.call State.ret].
  unfold State.bind at 1. rewrite Hk. cbn [State.call State.ret].
  unfold State.bind at 1. rewrite Hd. reflexivity.
Qed.

(** X11.  An invocation stores at most one object, and none unless it
    answers 200: when the handler raises, or answers 400, the objects of
    the bucket are as before; when it answers 200 it has put exactly one
    object, in the bucket of the event, under the name that the answer
    reports, and the service accepted it. *)
Theorem handler_puts_once_or_never event puts :
  match handler event puts with
  | (Raise _, puts') => puts' = puts
  | (Ok r, puts') =>
      (r = {| Lambda.statusCode := 400; Lambda.body := "Unsupported file type" |}
       /\ puts' = puts)
      \/ exists bucket k name encoded,
           field event "bucket" "name" = inr bucket
           /\ field event "object" "key" = inr (JStr k)
           /\ summary_name k = Some name
           /\ put_object bucket name encoded = None
           /\ r = {| Lambda.statusCode := 200;
                     Lambda.body := "Summary saved as " ++ name |}
           /\ puts' = (puts ++ [(bucket, name, encoded)])%list
  end.
Proof.
  destruct (field event "bucket" "name") as [e | bucket] eqn:Hb.
  { unfold handler, Lambda.lambda_handler, State.bind at 1.
    fold field. now rewrite Hb. }
  destruct (field event "object" "key") as [e | key] eqn:Hk.
  { unfold handler, Lambda.lambda_handler, State.bind at 1.
    fold field. rewrite Hb. cbn [State.call State.ret].
    unfold State.bind at 1. now rewrite Hk. }
  destruct (download_file bucket key) as [e | file] eqn:Hd.
  { now rewrite (lambda_handler_download_fails _ _ _ _ _ Hb Hk Hd). }
  destruct key as [| b | n | x | k | items | members];
    try (unfold handler, Lambda.lambda_handler, State.bind at 1;
         fold field; rewrite Hb; cbn [State.call State.ret];
         unfold State.bind at 1; rewrite Hk; cbn [State.call State.ret];
         unfold State.bind at 1; rewrite Hd; reflexivity).
  rewrite (lambda_handler_run _ _ _ _ _ Hb Hk Hd).
  destruct (summary_name k) as [name |] eqn:Hn; [| now left].
  destruct (and_then _ _) as [e | encoded]; [reflexivity |].
  destruct (put_object bucket name encoded) eqn:Hput; [reflexivity |].
  right. exists bucket, k, name, encoded. now repeat split.
Qed.

(** X12.  A key that ends with neither [.pptx] nor [.pdf], whatever the
    case of its letters, is refused with status 400 and nothing is stored;
    the object is downloaded before its name is looked at, so a failing
    download raises for such a key too. *)
Theorem unsupported_key_is_refused_after_download event bucket k puts :
  field event "bucket" "name" = inr bucket ->
  field event "object" "key" = inr (JStr k) ->
  Text.endswith (Text.lower k) ".pptx" = false ->
  Text.endswith (Text.lower k) ".pdf" = false ->
  handler event puts =
    (match download_file bucket (JStr k) with
     | inl e => Raise e
     | inr _ => Ok {| Lambda.statusCode := 400; Lambda.body := "Unsupported file type" |}
     end, puts).
Proof.
  intros Hb Hk Hx Hp.
  destruct (download_file bucket (JStr k)) as [e | file] eqn:Hd.
  - exact (lambda_handler_download_fails _ _ _ _ _ Hb Hk Hd).
  - rewrite (lambda_handler_run _ _ _ _ _ Hb Hk Hd).
    unfold summary_name. now rewrite Hx, Hp.
Qed.

Lemma lambda_handler_ok event bucket k puts r puts' :
  field event "bucket" "name" = inr bucket ->
  field event "object" "key" = inr (JStr k) ->
  handler event puts = (Ok r, puts') ->
  match summary_name k with
  | None => r = {| Lambda.statusCode := 400; Lambda.body := "Unsupported file type" |}
            /\ puts' = puts
  | Some name =>
      r = {| Lambda.statusCode := 200; Lambda.body := "Summary saved as " ++ name |}
      /\ exists encoded, puts' = (puts ++ [(bucket, name, encoded)])%list
  end.
Proof.
  intros Hb Hk Hrun.
  destruct (download_file bucket (JStr k)) as [e | file] eqn:Hd.
  { rewrite (lambda_handler_download_fails _ _ _ _ _ Hb Hk Hd) in Hrun. discriminate. }
  rewrite (lambda_handler_run _ _ _ _ _ Hb Hk Hd) in Hrun.
  destruct (summary_name k) as [name |].
  - destruct (and_then _ _) as [e | encoded]; [discriminate |].
    destruct (put_object bucket name encoded); [discriminate |].
    injection Hrun as <- <-. split; [reflexivity |]. now exists encoded.
  - injection Hrun as <- <-. now split.
Qed.

Lemma summary_name_final_extension stem ext :
  ext = "pdf" \/ ext = "pptx" ->
  Text.occurs (String "." ext) stem = false ->
  summary_name (stem ++ String "." ext) = Some (stem ++ "_summary.txt").
Proof.
  intros Hext Hocc. unfold summary_name. rewrite lower_append.
  destruct Hext as [-> | ->].
  - change (Text.lower ".pdf") with ".pdf".
    rewrite (pdf_is_not_pptx _ (endswith_suffix _ _)), endswith_suffix.
    now rewrite (replace_final_extension "pdf" _ stem eq_refl Hocc).
  - change (Text.lower ".pptx") with ".pptx". rewrite endswith_suffix.
    now rewrite (replace_final_extension "pptx" _ stem eq_refl Hocc).
Qed.

Lemma summary_name_other_case k :
  (Text.endswith (Text.lower k) ".pptx" = true /\ Text.occurs ".pptx" k = false)
  \/ (Text.endswith (Text.lower k) ".pdf" = true /\ Text.occurs ".pdf" k = false) ->
  summary_name k = Some k.
Proof.
  unfold summary_name. intros [[He Ho] | [He Ho]].
  - now rewrite He, (replace_absent _ _ _ Ho).
  - now rewrite (pdf_is_not_pptx _ He), He, (replace_absent _ _ _ Ho).
Qed.

(** X13.  For an object named [stem.pdf] or [stem.pptx], the extension in
    lower case and not occurring inside the stem, an invocation that
    returns has stored the summary as [stem_summary.txt] in the bucket of
    the object and answers 200 with that name. *)
Theorem summary_replaces_final_extension event bucket stem ext puts r puts' :
  field event "bucket" "name" = inr bucket ->
  field event "object" "key" = inr (JStr (stem ++ String "." ext)) ->
  ext = "pdf" \/ ext = "pptx" ->
  Text.occurs (String "." ext) stem = false ->
  handler event puts = (Ok r, puts') ->
  r = {| Lambda.statusCode := 200;
         Lambda.body := "Summary saved as " ++ stem ++ "_summary.txt" |}
  /\ exists encoded, puts' = (puts ++ [(bucket, (stem ++ "_summary.txt")%string, encoded)])%list.
Proof.
  intros Hb Hk Hext Hocc Hrun.
  pose proof (lambda_handler_ok _ _ _ _ _ _ Hb Hk Hrun) as H.
  now rewrite (summary_name_final_extension _ _ Hext Hocc) in H.
Qed.

(** X14.  The test of the extension ignores the case of the letters, the
    replacement does not: for a key that ends with [.pdf] or [.pptx] in
    another case (and holds the lower-case extension nowhere) the name of
    the summary is the key itself, so an invocation that returns has put
    the summary in the place of the document. *)
Theorem other_case_extension_overwrites_document event bucket k puts r puts' :
  field event "bucket" "name" = inr bucket ->
  field event "object" "key" = inr (JStr k) ->
  (Text.endswith (Text.lower k) ".pptx" = true /\ Text.occurs ".pptx" k = false)
  \/ (Text.endswith (Text.lower k) ".pdf" = true /\ Text.occurs ".pdf" k = false) ->
  handler event puts = (Ok r, puts') ->
  r = {| Lambda.statusCode := 200; Lambda.body := "Summary saved as " ++ k |}
  /\ exists encoded, puts' = (puts ++ [(bucket, k, encoded)])%list.
Proof.
  intros Hb Hk Hcase Hrun.
  pose proof (lambda_handler_ok _ _ _ _ _ _ Hb Hk Hrun) as H.
  now rewrite (summary_name_other_case _ Hcase) in H.
Qed.

(** X15.  An answer of the completion service without ['choices'] (an
    error reply, or an answer that is no object) is not reported: its
    [str] becomes the summary, is stored under the name of the summary, and
    the invocation answers 200. *)
Theorem refusal_is_stored_as_summary event bucket k file name text output e puts :
  field event "bucket" "name" = inr bucket ->
  field event "object" "key" = inr (JStr k) ->
  download_file bucket (JStr k) = inr file ->
  summary_name k = Some name ->
  source_text Presentation pdf_pages k file = inr text ->
  (forall authorization content, post authorization content = inr output) ->
  Json.getitem subscript_error output "choices" = inl e ->
  put_object bucket name (py_str output) = None ->
  handler event puts =
    (Ok {| Lambda.statusCode := 200; Lambda.body := "Summary saved as " ++ name |},
     (puts ++ [(bucket, name, py_str output)])%list).
Proof.
  intros Hb Hk Hd Hn Ht Hpost Hchoices Hput.
  rewrite (lambda_handler_run _ _ _ _ _ Hb Hk Hd), Hn, Ht.
  unfold and_then at 1. unfold summarize, Lambda.summarize_with_together.
  rewrite Hpost. unfold and_then. rewrite Hchoices.
  cbn [Lambda.as_str]. now rewrite Hput.
Qed.

(** X16.  The completion service is asked about the first 3000 characters
    of the text only: they are a prefix of the text, and summarising them
    does what summarising the whole text does. *)
Theorem summary_reads_first_3000_characters text :
  (Text.chars (Text.take_chars 3000 text) <= 3000)%nat
  /\ (exists rest, text = Text.take_chars 3000 text ++ rest)
  /\ summarize (Text.take_chars 3000 text) = summarize text.
Proof.
  split; [apply take_chars_bound |]. split; [apply take_chars_prefix |].
  unfold summarize, Lambda.summarize_with_together.
  now rewrite take_chars_idempotent.
Qed.

End LambdaFacts.

Lemma unsupported_key_is_refused_after_download_txt :
  LambdaScenario.handler LambdaScenario.completion
    (LambdaScenario.s3_event "notes" "agenda.txt") []
  = (Ok {| Lambda.statusCode := 400; Lambda.body := "Unsupported file type" |}, []).
Proof.
  exact (unsupported_key_is_refused_after_download
           LambdaScenario.subscript_error LambdaScenario.index_error
           LambdaScenario.attribute_error LambdaScenario.py_str (Some "key")
           (LambdaScenario.post LambdaScenario.completion)
           LambdaScenario.download_file LambdaScenario.Presentation
           LambdaScenario.pdf_pages LambdaScenario.put_object
           (LambdaScenario.s3_event "notes" "agenda.txt") (JStr "notes") "agenda.txt" []
           eq_refl eq_refl eq_refl eq_refl).
Defined.

Lemma summary_replaces_final_extension_talk :
  exists encoded,
    snd (LambdaScenario.handler LambdaScenario.completion
           (LambdaScenario.s3_event "notes" "talk.pptx") [])
    = [(JStr "notes", "talk_summary.txt", encoded)].
Proof.
  exact (proj2 (summary_replaces_final_extension
           LambdaScenario.subscript_error LambdaScenario.index_error
           LambdaScenario.attribute_error LambdaScenario.py_str (Some "key")
           (LambdaScenario.post LambdaScenario.completion)
           LambdaScenario.download_file LambdaScenario.Presentation
           LambdaScenario.pdf_pages LambdaScenario.put_object
           (LambdaScenario.s3_event "notes" "talk.pptx") (JStr "notes") "talk" "pptx" []
           _ _ eq_refl eq_refl (or_intror eq_refl) eq_refl eq_refl)).
Defined.

Lemma other_case_extension_overwrites_document_PDF :
  exists encoded,
    snd (LambdaScenario.handler LambdaScenario.completion
           (LambdaScenario.s3_event "notes" "talk.PDF") [])
    = [(JStr "notes", "talk.PDF", encoded)].
Proof.
  exact (proj2 (other_case_extension_overwrites_document
           LambdaScenario.subscript_error LambdaScenario.index_error
           LambdaScenario.attribute_error LambdaScenario.py_str (Some "key")
           (LambdaScenario.post LambdaScenario.completion)
           LambdaScenario.download_file LambdaScenario.Presentation
           LambdaScenario.pdf_pages LambdaScenario.put_object
           (LambdaScenario.s3_event "notes" "talk.PDF") (JStr "notes") "talk.PDF" []
           _ _ eq_refl eq_refl (or_intror (conj eq_refl eq_refl)) eq_refl)).
Defined.

Lemma refusal_is_stored_as_summary_invalid_key :
  LambdaScenario.handler LambdaScenario.refusal
    (LambdaScenario.s3_event "notes" "talk.pdf") []
  = (Ok {| Lambda.statusCode := 200; Lambda.body := "Summary saved as talk_summary.txt" |},
     [(JStr "notes", "talk_summary.txt", "{'error': {'message': 'Invalid API key'}}")]).
Proof.
  exact (refusal_is_stored_as_summary
           LambdaScenario.subscript_error LambdaScenario.index_error
           LambdaScenario.attribute_error LambdaScenario.py_str (Some "key")
           (LambdaScenario.post LambdaScenario.refusal)
           LambdaScenario.download_file LambdaScenario.Presentation
           LambdaScenario.pdf_pages LambdaScenario.put_object
           (LambdaScenario.s3_event "notes" "talk.pdf") (JStr "notes") "talk.pdf"
           "content" "talk_summary.txt" "Page one " LambdaScenario.refusal
           (LambdaScenario.subscript_error LambdaScenario.refusal "choices") []
           eq_refl eq_refl eq_refl eq_refl eq_refl (fun _ _ => eq_refl) eq_refl eq_refl).
Defined.

(** ** Summaries of local documents *)

Lemma basename_no_slash name : contains "/" name = false -> Path.basename name = name.
Proof.
  destruct name as [| c name]; cbn [Path.basename contains]; [reflexivity |].
  intros H. apply orb_false_iff in H as [Hc Hn].
  now rewrite Hn, Hc.
Qed.

Lemma basename_of_joined dir name :
  contains "/" name = false -> Path.basename (dir ++ String "/" name) = name.
Proof.
  intros Hn. induction dir as [| c dir IH]; cbn [append Path.basename].
  - now rewrite Hn, Ascii.eqb_refl.
  - rewrite contains_append. cbn [contains]. rewrite Ascii.eqb_refl.
    now rewrite orb_true_r.
Qed.

Lemma content_store path text fs : World.content path (World.store path text fs) = Some text.
Proof.
  induction fs as [| [p t] fs IH]; cbn [World.store World.content].
  - now rewrite String.eqb_refl.
  - destruct (String.eqb p path) eqn:E; cbn [World.content].
    + now rewrite String.eqb_refl.
    + now rewrite E.
Qed.

Lemma store_store path t1 t2 fs :
  World.store path t2 (World.store path t1 fs) = World.store path t2 fs.
Proof.
  induction fs as [| [p t] fs IH]; cbn [World.store].
  - now rewrite String.eqb_refl.
  - destruct (String.eqb p path) eqn:E; cbn [World.store].
    + now rewrite String.eqb_refl.
    + now rewrite E, IH.
Qed.

Section DocumentsFacts.

Local Open Scope state_scope.

Variable S3_BUCKET : string.
Variable DYNAMO_TABLE : string.
Variable TOGETHER_API_KEY : string.
Variable HAS_PPTX : bool.
Variable ClientError : exn -> bool.
Variable missing_file : string -> exn.
Variable open_for_writing : string -> option exn.
Variable write_error : json -> exn.
Variable upload_file : string -> string -> string -> option exn.
Variable put_item : string -> list (string * json) -> option exn.
Variable isoformat : nat -> string.
Variable post : string -> string -> exn + json.
Variable subscript_error : json -> string -> exn.
Variable index_error : json -> exn.
Variable attribute_error : json -> string -> exn.
Variable not_iterable : json -> exn.
Variable not_sliceable : json -> exn.
Variable py_str : json -> string.
Variable Presentation : option string -> exn + list (list Lambda.shape).
Variable pdf_pages : option string -> exn + list (option string).
Variable analyze : ST world unit.
Variable typed : exn + string.

Let upload := upload_to_s3 ClientError missing_file upload_file.
Let log := write_to_dynamodb DYNAMO_TABLE put_item.
Let summarize := summarize_with_together TOGETHER_API_KEY post subscript_error
  index_error not_iterable py_str.
Let write := write_text open_for_writing write_error.
Let report_summary := ai_summary_to_file S3_BUCKET DYNAMO_TABLE TOGETHER_API_KEY
  ClientError missing_file open_for_writing write_error upload_file put_item isoformat
  post subscript_error index_error attribute_error not_iterable py_str.
Let pptx := pptx_summarize_handler S3_BUCKET DYNAMO_TABLE TOGETHER_API_KEY HAS_PPTX
  ClientError missing_file open_for_writing write_error upload_file put_item isoformat
  post subscript_error index_error not_iterable not_sliceable py_str Presentation.
Let pdf := pdf_summarize_handler S3_BUCKET DYNAMO_TABLE TOGETHER_API_KEY
  ClientError missing_file open_for_writing write_error upload_file put_item isoformat
  post subscript_error index_error not_iterable not_sliceable py_str pdf_pages.
Let entry := main S3_BUCKET DYNAMO_TABLE TOGETHER_API_KEY HAS_PPTX
  ClientError missing_file open_for_writing write_error upload_file put_item isoformat
  post subscript_error index_error not_iterable not_sliceable py_str Presentation
  pdf_pages analyze typed.

(** The name that an upload gives to the object. *)
Let object_of (file_name : string) (object_name : option string) : string :=
  match object_name with
  | None => Path.basename file_name
  | Some name => name
  end.

Lemma upload_to_s3_run file_name bucket object_name w :
  upload file_name bucket object_name w =
    let refused e :=
      if ClientError e
      then (Ok false, with_lines [upload_failed_line e] w)
      else (Raise e, w) in
    match World.content file_name (files w) with
    | None => refused (missing_file file_name)
    | Some text =>
        match upload_file text bucket (object_of file_name object_name) with
        | Some e => refused e
        | None =>
            (Ok true,
             {| console := (console w
                            ++ [uploaded_line bucket (object_of file_name object_name)])%list;
                files := files w;
                objects := (objects w
                            ++ [(bucket, object_of file_name object_name, text)])%list;
                items := items w; clock := clock w |})
        end
    end.
Proof.
  unfold upload, upload_to_s3, World.try_except_of, State.bind, s3_upload_file, object_of.
  destruct (World.content file_name (files w)) as [text |].
  - destruct (upload_file text bucket _) as [e |]; [| reflexivity].
    destruct (ClientError e); reflexivity.
  - destruct (ClientError _); reflexivity.
Qed.

(** X17.  An upload never lets a [ClientError] through, and it is the only
    failure that it hides: it raises only other exceptions, and then
    nothing has been printed or changed; it returns [False] exactly for a
    [ClientError], which it prints; it returns [True] after the service
    has accepted the text of the file, under the given name or else the
    base name of the file.  The files on disk are never touched. *)
Theorem upload_hides_client_errors_only file_name bucket object_name w :
  match upload file_name bucket object_name w with
  | (Raise e, w') => ClientError e = false /\ w' = w
  | (Ok false, w') =>
      exists e, ClientError e = true
                /\ w' = with_lines [upload_failed_line e] w
  | (Ok true, w') =>
      exists text,
        World.content file_name (files w) = Some text
        /\ upload_file text bucket (object_of file_name object_name) = None
        /\ objects w' = (objects w ++ [(bucket, object_of file_name object_name, text)])%list
        /\ console w' = (console w
                        ++ [uploaded_line bucket (object_of file_name object_name)])%list
        /\ files w' = files w /\ items w' = items w /\ clock w' = clock w
  end.
Proof.
  rewrite upload_to_s3_run. cbv zeta.
  destruct (World.content file_name (files w)) as [text |] eqn:Hc.
  - destruct (upload_file text bucket _) as [e |] eqn:Hu.
    + destruct (ClientError e) eqn:He; [now exists e | now split].
    + exists text. now repeat split.
  - destruct (ClientError _) eqn:He; [| now split].
    exists (missing_file file_name). now split.
Qed.

(** X18.  Without a name for the object an upload uses the base name of
    the file: the directories of the path are dropped, so files of the
    same name in different directories go to the same object. *)
Theorem upload_drops_directories dir name bucket w :
  contains "/" name = false ->
  upload (dir ++ String "/" name) bucket None w
  = upload (dir ++ String "/" name) bucket (Some name) w.
Proof.
  intros Hn. rewrite !upload_to_s3_run. unfold object_of.
  now rewrite (basename_of_joined dir name Hn).
Qed.

Lemma bind_run {S A B} (m : ST S A) (f : A -> ST S B) (w : S) :
  State.bind m f w =
    match m w with
    | (Ok a, w1) => f a w1
    | (Raise e, w1) => (Raise e, w1)
    end.
Proof. reflexivity. Qed.

Lemma keeps_bind {X A B} (part : world -> X) (m : ST world A) (f : A -> ST world B) :
  keeps part m -> (forall a, keeps part (f a)) -> keeps part (State.bind m f).
Proof.
  intros Hm Hf w. unfold State.bind. specialize (Hm w).
  destruct (m w) as [[a | e] w1]; cbn [snd] in *; [| exact Hm].
  now rewrite (Hf a w1).
Qed.

Lemma keeps_ret {X A} (part : world -> X) (a : A) : keeps part (State.ret a).
Proof. now intros w. Qed.

Lemma keeps_raise {X A} (part : world -> X) (e : exn) : keeps part (@State.raise world A e).
Proof. now intros w. Qed.

Lemma keeps_call {X A} (part : world -> X) (a : exn + A) : keeps part (State.call a).
Proof. destruct a; now intros w. Qed.

Lemma upload_keeps_files file_name bucket object_name :
  keeps files (upload file_name bucket object_name).
Proof.
  intros w. rewrite upload_to_s3_run. cbv zeta.
  destruct (World.content _ _); [destruct (upload_file _ _ _) |];
    try destruct (ClientError _); reflexivity.
Qed.

Lemma log_keeps_files table record : keeps files (log table record).
Proof.
  intros w. unfold log, write_to_dynamodb.
  destruct (String.eqb DYNAMO_TABLE ""); [reflexivity |].
  destruct (put_item table record); reflexivity.
Qed.

Lemma log_keeps_objects table record : keeps objects (log table record).
Proof.
  intros w. unfold log, write_to_dynamodb.
  destruct (String.eqb DYNAMO_TABLE ""); [reflexivity |].
  destruct (put_item table record); reflexivity.
Qed.

Lemma now_keeps_files : keeps files (now isoformat).
Proof. now intros w. Qed.

Lemma now_keeps_objects : keeps objects (now isoformat).
Proof. now intros w. Qed.

Lemma print_keeps_files line : keeps files (World.print line).
Proof. now intros w. Qed.

Lemma print_keeps_objects line : keeps objects (World.print line).
Proof. now intros w. Qed.

Lemma summarize_keeps_files text : keeps files (summarize text).
Proof.
  unfold summarize, summarize_with_together.
  destruct (String.eqb TOGETHER_API_KEY "").
  - apply keeps_bind; [apply print_keeps_files | intros; apply keeps_ret].
  - apply keeps_bind; [apply keeps_call | intros output].
    apply keeps_bind; [apply keeps_call | intros present].
    destruct present; [apply keeps_call | apply keeps_ret].
Qed.

(** What the summary of the report may leave on disk. *)
Lemma write_text_files path s w :
  files (snd (write path (JStr s) w)) = files w
  \/ files (snd (write path (JStr s) w)) = World.store path s (files w).
Proof.
  unfold write, write_text. destruct (open_for_writing path); [now left | right].
  unfold State.bind. cbn. apply store_store.
Qed.

Lemma occurs_append_fresh sub a c b :
  contains c sub = false ->
  Text.occurs sub a = false ->
  Text.occurs sub (String c b) = false ->
  Text.occurs sub (a ++ String c b) = false.
Proof.
  intros Hc Ha Hb. induction a as [| x a IH]; [exact Hb |].
  cbn [Text.occurs] in Ha. apply orb_false_iff in Ha as [Hp Ho].
  cbn [append Text.occurs]. rewrite (IH Ho), orb_false_r.
  destruct (String.prefix sub (String x (a ++ String c b))) eqn:E; [exfalso | reflexivity].
  change (String x (a ++ String c b)) with (String x a ++ String c b) in E.
  apply prefix_split in E as [E | (p2 & Heq & Hp2)]; [congruence |].
  destruct p2 as [| d p2].
  - rewrite append_nil_r_local in Heq. rewrite Heq, prefix_refl in Hp. discriminate.
  - cbn in Hp2. destruct (ascii_dec d c) as [-> | Hne]; [| discriminate].
    rewrite Heq, contains_append in Hc. cbn [contains] in Hc.
    now rewrite Ascii.eqb_refl, orb_true_r in Hc.
Qed.

(** The name of the summary of [stem.csv]. *)
Lemma report_summary_path stem :
  Text.occurs ".csv" stem = false ->
  Text.occurs ".pdf" stem = false ->
  Text.occurs ".pptx" stem = false ->
  Text.replace ".pptx" "_summary.txt"
    (Text.replace ".pdf" "_summary.txt"
       (Text.replace ".csv" "_summary.txt" (stem ++ ".csv")))
  = stem ++ "_summary.txt".
Proof.
  intros Hcsv Hpdf Hpptx.
  rewrite (replace_final_extension "csv" _ stem eq_refl Hcsv).
  rewrite (replace_absent ".pdf").
  - apply replace_absent. now apply occurs_append_fresh.
  - now apply occurs_append_fresh.
Qed.

(** X19.  The summary of the report of [stem.csv] writes no file but
    [stem_summary.txt], whatever the service answers and however the call
    ends (the stem holding none of the three extensions). *)
Theorem report_summary_writes_beside_report stem w :
  Text.occurs ".csv" stem = false ->
  Text.occurs ".pdf" stem = false ->
  Text.occurs ".pptx" stem = false ->
  files (snd (report_summary (stem ++ ".csv") w)) = files w
  \/ exists s,
       files (snd (report_summary (stem ++ ".csv") w))
       = World.store (stem ++ "_summary.txt") s (files w).
Proof.
  intros Hcsv Hpdf Hpptx.
  remember (snd (report_summary (stem ++ ".csv") w)) as w' eqn:Hrun.
  unfold report_summary, ai_summary_to_file in Hrun.
  rewrite (report_summary_path stem Hcsv Hpdf Hpptx) in Hrun.
  rewrite bind_run in Hrun. unfold read_text at 1 in Hrun.
  destruct (World.content (stem ++ ".csv") (files w)) as [content |];
    [| left; now rewrite Hrun].
  rewrite bind_run in Hrun. fold summarize in Hrun.
  pose proof (summarize_keeps_files content w) as Hs.
  destruct (summarize content w) as [[summary | e] w1]; cbn [snd] in Hs, Hrun;
    [| left; now rewrite Hrun].
  rewrite bind_run in Hrun.
  destruct summary as [| b | n | x | text | xs | members];
    cbn [Lambda.as_str State.call State.raise State.ret snd] in Hrun;
    try (left; now rewrite Hrun).
  destruct (negb (String.eqb (Blank.strip text) "")).
  - fold write upload log in Hrun.
    match type of Hrun with
    | context [State.bind (write ?p ?x) ?k] => set (rest := k) in Hrun
    end.
    assert (Hrest : forall a, keeps files (rest a)).
    { intros a. unfold rest.
      apply keeps_bind; [apply print_keeps_files | intros _].
      apply keeps_bind; [apply print_keeps_files | intros _].
      apply keeps_bind; [apply print_keeps_files | intros _].
      apply keeps_bind; [apply upload_keeps_files | intros _].
      destruct (negb (String.eqb DYNAMO_TABLE "")); [| apply keeps_ret].
      apply keeps_bind; [apply now_keeps_files | intros created_at].
      apply log_keeps_files. }
    rewrite bind_run in Hrun.
    pose proof (write_text_files (stem ++ "_summary.txt") text w1) as Hw.
    rewrite Hs in Hw.
    destruct (write (stem ++ "_summary.txt") (JStr text) w1) as [[[] | e] w2];
      cbn [snd] in Hw, Hrun; rewrite Hrun, ?(Hrest tt w2);
      (destruct Hw as [Hw | Hw]; [now left | right; now exists text]).
  - left. rewrite Hrun. exact Hs.
Qed.

(** X20.  Without an API key the report is not summarised: the service is
    not asked, the two notices are printed and nothing else happens, no
    file is written and nothing is uploaded or logged. *)
Theorem without_key_report_is_not_summarised file_path content w :
  TOGETHER_API_KEY = "" ->
  World.content file_path (files w) = Some content ->
  report_summary file_path w = (Ok tt, with_lines [no_key_line; not_generated_line] w).
Proof.
  intros Hkey Hfile. unfold report_summary, ai_summary_to_file.
  rewrite bind_run. unfold read_text at 1. rewrite Hfile.
  rewrite bind_run. unfold summarize_with_together. rewrite Hkey.
  cbn. unfold with_lines, World.print, State.update. cbn [console files objects items clock].
  now rewrite <- app_assoc.
Qed.

Lemma logging_keeps {X} (part : world -> X) record_of :
  keeps part (now isoformat) ->
  (forall table record, keeps part (log table record)) ->
  forall summary,
  keeps part
    (if negb (String.eqb DYNAMO_TABLE "") then
       created_at <- now isoformat ;;
       preview <- State.call (json_slice not_sliceable 200 summary) ;;
       log DYNAMO_TABLE (record_of created_at preview)
     else State.ret tt).
Proof.
  intros Hnow Hlog summary.
  destruct (negb (String.eqb DYNAMO_TABLE "")); [| apply keeps_ret].
  apply keeps_bind; [exact Hnow | intros created_at].
  apply keeps_bind; [apply keeps_call | intros preview]. apply Hlog.
Qed.

(** X21.  Without an API key the handler of presentations still goes on
    with the empty summary: however the call ends, the file of the summary
    is on disk and is empty, and what has been uploaded, if anything, is
    that empty text under the base name of the file. *)
Theorem without_key_presentation_gets_empty_summary file_path slides w :
  TOGETHER_API_KEY = "" ->
  HAS_PPTX = true ->
  Presentation (World.content file_path (files w)) = inr slides ->
  open_for_writing (Text.replace ".pptx" "_summary.txt" file_path) = None ->
  World.content (Text.replace ".pptx" "_summary.txt" file_path)
    (files (snd (pptx file_path None w))) = Some ""
  /\ (objects (snd (pptx file_path None w)) = objects w
      \/ objects (snd (pptx file_path None w))
         = (objects w
            ++ [(S3_BUCKET,
                 Path.basename (Text.replace ".pptx" "_summary.txt" file_path), "")])%list).
Proof.
  intros Hkey Hpptx Hslides Hopen.
  remember (snd (pptx file_path None w)) as w' eqn:Hrun.
  unfold pptx, pptx_summarize_handler in Hrun. rewrite Hpptx in Hrun.
  cbn [negb output_or] in Hrun.
  set (out := Text.replace ".pptx" "_summary.txt" file_path) in *.
  rewrite bind_run in Hrun. unfold extract_text_from_pptx at 1 in Hrun.
  cbn [negb] in Hrun. rewrite Hslides in Hrun.
  cbn [and_then State.call State.ret] in Hrun.
  rewrite bind_run in Hrun. unfold summarize_with_together at 1 in Hrun.
  rewrite Hkey in Hrun. cbn [String.eqb] in Hrun.
  rewrite (bind_run (World.print _)) in Hrun.
  cbn [World.print State.update State.ret] in Hrun.
  rewrite bind_run in Hrun. unfold write_text at 1 in Hrun. rewrite Hopen in Hrun.
  rewrite (bind_run (World.set_file _ _)) in Hrun.
  cbn [World.set_file State.update console files objects items clock] in Hrun.
  rewrite store_store in Hrun.
  rewrite bind_run in Hrun. cbn [World.print State.update] in Hrun.
  cbn [console files objects items clock] in Hrun.
  fold upload log in Hrun.
  match type of Hrun with
  | context [State.bind (upload out S3_BUCKET None) ?k] => set (rest := k) in Hrun
  end.
  assert (Hfiles : forall a, keeps files (rest a)).
  { intros a. apply logging_keeps; [apply now_keeps_files | apply log_keeps_files]. }
  assert (Hobjects : forall a, keeps objects (rest a)).
  { intros a. apply logging_keeps; [apply now_keeps_objects | apply log_keeps_objects]. }
  rewrite bind_run, upload_to_s3_run in Hrun. cbv zeta in Hrun. unfold object_of in Hrun.
  cbn [files objects] in Hrun. rewrite content_store in Hrun.
  unfold keeps in Hfiles, Hobjects.
  destruct (upload_file "" S3_BUCKET (Path.basename out)) as [e |].
  - destruct (ClientError e); cbv beta iota in Hrun.
    + rewrite Hrun, Hfiles, Hobjects. cbn [with_lines files objects].
      split; [apply content_store | now left].
    + rewrite Hrun. cbn [snd files objects]. split; [apply content_store | now left].
  - cbv beta iota in Hrun. rewrite Hrun, Hfiles, Hobjects. cbn [files objects].
    split; [apply content_store | now right].
Qed.

Lemma ends_with_extension_not_empty p ext :
  Text.endswith (Text.lower p) (String "." ext) = true -> String.eqb p "" = false.
Proof. destruct p; [discriminate | reflexivity]. Qed.

Lemma pptx_default_output p w :
  String.eqb p "" = false -> Text.occurs ".pptx" p = false ->
  pptx p None w = pptx p (Some p) w.
Proof.
  intros Hp Hocc. unfold pptx, pptx_summarize_handler, output_or.
  now rewrite Hp, (replace_absent _ _ _ Hocc).
Qed.

Lemma pdf_default_output p w :
  String.eqb p "" = false -> Text.occurs ".pdf" p = false ->
  pdf p None w = pdf p (Some p) w.
Proof.
  intros Hp Hocc. unfold pdf, pdf_summarize_handler, output_or.
  now rewrite Hp, (replace_absent _ _ _ Hocc).
Qed.

(** X22.  The entry point tests the extension of the path without regard
    to the case of its letters, the handlers replace it as written: for a
    path that ends with [.pptx] or [.pdf] in another case (and holds the
    lower-case extension nowhere) the entry point does what it would do
    when asked to write the summary to the path of the document itself. *)
Theorem path_in_other_case_is_overwritten line p w :
  typed = inr line ->
  Blank.strip line = p ->
  (Text.endswith (Text.lower p) ".pptx" = true /\ Text.occurs ".pptx" p = false)
  \/ (Text.endswith (Text.lower p) ".pdf" = true /\ Text.occurs ".pdf" p = false) ->
  entry w =
    (analyze ;;;
     input typed path_prompt ;;;
     if Text.endswith (Text.lower p) ".pptx" then pptx p (Some p) else pdf p (Some p)) w.
Proof.
  intros Htyped Hstrip Hcase. unfold entry, main. fold path_prompt.
  rewrite !(bind_run analyze). destruct (analyze w) as [[[] | e] w1]; [| reflexivity].
  rewrite !(bind_run (input typed path_prompt)).
  unfold input. rewrite Htyped, bind_run.
  cbn [World.print State.update State.call State.ret]. rewrite Hstrip.
  destruct Hcase as [[He Ho] | [He Ho]].
  - rewrite (ends_with_extension_not_empty _ _ He), He. cbn [negb].
    apply pptx_default_output; [exact (ends_with_extension_not_empty _ _ He) | exact Ho].
  - rewrite (ends_with_extension_not_empty _ _ He), (pdf_is_not_pptx _ He), He. cbn [negb].
    apply pdf_default_output; [exact (ends_with_extension_not_empty _ _ He) | exact Ho].
Qed.



Lemma print_keeps_items line : keeps items (World.print line).
Proof. now intros w. Qed.

Lemma summarize_keeps_objects text : keeps objects (summarize text).
Proof.
  unfold summarize, summarize_with_together.
  destruct (String.eqb TOGETHER_API_KEY "").
  - apply keeps_bind; [apply print_keeps_objects | intros; apply keeps_ret].
  - apply keeps_bind; [apply keeps_call | intros output].
    apply keeps_bind; [apply keeps_call | intros present].
    destruct present; [apply keeps_call | apply keeps_ret].
Qed.

(** X24.  When the service gives a summary that is a text, not blank, and
    the file can be opened and the upload is accepted, the summary of the
    report of [stem.csv] is the text of [stem_summary.txt] on disk and of
    the object of that base name in the bucket, whether the logging that
    follows succeeds or raises. *)
Theorem report_summary_is_stored_and_uploaded stem content s w w1 :
  Text.occurs ".csv" stem = false ->
  Text.occurs ".pdf" stem = false ->
  Text.occurs ".pptx" stem = false ->
  World.content (stem ++ ".csv") (files w) = Some content ->
  summarize content w = (Ok (JStr s), w1) ->
  Blank.strip s <> "" ->
  open_for_writing (stem ++ "_summary.txt") = None ->
  upload_file s S3_BUCKET (Path.basename (stem ++ "_summary.txt")) = None ->
  files (snd (report_summary (stem ++ ".csv") w))
  = World.store (stem ++ "_summary.txt") s (files w)
  /\ objects (snd (report_summary (stem ++ ".csv") w))
     = (objects w ++ [(S3_BUCKET, Path.basename (stem ++ "_summary.txt"), s)])%list.
Proof.
  intros Hcsv Hpdf Hpptx Hfile Hsum Hstrip Hopen Hup.
  remember (snd (report_summary (stem ++ ".csv") w)) as w' eqn:Hrun.
  unfold report_summary, ai_summary_to_file in Hrun.
  rewrite (report_summary_path stem Hcsv Hpdf Hpptx) in Hrun.
  set (out := stem ++ "_summary.txt") in *.
  rewrite bind_run in Hrun. unfold read_text at 1 in Hrun. rewrite Hfile in Hrun.
  rewrite bind_run in Hrun. fold summarize in Hrun.
  pose proof (summarize_keeps_files content w) as Hsf.
  pose proof (summarize_keeps_objects content w) as Hso.
  rewrite Hsum in Hrun, Hsf, Hso. cbn [snd] in Hsf, Hso.
  rewrite bind_run in Hrun. cbn [Lambda.as_str State.call State.ret] in Hrun.
  apply String.eqb_neq in Hstrip. rewrite Hstrip in Hrun. cbn [negb] in Hrun.
  rewrite bind_run in Hrun. unfold write_text at 1 in Hrun. rewrite Hopen in Hrun.
  rewrite (bind_run (World.set_file _ _)) in Hrun.
  cbn [World.set_file State.update console files objects items clock] in Hrun.
  rewrite store_store in Hrun.
  do 3 (rewrite bind_run in Hrun; cbn [World.print State.update] in Hrun;
        cbn [console files objects items clock] in Hrun).
  fold upload log in Hrun.
  match type of Hrun with
  | context [State.bind (upload out S3_BUCKET None) ?k] => set (rest := k) in Hrun
  end.
  assert (Hfiles : forall a, keeps files (rest a)).
  { intros a. unfold rest. destruct (negb (String.eqb DYNAMO_TABLE "")); [| apply keeps_ret].
    apply keeps_bind; [apply now_keeps_files | intros created_at]. apply log_keeps_files. }
  assert (Hobjects : forall a, keeps objects (rest a)).
  { intros a. unfold rest. destruct (negb (String.eqb DYNAMO_TABLE "")); [| apply keeps_ret].
    apply keeps_bind; [apply now_keeps_objects | intros created_at].
    apply log_keeps_objects. }
  rewrite bind_run, upload_to_s3_run in Hrun. cbv zeta in Hrun. unfold object_of in Hrun.
  cbn [files objects] in Hrun. rewrite content_store, Hup in Hrun.
  unfold keeps in Hfiles, Hobjects. cbv beta iota in Hrun.
  rewrite Hrun, Hfiles, Hobjects. cbn [files objects]. now rewrite Hsf, Hso.
Qed.

(** X25.  The file of the summary is opened before the summary is written:
    when the answer of the service is no text (a [null] content, say) the
    handler of presentations raises the error of [write], and leaves the
    file of the summary on disk, empty. *)
Theorem answer_that_is_no_text_empties_summary file_path output_txt text summary w w1 :
  HAS_PPTX = true ->
  extract_text_from_pptx HAS_PPTX Presentation file_path w = (Ok text, w) ->
  summarize text w = (Ok summary, w1) ->
  (forall s, summary <> JStr s) ->
  open_for_writing
    (output_or output_txt (Text.replace ".pptx" "_summary.txt" file_path)) = None ->
  fst (pptx file_path output_txt w) = Raise (write_error summary)
  /\ files (snd (pptx file_path output_txt w))
     = World.store (output_or output_txt (Text.replace ".pptx" "_summary.txt" file_path))
         "" (files w).
Proof.
  intros Hpptx Hext Hsum Htext Hopen.
  remember (pptx file_path output_txt w) as r eqn:Hrun.
  unfold pptx, pptx_summarize_handler in Hrun. rewrite Hpptx in Hrun, Hext.
  cbn [negb] in Hrun. rewrite bind_run, Hext in Hrun.
  rewrite bind_run in Hrun. fold summarize in Hrun.
  pose proof (summarize_keeps_files text w) as Hsf.
  rewrite Hsum in Hsf, Hrun. cbn [snd] in Hsf.
  rewrite bind_run in Hrun. unfold write_text at 1 in Hrun. rewrite Hopen in Hrun.
  rewrite (bind_run (World.set_file _ _)) in Hrun.
  cbn [World.set_file State.update] in Hrun.
  destruct summary as [| b | n | x | s | xs | members];
    try (rewrite Hrun; split; cbn; now rewrite ?Hsf).
  now destruct (Htext s).
Qed.

End DocumentsFacts.


Lemma upload_drops_directories_report :
  upload_to_s3 DocumentsScenario.ClientError DocumentsScenario.missing_file
    DocumentsScenario.upload_file "out/report.csv" "smart-notes-uploads" None
    DocumentsScenario.disk
  = upload_to_s3 DocumentsScenario.ClientError DocumentsScenario.missing_file
      DocumentsScenario.upload_file "out/report.csv" "smart-notes-uploads"
      (Some "report.csv") DocumentsScenario.disk.
Proof.
  exact (upload_drops_directories DocumentsScenario.ClientError
           DocumentsScenario.missing_file DocumentsScenario.upload_file
           "out" "report.csv" "smart-notes-uploads" DocumentsScenario.disk eq_refl).
Defined.

Lemma report_summary_writes_beside_report_scenario :
  files (snd (DocumentsScenario.report_summary "key" LambdaScenario.completion
                "out/report.csv" DocumentsScenario.disk))
  = files DocumentsScenario.disk
  \/ exists s,
       files (snd (DocumentsScenario.report_summary "key" LambdaScenario.completion
                     "out/report.csv" DocumentsScenario.disk))
       = World.store "out/report_summary.txt" s (files DocumentsScenario.disk).
Proof.
  exact (report_summary_writes_beside_report "smart-notes-uploads" "" "key"
           DocumentsScenario.ClientError DocumentsScenario.missing_file
           DocumentsScenario.open_for_writing DocumentsScenario.write_error
           DocumentsScenario.upload_file DocumentsScenario.put_item
           DocumentsScenario.isoformat (LambdaScenario.post LambdaScenario.completion)
           LambdaScenario.subscript_error LambdaScenario.index_error
           LambdaScenario.attribute_error DocumentsScenario.not_iterable
           LambdaScenario.py_str "out/report" DocumentsScenario.disk
           eq_refl eq_refl eq_refl).
Defined.

Lemma without_key_report_is_not_summarised_scenario :
  DocumentsScenario.report_summary "" LambdaScenario.completion "out/report.csv"
    DocumentsScenario.disk
  = (Ok tt, with_lines [no_key_line; not_generated_line] DocumentsScenario.disk).
Proof.
  exact (without_key_report_is_not_summarised "smart-notes-uploads" "" ""
           DocumentsScenario.ClientError DocumentsScenario.missing_file
           DocumentsScenario.open_for_writing DocumentsScenario.write_error
           DocumentsScenario.upload_file DocumentsScenario.put_item
           DocumentsScenario.isoformat (LambdaScenario.post LambdaScenario.completion)
           LambdaScenario.subscript_error LambdaScenario.index_error
           LambdaScenario.attribute_error DocumentsScenario.not_iterable
           LambdaScenario.py_str "out/report.csv" "rows" DocumentsScenario.disk
           eq_refl eq_refl).
Defined.

Lemma without_key_presentation_gets_empty_summary_intro :
  World.content "talks/intro_summary.txt"
    (files (snd (DocumentsScenario.pptx "" LambdaScenario.completion
                   "talks/intro.pptx" None DocumentsScenario.disk)))
  = Some "".
Proof.
  exact (proj1 (without_key_presentation_gets_empty_summary "smart-notes-uploads" "" ""
           true DocumentsScenario.ClientError DocumentsScenario.missing_file
           DocumentsScenario.open_for_writing DocumentsScenario.write_error
           DocumentsScenario.upload_file DocumentsScenario.put_item
           DocumentsScenario.isoformat (LambdaScenario.post LambdaScenario.completion)
           LambdaScenario.subscript_error LambdaScenario.index_error
           DocumentsScenario.not_iterable DocumentsScenario.not_sliceable
           LambdaScenario.py_str DocumentsScenario.Presentation
           "talks/intro.pptx" [[Some "Title"; None; Some ""]; [Some "Body"]]
           DocumentsScenario.disk eq_refl eq_refl eq_refl eq_refl)).
Defined.

Lemma path_in_other_case_is_overwritten_deck :
  World.content "talks/Deck.PPTX"
    (files (snd (DocumentsScenario.tool "key" LambdaScenario.completion
                   "  talks/Deck.PPTX " DocumentsScenario.disk)))
  = Some "Three slides.".
Proof.
  unfold DocumentsScenario.tool.
  rewrite (path_in_other_case_is_overwritten "smart-notes-uploads" "" "key"
           true DocumentsScenario.ClientError DocumentsScenario.missing_file
           DocumentsScenario.open_for_writing DocumentsScenario.write_error
           DocumentsScenario.upload_file DocumentsScenario.put_item
           DocumentsScenario.isoformat (LambdaScenario.post LambdaScenario.completion)
           LambdaScenario.subscript_error LambdaScenario.index_error
           DocumentsScenario.not_iterable DocumentsScenario.not_sliceable
           LambdaScenario.py_str DocumentsScenario.Presentation
           DocumentsScenario.pdf_pages DocumentsScenario.analyze
           (inr "  talks/Deck.PPTX ") "  talks/Deck.PPTX " "talks/Deck.PPTX"
           DocumentsScenario.disk eq_refl eq_refl (or_introl (conj eq_refl eq_refl))).
  reflexivity.
Defined.


Lemma report_summary_is_stored_and_uploaded_scenario :
  files (snd (DocumentsScenario.report_summary "key" LambdaScenario.completion
                "out/report.csv" DocumentsScenario.disk))
  = World.store "out/report_summary.txt" "Three slides." (files DocumentsScenario.disk)
  /\ objects (snd (DocumentsScenario.report_summary "key" LambdaScenario.completion
                     "out/report.csv" DocumentsScenario.disk))
     = [("smart-notes-uploads", "report_summary.txt", "Three slides.")].
Proof.
  apply (report_summary_is_stored_and_uploaded "smart-notes-uploads" "" "key"
           DocumentsScenario.ClientError DocumentsScenario.missing_file
           DocumentsScenario.open_for_writing DocumentsScenario.write_error
           DocumentsScenario.upload_file DocumentsScenario.put_item
           DocumentsScenario.isoformat (LambdaScenario.post LambdaScenario.completion)
           LambdaScenario.subscript_error LambdaScenario.index_error
           LambdaScenario.attribute_error DocumentsScenario.not_iterable
           LambdaScenario.py_str "out/report" "rows" "Three slides."
           DocumentsScenario.disk DocumentsScenario.disk);
    first [reflexivity | discriminate].
Defined.

Lemma answer_that_is_no_text_empties_summary_null :
  fst (DocumentsScenario.pptx "key" DocumentsScenario.null_answer
         "talks/intro.pptx" None DocumentsScenario.disk)
  = Raise (DocumentsScenario.write_error JNull)
  /\ files (snd (DocumentsScenario.pptx "key" DocumentsScenario.null_answer
                   "talks/intro.pptx" None DocumentsScenario.disk))
     = World.store "talks/intro_summary.txt" "" (files DocumentsScenario.disk).
Proof.
  apply (answer_that_is_no_text_empties_summary "smart-notes-uploads" "" "key"
           true DocumentsScenario.ClientError DocumentsScenario.missing_file
           DocumentsScenario.open_for_writing DocumentsScenario.write_error
           DocumentsScenario.upload_file DocumentsScenario.put_item
           DocumentsScenario.isoformat
           (LambdaScenario.post DocumentsScenario.null_answer)
           LambdaScenario.subscript_error LambdaScenario.index_error
           DocumentsScenario.not_iterable DocumentsScenario.not_sliceable
           LambdaScenario.py_str DocumentsScenario.Presentation
           "talks/intro.pptx" None ("Title" ++ Py.nl ++ "Body") JNull
           DocumentsScenario.disk DocumentsScenario.disk);
    first [reflexivity | discriminate].
Defined.
